(** * ltijs Provider: a shallow embedding of [src/Provider/Provider.js]

    The Provider class is an Express middleware stack around a document
    store.  The embedding keeps the JavaScript the way it is written:

    - values are JavaScript values ([JS.value]) with their truthiness,
      [toString] and [+];
    - a thrown exception is the [Throw] result of a small state-and-error
      monad [Eff], and [try { } catch { }] is [try_catch];
    - the response object [res] and the document store are the state that the
      handlers thread ([World]);
    - the collaborators that live in other modules ([Utils/Auth],
      [Utils/Request], [Utils/Database], [jsonwebtoken], [fast-url-parser])
      are the fields of an environment record [Env]. *)

From Stdlib Require Import String Ascii List ZArith Bool Lia DecimalString.
Import ListNotations.
Local Open Scope list_scope.
Local Open Scope string_scope.
Set Warnings "-register-all".

(* ===================================================================== *)
(** ** JavaScript values *)
(* ===================================================================== *)

Module JS.

(** Numbers are the integral Numbers (exactly representable ones) and [NaN];
    this is closed under the one arithmetic operation the Provider uses,
    the [+] of two non-string primitives. *)
Inductive value : Type :=
| VUndefined
| VNull
| VBool (b : bool)
| VNum (n : Z)
| VNaN
| VStr (s : string)
| VObj (fields : list (string * value))
| VArr (elems : list value).

Definition object := list (string * value).

(** [!!v] *)
Definition truthy (v : value) : bool :=
  match v with
  | VUndefined | VNull | VNaN => false
  | VBool b => b
  | VNum n => negb (n =? 0)%Z
  | VStr s => negb (s =? "")
  | VObj _ | VArr _ => true
  end.

Definition string_of_Z (n : Z) : string := NilZero.string_of_int (Z.to_int n).

(** The abstract operation ToString.  A plain object prints as
    [[object Object]]; an array joins its elements with commas, printing
    [undefined] and [null] elements as the empty string. *)
Fixpoint ToString (v : value) : string :=
  match v with
  | VUndefined => "undefined"
  | VNull => "null"
  | VBool true => "true"
  | VBool false => "false"
  | VNum n => string_of_Z n
  | VNaN => "NaN"
  | VStr s => s
  | VObj _ => "[object Object]"
  | VArr l =>
      (fix join (l : list value) : string :=
         match l with
         | [] => ""
         | x :: r =>
             let sx := match x with
                       | VUndefined | VNull => ""
                       | _ => ToString x
                       end in
             match r with
             | [] => sx
             | _ :: _ => sx ++ "," ++ join r
             end
         end) l
  end.

(** Own-property lookup in an object literal / parsed JSON object. The first
    binding of a key is the live one. *)
Fixpoint lookup (k : string) (o : object) : value :=
  match o with
  | [] => VUndefined
  | (k', v) :: o' => if k' =? k then v else lookup k o'
  end.

(** [o[k] = v] on an object: overwrite in place, or append a new key. *)
Fixpoint set (k : string) (v : value) (o : object) : object :=
  match o with
  | [] => [(k, v)]
  | (k', v') :: o' => if k' =? k then (k', v) :: o' else (k', v') :: set k v o'
  end.

(** [{ ...a, ...b }] *)
Definition spread (a b : object) : object :=
  fold_left (fun acc kv => set (fst kv) (snd kv) acc) b a.

(** [v.k] / [v[k]] once [v] is known not to be [undefined] or [null]:
    primitives have no own data properties of interest here. *)
Definition field (v : value) (k : string) : value :=
  match v with
  | VObj o => lookup k o
  | _ => VUndefined
  end.

Definition nullish (v : value) : bool :=
  match v with
  | VUndefined | VNull => true
  | _ => false
  end.

(** [route === Object(route)] *)
Definition isObject (v : value) : bool :=
  match v with
  | VObj _ | VArr _ => true
  | _ => false
  end.

(** ToNumber on the non-string primitives. *)
Definition ToNumber (v : value) : value :=
  match v with
  | VNull => VNum 0
  | VBool true => VNum 1
  | VBool false => VNum 0
  | VNum n => VNum n
  | _ => VNaN
  end.

(** The binary [+]: string concatenation as soon as one operand is a string
    (objects and arrays become strings by ToPrimitive), otherwise numeric
    addition. *)
Definition stringish (v : value) : bool :=
  match v with
  | VStr _ | VObj _ | VArr _ => true
  | _ => false
  end.

Definition add (a b : value) : value :=
  if stringish a || stringish b then VStr (ToString a ++ ToString b)
  else match ToNumber a, ToNumber b with
       | VNum x, VNum y => VNum (x + y)
       | _, _ => VNaN
       end.

(** Structural equality, used by the document store to match a filter. *)
Fixpoint eqb (a b : value) : bool :=
  match a, b with
  | VUndefined, VUndefined => true
  | VNull, VNull => true
  | VNaN, VNaN => true
  | VBool x, VBool y => Bool.eqb x y
  | VNum x, VNum y => (x =? y)%Z
  | VStr x, VStr y => (x =? y)%string
  | VObj f, VObj g =>
      (fix go (f g : list (string * value)) : bool :=
         match f, g with
         | [], [] => true
         | (k, v) :: f', (k', v') :: g' => (k =? k')%string && eqb v v' && go f' g'
         | _, _ => false
         end) f g
  | VArr l, VArr m =>
      (fix go (l m : list value) : bool :=
         match l, m with
         | [], [] => true
         | v :: l', v' :: m' => eqb v v' && go l' m'
         | _, _ => false
         end) l m
  | _, _ => false
  end.

(** [Array.prototype.indexOf(s) !== -1] for a string [s]: strict equality, so
    only a string element can be found. *)
Definition includes_string (l : list value) (s : string) : bool :=
  existsb (fun v => match v with VStr t => (t =? s)%string | _ => false end) l.

(** *** Strings *)

Definition map_string (f : ascii -> ascii) : string -> string :=
  fix go (s : string) : string :=
    match s with
    | EmptyString => EmptyString
    | String c r => String (f c) (go r)
    end.

Definition upper_ascii (c : ascii) : ascii :=
  let n := nat_of_ascii c in
  if (97 <=? n)%nat && (n <=? 122)%nat then ascii_of_nat (n - 32) else c.

(** [String.prototype.toUpperCase] on ASCII text (HTTP method names). *)
Definition toUpperCase (s : string) : string := map_string upper_ascii s.

Definition hex_digit (n : nat) : ascii :=
  match String.get n "0123456789ABCDEF" with
  | Some c => c
  | None => "0"%char
  end.

Definition uri_unreserved (c : ascii) : bool :=
  let n := nat_of_ascii c in
  ((65 <=? n) && (n <=? 90) || (97 <=? n) && (n <=? 122) || (48 <=? n) && (n <=? 57)
   || existsb (Nat.eqb n) [45; 95; 46; 33; 126; 42; 39; 40; 41])%nat.

(** [encodeURIComponent] on a well-formed string, seen as its UTF-8 bytes:
    every byte outside [A-Z a-z 0-9 - _ . ! ~ * ' ( )] becomes [%XX]. *)
Fixpoint encodeURIComponent (s : string) : string :=
  match s with
  | EmptyString => EmptyString
  | String c r =>
      if uri_unreserved c then String c (encodeURIComponent r)
      else let n := nat_of_ascii c in
           String "%" (String (hex_digit (n / 16)) (String (hex_digit (n mod 16))
                                                          (encodeURIComponent r)))
  end.

Definition b64_char (n : nat) : ascii :=
  match String.get n "ABCDEFGHIJKLMNOPQRSTUVWXYZabcdefghijklmnopqrstuvwxyz0123456789+/" with
  | Some c => c
  | None => "="%char
  end.

Fixpoint base64_bytes (l : list nat) : string :=
  match l with
  | [] => ""
  | [a] =>
      String (b64_char (a / 4)) (String (b64_char ((a mod 4) * 16)) "==")
  | [a; b] =>
      String (b64_char (a / 4))
        (String (b64_char ((a mod 4) * 16 + b / 16))
           (String (b64_char ((b mod 16) * 4)) "="))
  | a :: b :: c :: rest =>
      String (b64_char (a / 4))
        (String (b64_char ((a mod 4) * 16 + b / 16))
           (String (b64_char ((b mod 16) * 4 + c / 64))
              (String (b64_char (c mod 64)) (base64_bytes rest))))
  end.

(** [Buffer.from(s).toString('base64')] *)
Definition base64 (s : string) : string :=
  base64_bytes (map nat_of_ascii (list_ascii_of_string s)).

(** [n.toString(36)] for one base-36 digit. *)
Definition digit36 (n : nat) : string :=
  match String.get n "0123456789abcdefghijklmnopqrstuvwxyz" with
  | Some c => String c ""
  | None => ""
  end.

End JS.

Import JS.

(* ===================================================================== *)
(** ** Exceptions and state *)
(* ===================================================================== *)

Inductive result (A : Type) : Type :=
| Ok (a : A)
| Throw (message : string).
Arguments Ok {A} a.
Arguments Throw {A} message.

(** A computation over a mutable state [S] that returns or throws; the state
    reached when the exception is thrown is the state the handler sees. *)
Definition Eff (S A : Type) : Type := S -> S * result A.

Definition ret {S A} (a : A) : Eff S A := fun s => (s, Ok a).
Definition throw {S A} (message : string) : Eff S A := fun s => (s, Throw message).

Definition bind {S A B} (m : Eff S A) (k : A -> Eff S B) : Eff S B :=
  fun s =>
    match m s with
    | (s', Ok a) => k a s'
    | (s', Throw e) => (s', Throw e)
    end.

Definition try_catch {S A} (m : Eff S A) (handler : string -> Eff S A) : Eff S A :=
  fun s =>
    match m s with
    | (s', Ok a) => (s', Ok a)
    | (s', Throw e) => handler e s'
    end.

Definition of_result {S A} (r : result A) : Eff S A := fun s => (s, r).

Declare Scope eff_scope.
Delimit Scope eff_scope with eff.
Notation "x <- m ;; k" := (bind m (fun x => k))
  (at level 100, m at next level, right associativity) : eff_scope.
Notation "m ;;; k" := (bind m (fun _ => k))
  (at level 100, right associativity) : eff_scope.
Local Open Scope eff_scope.

(** Reading a property of [undefined] or [null] is a TypeError. *)
Definition require_coercible {S} (v : value) : Eff S unit :=
  if nullish v then throw "TypeError: Cannot read properties of undefined" else ret tt.

(** [v.toString()] *)
Definition toString_method (v : value) : result string :=
  if nullish v then Throw "TypeError: Cannot read properties of undefined (reading 'toString')"
  else Ok (ToString v).

(** [v.toUpperCase()]: only strings have the method. *)
Definition toUpperCase_method (v : value) : result string :=
  match v with
  | VStr s => Ok (toUpperCase s)
  | VUndefined | VNull => Throw "TypeError: Cannot read properties of undefined (reading 'toUpperCase')"
  | _ => Throw "TypeError: toUpperCase is not a function"
  end.

(** [Buffer.from(v).toString('base64')] where [v] is the result of a [+]:
    a string is encoded, a Number is rejected with a TypeError. *)
Definition Buffer_from_base64 (v : value) : result string :=
  match v with
  | VStr s => Ok (base64 s)
  | _ => Throw "TypeError [ERR_INVALID_ARG_TYPE]: The first argument must be of type string"
  end.

(* ===================================================================== *)
(** ** The document store *)
(* ===================================================================== *)

Definition row := object.

(** The logical collections ([platform], [publickey], [privatekey],
    [idtoken], [contexttoken]), each a sequence of rows. *)
Definition Store := string -> list row.

Definition empty_store : Store := fun _ => [].

Definition with_collection (c : string) (rows : list row) (st : Store) : Store :=
  fun c' => if c' =? c then rows else st c'.

(** The interface of [this.Database].  [Get] answers [false] ([None]) or an
    array of rows; every operation may throw. *)
Record DatabaseOps : Type := {
  Get : bool -> string -> option object -> Eff Store (option (list row));
  Replace : bool -> string -> object -> object -> Eff Store unit;
  Modify : bool -> string -> object -> object -> Eff Store unit;
  Delete : string -> object -> Eff Store unit
}.

Module MemoryStore.

(** Modelled from the spec: the filters of the Store contract
    ([Utils/Database] is not under src/). A row matches a filter when it
    agrees with it on every filtered key. *)
Definition matches (filter : object) (r : row) : bool :=
  forallb (fun kv => JS.eqb (lookup (fst kv) r) (snd kv)) filter.

Definition find (c : string) (filter : object) (st : Store) : list row :=
  List.filter (matches filter) (st c).

(** Modelled from the spec: an upsert replaces the first row that matches,
    or adds the row ([Utils/Database] is not under src/). *)
Fixpoint replace_first (filter : object) (new : row) (rows : list row) : list row :=
  match rows with
  | [] => [new]
  | r :: rs => if matches filter r then new :: rs else r :: replace_first filter new rs
  end.

(** Modelled from the spec: a modification overwrites the patched fields of
    the first row that matches ([Utils/Database] is not under src/). *)
Fixpoint modify_first (filter : object) (patch : object) (rows : list row) : list row :=
  match rows with
  | [] => []
  | r :: rs => if matches filter r then spread r patch :: rs
               else r :: modify_first filter patch rs
  end.

(** Modelled from the spec: the Store contract of the external interfaces
    ([Utils/Database] is not under src/): [Get(encrypted?, collection,
    filter)] returns the matching rows or [false]. *)
Definition get (encrypted : bool) (c : string) (filter : option object)
  : Eff Store (option (list row)) :=
  fun st =>
    let rows := match filter with
                | None => st c
                | Some f => find c f st
                end in
    (st, Ok (match rows with [] => None | _ :: _ => Some rows end)).

(** Modelled from the spec: [Replace(encrypted?, collection, filter, value)]
    is an upsert ([Utils/Database] is not under src/). *)
Definition replace (encrypted : bool) (c : string) (filter : object) (new : object)
  : Eff Store unit :=
  fun st => (with_collection c (replace_first filter new (st c)) st, Ok tt).

(** Modelled from the spec: [Modify(encrypted?, collection, filter, patch)]
    patches the matching row ([Utils/Database] is not under src/). *)
Definition modify (encrypted : bool) (c : string) (filter : object) (patch : object)
  : Eff Store unit :=
  fun st => (with_collection c (modify_first filter patch (st c)) st, Ok tt).

(** Modelled from the spec: [Delete(collection, filter)] removes the rows
    that match ([Utils/Database] is not under src/). *)
Definition delete (c : string) (filter : object) : Eff Store unit :=
  fun st =>
    (with_collection c (List.filter (fun r => negb (matches filter r)) (st c)) st, Ok tt).

Definition db : DatabaseOps :=
  {| Get := get; Replace := replace; Modify := modify; Delete := delete |}.

End MemoryStore.

(* ===================================================================== *)
(** ** Platform objects *)
(* ===================================================================== *)

(** [new Platform(name, url, clientId, authEndpoint, accesstokenEndpoint, kid,
    ENCRYPTIONKEY, authConfig, Database)] *)
Record Platform : Type := {
  plat_name : value;
  plat_url : value;
  plat_clientId : value;
  plat_authEndpoint : value;
  plat_accesstokenEndpoint : value;
  plat_kid : value;
  plat_ENCRYPTIONKEY : string;
  plat_authConfig : value;
  plat_Database : DatabaseOps
}.

(** Modelled from the spec: the accessors of a Platform ([Utils/Platform] is
    not under src/) answer the fields of the Platform record it was built
    from. *)
Definition platformName (p : Platform) : value := plat_name p.
Definition platformClientId (p : Platform) : value := plat_clientId p.
Definition platformAuthEndpoint (p : Platform) : value := plat_authEndpoint p.
Definition platformAccessTokenEndpoint (p : Platform) : value := plat_accesstokenEndpoint p.
Definition platformAuthConfig (p : Platform) : value := plat_authConfig p.

(* ===================================================================== *)
(** ** The Provider object and its collaborators *)
(* ===================================================================== *)

Record CookieOptions : Type := {
  secure : bool;
  httpOnly : bool;
  signed : bool;
  sameSite : value;
  maxAge : option Z
}.

(** The private fields of the Provider instance. *)
Record Provider : Type := {
  loginRoute : string;
  appRoute : string;
  sessionTimeoutRoute : string;
  invalidTokenRoute : string;
  keysetRoute : string;
  whitelistedRoutes : list value;
  ENCRYPTIONKEY : string;
  devMode : bool;
  tokenMaxAge : value;
  cookieOptions : CookieOptions
}.

(** The pre-initiated variables of the class. *)
Definition initial_provider (encryptionkey : string) : Provider :=
  {| loginRoute := "/login";
     appRoute := "/";
     sessionTimeoutRoute := "/sessionTimeout";
     invalidTokenRoute := "/invalidToken";
     keysetRoute := "/keys";
     whitelistedRoutes := [];
     ENCRYPTIONKEY := encryptionkey;
     devMode := false;
     tokenMaxAge := VNum 10;
     cookieOptions := {| secure := false; httpOnly := true; signed := true;
                         sameSite := VUndefined; maxAge := None |} |}.

(** What the Provider calls in other modules.  [validateToken],
    [generateProviderKeyPair] and [ltiAdvantageLogin] receive the Database and
    so act on the store; [jwt_sign] and [jwt_verify] are [jsonwebtoken]'s
    [sign] and [verify]; [random36 i] is the value of the [i]-th
    [Math.random() * 36 | 0]. *)
Record Env : Type := {
  Database : DatabaseOps;
  validateToken : value -> bool -> object -> Eff Store value;
  generateProviderKeyPair : string -> value -> Eff Store value;
  ltiAdvantageLogin : object -> Platform -> string -> Eff Store object;
  jwt_sign : value -> string -> result string;
  jwt_verify : value -> string -> result value;
  random36 : nat -> nat;
  url_format : value -> object -> string;
  URLSearchParams_toString : object -> string
}.

(** The response under construction: the cookie operations emitted so far
    (oldest first) and [res.locals]. *)
Inductive CookieOp : Type :=
| SetCookie (name : string) (val : value) (options : CookieOptions)
| ClearCookie (name : string) (options : CookieOptions).

Record Response : Type := {
  res_cookies : list CookieOp;
  res_locals : object
}.

Definition fresh_response : Response := {| res_cookies := []; res_locals := [] |}.

Record World : Type := {
  store : Store;
  res : Response
}.

(** How a middleware or handler ends. *)
Inductive Outcome : Type :=
| Next
| Redirect (location : string)
| Send (status : nat) (body : string)
| SendStatus (status : nat).

Record Request : Type := {
  req_baseUrl : string;
  req_path : string;
  req_method : string;
  req_token : value;
  req_signedCookies : object;
  req_body : object;
  req_query : object
}.

(** A store operation run inside a handler. *)
Definition db_op {A} (m : Eff Store A) : Eff World A :=
  fun w =>
    let (st, r) := m (store w) in
    ({| store := st; res := res w |}, r).

Definition res_cookie (name : string) (val : value) (options : CookieOptions) : Eff World unit :=
  fun w =>
    ({| store := store w;
        res := {| res_cookies := (res_cookies (res w) ++ [SetCookie name val options])%list;
                  res_locals := res_locals (res w) |} |}, Ok tt).

Definition res_clearCookie (name : string) (options : CookieOptions) : Eff World unit :=
  fun w =>
    ({| store := store w;
        res := {| res_cookies := (res_cookies (res w) ++ [ClearCookie name options])%list;
                  res_locals := res_locals (res w) |} |}, Ok tt).

Definition res_locals_set (k : string) (v : value) : Eff World unit :=
  fun w =>
    ({| store := store w;
        res := {| res_cookies := res_cookies (res w);
                  res_locals := set k v (res_locals (res w)) |} |}, Ok tt).

(** The browser's view: the signed cookies it holds once it has applied the
    cookie operations of a response. *)
Fixpoint remove_cookie (name : string) (jar : object) : object :=
  match jar with
  | [] => []
  | (k, v) :: jar' => if k =? name then remove_cookie name jar'
                      else (k, v) :: remove_cookie name jar'
  end.

Definition apply_cookie_op (jar : object) (op : CookieOp) : object :=
  match op with
  | SetCookie name val _ => set name val (remove_cookie name jar)
  | ClearCookie name _ => remove_cookie name jar
  end.

Definition cookies_after (jar : object) (ops : list CookieOp) : object :=
  fold_left apply_cookie_op ops jar.

Definition cookie_is_set (name : string) (jar : object) : bool :=
  existsb (fun kv => fst kv =? name) jar.

(* ===================================================================== *)
(** ** Provider methods *)
(* ===================================================================== *)

(** [a || b] *)
Definition or_else (a b : value) : value := if truthy a then a else b.

Definition Platform_of_row (key : string) (D : DatabaseOps) (obj : row) : Platform :=
  {| plat_name := lookup "platformName" obj;
     plat_url := lookup "platformUrl" obj;
     plat_clientId := lookup "clientId" obj;
     plat_authEndpoint := lookup "authEndpoint" obj;
     plat_accesstokenEndpoint := lookup "accesstokenEndpoint" obj;
     plat_kid := lookup "kid" obj;
     plat_ENCRYPTIONKEY := key;
     plat_authConfig := lookup "authConfig" obj;
     plat_Database := D |}.

(** [!platform.name || !platform.clientId || !platform.authenticationEndpoint
    || !platform.accesstokenEndpoint || !platform.authConfig] *)
Definition missing_arguments (platform : value) : bool :=
  negb (truthy (field platform "name"))
  || negb (truthy (field platform "clientId"))
  || negb (truthy (field platform "authenticationEndpoint"))
  || negb (truthy (field platform "accesstokenEndpoint"))
  || negb (truthy (field platform "authConfig")).

(** The document that [registerPlatform] upserts for a new platform. *)
Definition platform_document (platform kid : value) : object :=
  [("platformName", field platform "name");
   ("platformUrl", field platform "url");
   ("clientId", field platform "clientId");
   ("authEndpoint", field platform "authenticationEndpoint");
   ("accesstokenEndpoint", field platform "accesstokenEndpoint");
   ("kid", kid);
   ("authConfig", field platform "authConfig")].

(** The modification that [registerPlatform] applies to a platform that is
    already registered. *)
Definition platform_patch (platform : value) (_platform : Platform) : object :=
  [("platformName", or_else (field platform "name") (platformName _platform));
   ("clientId", or_else (field platform "clientId") (platformClientId _platform));
   ("authEndpoint", or_else (field platform "authenticationEndpoint")
                      (platformAuthEndpoint _platform));
   ("accesstokenEndpoint", or_else (field platform "accesstokenEndpoint")
                             (platformAccessTokenEndpoint _platform));
   ("authConfig", or_else (field platform "authConfig") (platformAuthConfig _platform))].

Section ProviderMethods.

Variable E : Env.
Variable P : Provider.

(** [getPlatform (url, ENCRYPTIONKEY, Database)]; the answer [false] is
    [None]. *)
Definition getPlatform (url : value) (ENCRYPTIONKEY' : option string)
  (Database' : option DatabaseOps) : Eff Store (option Platform) :=
  if negb (truthy url) then throw "No url provided"
  else
    let D := match Database' with Some d => d | None => Database E end in
    plat <- Get D false "platform" (Some [("platformUrl", url)]) ;;
    match plat with
    | None => ret None
    | Some [] => ret None
    | Some (obj :: _) =>
        ret (Some (Platform_of_row
                     (match ENCRYPTIONKEY' with Some k => k | None => ENCRYPTIONKEY P end)
                     D obj))
    end.

(** [getAllPlatforms ()] *)
Definition getAllPlatforms : Eff Store (list Platform) :=
  platforms <- Get (Database E) false "platform" None ;;
  match platforms with
  | Some rows => ret (map (Platform_of_row (ENCRYPTIONKEY P) (Database E)) rows)
  | None => ret []
  end.

(** The local state of [registerPlatform]: the store and the variable
    [let kid], which the [catch] block reads. *)
Record RegState : Type := {
  rs_store : Store;
  rs_kid : value
}.

Definition reg_db {A} (m : Eff Store A) : Eff RegState A :=
  fun s =>
    let (st, r) := m (rs_store s) in
    ({| rs_store := st; rs_kid := rs_kid s |}, r).

Definition assign_kid (k : value) : Eff RegState unit :=
  fun s => ({| rs_store := rs_store s; rs_kid := k |}, Ok tt).

Definition read_kid : Eff RegState value := fun s => (s, Ok (rs_kid s)).

Definition registerPlatform_try (platform : value) : Eff RegState Platform :=
  let url := field platform "url" in
  _platform <- reg_db (getPlatform url None None) ;;
  match _platform with
  | None =>
      if missing_arguments platform
      then throw "Error registering platform. Missing arguments."
      else
        k <- reg_db (generateProviderKeyPair E (ENCRYPTIONKEY P) url) ;;
        (assign_kid k ;;;
         let plat :=
           {| plat_name := field platform "name";
              plat_url := url;
              plat_clientId := field platform "clientId";
              plat_authEndpoint := field platform "authenticationEndpoint";
              plat_accesstokenEndpoint := field platform "accesstokenEndpoint";
              plat_kid := k;
              plat_ENCRYPTIONKEY := ENCRYPTIONKEY P;
              plat_authConfig := field platform "authConfig";
              plat_Database := Database E |} in
         (reg_db (Replace (Database E) false "platform" [("platformUrl", url)]
                    (platform_document platform k)) ;;;
          ret plat))
  | Some _platform =>
      (reg_db (Modify (Database E) false "platform" [("platformUrl", url)]
                 (platform_patch platform _platform)) ;;;
       ret _platform)
  end.

Definition registerPlatform_catch (platform : value) (err : string) : Eff RegState Platform :=
  kid <- read_kid ;;
  (reg_db (Delete (Database E) "publickey" [("kid", kid)]) ;;;
   reg_db (Delete (Database E) "privatekey" [("kid", kid)]) ;;;
   reg_db (Delete (Database E) "platform" [("platformUrl", field platform "url")]) ;;;
   throw ("Error: " ++ err)).

(** [registerPlatform (platform)] *)
Definition registerPlatform (platform : value) : Eff Store Platform :=
  if negb (truthy platform) || negb (truthy (field platform "url"))
  then throw "Error. Missing platform Url."
  else
    fun st =>
      let (s, r) := try_catch (registerPlatform_try platform) (registerPlatform_catch platform)
                      {| rs_store := st; rs_kid := VUndefined |} in
      (rs_store s, r).

End ProviderMethods.

(** The loop of [whitelist]: the entries are formatted in order and the first
    malformed one throws. *)
Fixpoint format_routes (routes : list value) : result (list value) :=
  match routes with
  | [] => Ok []
  | route :: rest =>
      let formatted :=
        if isObject route then
          if negb (truthy (field route "route")) || negb (truthy (field route "method"))
          then Throw "Wrong object format on route."
          else match toUpperCase_method (field route "method") with
               | Ok m => Ok (add (add (field route "route") (VStr "-method-")) (VStr m))
               | Throw e => Throw e
               end
        else Ok route in
      match formatted with
      | Throw e => Throw e
      | Ok r => match format_routes rest with
                | Ok rs => Ok (r :: rs)
                | Throw e => Throw e
                end
      end
  end.

Definition set_whitelistedRoutes (l : list value) : Eff Provider unit :=
  fun P =>
    ({| loginRoute := loginRoute P;
        appRoute := appRoute P;
        sessionTimeoutRoute := sessionTimeoutRoute P;
        invalidTokenRoute := invalidTokenRoute P;
        keysetRoute := keysetRoute P;
        whitelistedRoutes := l;
        ENCRYPTIONKEY := ENCRYPTIONKEY P;
        devMode := devMode P;
        tokenMaxAge := tokenMaxAge P;
        cookieOptions := cookieOptions P |}, Ok tt).

(** [whitelist (...routes)]: the rest parameter [routes] is the array of the
    arguments. *)
Definition whitelist (routes : list value) : Eff Provider bool :=
  if negb (truthy (VArr routes)) then throw "No route passed."
  else
    formattedRoutes <- of_result (format_routes routes) ;;
    (set_whitelistedRoutes formattedRoutes ;;;
     ret true).

(* ===================================================================== *)
(** ** The authentication middleware and the login route *)
(* ===================================================================== *)

Definition claim_context := "https://purl.imsglobal.org/spec/lti/claim/context".
Definition claim_resource_link := "https://purl.imsglobal.org/spec/lti/claim/resource_link".
Definition claim_deployment_id := "https://purl.imsglobal.org/spec/lti/claim/deployment_id".
Definition claim_roles := "https://purl.imsglobal.org/spec/lti/claim/roles".
Definition claim_tool_platform := "https://purl.imsglobal.org/spec/lti/claim/tool_platform".
Definition claim_lis := "https://purl.imsglobal.org/spec/lti/claim/lis".
Definition claim_endpoint := "https://purl.imsglobal.org/spec/lti-ags/claim/endpoint".
Definition claim_namesroleservice :=
  "https://purl.imsglobal.org/spec/lti-nrps/claim/namesroleservice".
Definition claim_target_link_uri := "https://purl.imsglobal.org/spec/lti/claim/target_link_uri".
Definition claim_custom := "https://purl.imsglobal.org/spec/lti/claim/custom".
Definition claim_launch_presentation :=
  "https://purl.imsglobal.org/spec/lti/claim/launch_presentation".
Definition claim_message_type := "https://purl.imsglobal.org/spec/lti/claim/message_type".
Definition claim_version := "https://purl.imsglobal.org/spec/lti/claim/version".
Definition claim_deep_linking_settings :=
  "https://purl.imsglobal.org/spec/lti-dl/claim/deep_linking_settings".

(** [rows[0]] *)
Definition first_row (rows : list row) : value :=
  match rows with
  | [] => VUndefined
  | r :: _ => VObj r
  end.

(** [target.k = v] in strict mode, for a target that is an object or
    [undefined]. *)
Definition assign_property {S} (target : value) (k : string) (v : value) : Eff S value :=
  match target with
  | VObj o => ret (VObj (set k v o))
  | _ => throw "TypeError: Cannot set properties of undefined"
  end.

Section Middleware.

Variable E : Env.
Variable P : Provider.

Definition reserved (path : string) : bool :=
  (path =? loginRoute P) || (path =? sessionTimeoutRoute P)
  || (path =? invalidTokenRoute P) || (path =? keysetRoute P).

Definition whitelisted (req : Request) : bool :=
  includes_string (whitelistedRoutes P) (req_path req)
  || includes_string (whitelistedRoutes P)
       (req_path req ++ "-method-" ++ toUpperCase (req_method req)).

(** The [courseId] / [resourceId] of a launch: the [id] of the claim, or
    ['NF'] when the claim is missing. *)
Definition id_or_NF (claim : value) : value :=
  if truthy claim then field claim "id" else VStr "NF".

(** ['state' + state], the name of the state cookie of a callback. *)
Definition state_cookie_name (req : Request) : string :=
  ToString (add (VStr "state") (lookup "state" (req_body req))).

(** [{ iss: validationCookie, maxAge: this.#tokenMaxAge }] *)
Definition validationParameters (req : Request) : object :=
  [("iss", lookup (state_cookie_name req) (req_signedCookies req));
   ("maxAge", tokenMaxAge P)].

(** [cookies[platformCode]], the session cookie named by the LTIK. *)
Definition session_cookie (req : Request) (validLtik : value) : value :=
  lookup (ToString (field validLtik "platformCode")) (req_signedCookies req).

(** The filters of the two session rows. *)
Definition idtoken_filter (platformUrl deploymentId user : value) : object :=
  [("iss", platformUrl); ("deploymentId", deploymentId); ("user", user)].

Definition contexttoken_filter (contextId user : value) : object :=
  [("contextId", contextId); ("user", user)].

(** The [if (idtoken)] branch of [sessionValidator]: validation of the
    id_token and materialization of the session. *)
Definition sessionValidator_launch (req : Request) (idtoken : value) : Eff World Outcome :=
  let state := lookup "state" (req_body req) in
  valid <- db_op (validateToken E idtoken (devMode P) (validationParameters req)) ;;
  (res_clearCookie (state_cookie_name req) (cookieOptions P) ;;;
   require_coercible valid ;;;
   let courseId := id_or_NF (field valid claim_context) in
   let resourceId := id_or_NF (field valid claim_resource_link) in
   let deploymentId := field valid claim_deployment_id in
   let contextId :=
     encodeURIComponent
       (ToString (add (add (add (add (field valid "iss") deploymentId) courseId)
                         (VStr "_")) resourceId)) in
   b64 <- of_result (Buffer_from_base64 (add (field valid "iss") deploymentId)) ;;
   let platformCode := encodeURIComponent ("lti" ++ b64) in
   let platformToken :=
     [("iss", field valid "iss");
      ("user", field valid "sub");
      ("roles", field valid claim_roles);
      ("userInfo", VObj [("given_name", field valid "given_name");
                         ("family_name", field valid "family_name");
                         ("name", field valid "name");
                         ("email", field valid "email")]);
      ("platformInfo", field valid claim_tool_platform);
      ("deploymentId", field valid claim_deployment_id);
      ("lis", field valid claim_lis);
      ("endpoint", field valid claim_endpoint);
      ("namesRoles", field valid claim_namesroleservice)] in
   (db_op (Replace (Database E) false "idtoken"
             (idtoken_filter (field valid "iss") deploymentId (field valid "sub"))
             platformToken) ;;;
    let contextToken :=
      [("contextId", VStr contextId);
       ("path", VStr (req_path req));
       ("user", field valid "sub");
       ("targetLinkUri", field valid claim_target_link_uri);
       ("context", field valid claim_context);
       ("resource", field valid claim_resource_link);
       ("custom", field valid claim_custom);
       ("launchPresentation", field valid claim_launch_presentation);
       ("messageType", field valid claim_message_type);
       ("version", field valid claim_version);
       ("deepLinkingSettings", field valid claim_deep_linking_settings)] in
    (db_op (Replace (Database E) false "contexttoken"
              (contexttoken_filter (VStr contextId) (field valid "sub")) contextToken) ;;;
     res_cookie platformCode (field valid "sub") (cookieOptions P) ;;;
     let newLtikObj :=
       VObj [("platformUrl", field valid "iss");
             ("deploymentId", deploymentId);
             ("platformCode", VStr platformCode);
             ("contextId", VStr contextId);
             ("user", field valid "sub");
             ("s", state)] in
     newLtik <- of_result (jwt_sign E newLtikObj (ENCRYPTIONKEY P)) ;;
     let urlSearchParams :=
       URLSearchParams_toString E (req_query req ++ [("ltik", VStr newLtik)])%list in
     ret (Redirect (req_baseUrl req ++ req_path req ++ "?" ++ urlSearchParams))))).

(** The part of [sessionValidator] after [jwt.verify]: the session cookie is
    compared with the LTIK and the session is loaded from the store. *)
Definition sessionValidator_session (req : Request) (ltik validLtik : value)
  : Eff World Outcome :=
  require_coercible validLtik ;;;
  let platformUrl := field validLtik "platformUrl" in
  let deploymentId := field validLtik "deploymentId" in
  let contextId := field validLtik "contextId" in
  let user := field validLtik "user" in
  let cookieUser := session_cookie req validLtik in
  user <- (if negb (truthy cookieUser)
           then ret (if negb (devMode P) then VBool false else user)
           else su <- of_result (toString_method user) ;;
                sc <- of_result (toString_method cookieUser) ;;
                ret (if negb (su =? sc) then VBool false else user)) ;;
  if truthy user then
    idToken <- db_op (Get (Database E) false "idtoken"
                        (Some (idtoken_filter platformUrl deploymentId user))) ;;
    match idToken with
    | None => throw "No id token found in database"
    | Some idToken =>
        let idToken := first_row idToken in
        contextToken <- db_op (Get (Database E) false "contexttoken"
                                 (Some (contexttoken_filter contextId user))) ;;
        match contextToken with
        | None => throw "No context token found in database"
        | Some contextToken =>
            let contextToken := first_row contextToken in
            idToken <- assign_property idToken "platformContext" contextToken ;;
            (res_locals_set "context" contextToken ;;;
             res_locals_set "token" idToken ;;;
             res_locals_set "ltik" ltik ;;;
             ret Next)
        end
    end
  else ret (Redirect (req_baseUrl req ++ sessionTimeoutRoute P)).

(** [sessionValidator (req, res, next)] *)
Definition sessionValidator (req : Request) : Eff World Outcome :=
  if reserved (req_path req) then ret Next
  else
    try_catch
      (let ltik := req_token req in
       if negb (truthy ltik) then
         let idtoken := lookup "id_token" (req_body req) in
         if truthy idtoken then sessionValidator_launch req idtoken
         else if whitelisted req then ret Next
              else ret (Redirect (req_baseUrl req ++ invalidTokenRoute P))
       else
         match jwt_verify E ltik (ENCRYPTIONKEY P) with
         | Throw err => if whitelisted req then ret Next else throw err
         | Ok validLtik => sessionValidator_session req ltik validLtik
         end)
      (fun err => ret (Redirect (req_baseUrl req ++ invalidTokenRoute P))).

(** The [state] parameter: twenty base-36 digits drawn from [Math.random]. *)
Definition new_state : string :=
  encodeURIComponent (String.concat "" (map (fun i => digit36 (random36 E i)) (seq 0 20))).

Definition state_cookieOptions : CookieOptions :=
  {| secure := secure (cookieOptions P);
     httpOnly := httpOnly (cookieOptions P);
     signed := signed (cookieOptions P);
     sameSite := sameSite (cookieOptions P);
     maxAge := Some (60 * 10 * 1000)%Z |}.

(** The handler of [app.all(loginRoute, ...)], registered by [setup]. *)
Definition loginHandler (req : Request) : Eff World Outcome :=
  let params := spread (req_query req) (req_body req) in
  try_catch
    (let iss := lookup "iss" params in
     platform <- db_op (getPlatform E P iss None None) ;;
     match platform with
     | Some platform =>
         let state := new_state in
         (res_cookie ("state" ++ state) iss state_cookieOptions ;;;
          query <- db_op (ltiAdvantageLogin E params platform state) ;;
          ret (Redirect (url_format E (platformAuthEndpoint platform) query)))
     | None => ret (Send 401 "Unregistered platform.")
     end)
    (fun err => ret (SendStatus 400)).

End Middleware.

(* ===================================================================== *)
(** ** A concrete deployment, for running the model *)
(* ===================================================================== *)

Module Demo.

Definition iss := "https://lms.example/".

(** The claims of a resource-link launch of user [u1] into course [c],
    resource [r], deployment [d]. *)
Definition claims : value :=
  VObj [("iss", VStr iss);
        ("sub", VStr "u1");
        (claim_deployment_id, VStr "d");
        (claim_context, VObj [("id", VStr "c")]);
        (claim_resource_link, VObj [("id", VStr "r")]);
        (claim_message_type, VStr "LtiResourceLinkRequest");
        (claim_version, VStr "1.3.0");
        (claim_target_link_uri, VStr "https://tool.example/")].

Definition platformCode := "ltiaHR0cHM6Ly9sbXMuZXhhbXBsZS9k".
Definition contextId := "https%3A%2F%2Flms.example%2Fdc_r".

Definition ltik_payload : value :=
  VObj [("platformUrl", VStr iss);
        ("deploymentId", VStr "d");
        ("platformCode", VStr platformCode);
        ("contextId", VStr contextId);
        ("user", VStr "u1");
        ("s", VStr "abc")].

(** Test doubles for the collaborators: one id_token and one LTIK are
    accepted, key generation writes one key pair. *)
Definition validate (idtoken : value) (devMode : bool) (params : object)
  : Eff Store value :=
  if JS.eqb idtoken (VStr "good.id.token") then ret claims
  else throw "InvalidToken".

Definition keygen (key : string) (url : value) : Eff Store value :=
  fun st =>
    (with_collection "privatekey" (st "privatekey" ++ [[("kid", VStr "kid-1")]])%list
       (with_collection "publickey" (st "publickey" ++ [[("kid", VStr "kid-1")]])%list st),
     Ok (VStr "kid-1")).

Definition login_request (params : object) (platform : Platform) (state : string)
  : Eff Store object :=
  ret [("response_type", VStr "id_token");
       ("client_id", platformClientId platform);
       ("redirect_uri", lookup "target_link_uri" params);
       ("login_hint", lookup "login_hint" params);
       ("state", VStr state)].

Definition sign (payload : value) (key : string) : result string :=
  Ok "header.payload.signature".

Definition verify (token : value) (key : string) : result value :=
  if JS.eqb token (VStr "header.payload.signature") then Ok ltik_payload
  else Throw "invalid signature".

Definition make_env (db : DatabaseOps)
  (login : object -> Platform -> string -> Eff Store object) : Env :=
  {| Database := db;
     validateToken := validate;
     generateProviderKeyPair := keygen;
     ltiAdvantageLogin := login;
     jwt_sign := sign;
     jwt_verify := verify;
     random36 := fun i => (7 * i + 3) mod 36;
     url_format := fun pathname query =>
                     ToString pathname ++ "?state=" ++ ToString (lookup "state" query);
     URLSearchParams_toString :=
       fun q => String.concat "&" (map (fun kv => fst kv ++ "=" ++ ToString (snd kv)) q) |}.

Definition env : Env := make_env MemoryStore.db login_request.

(** The login request cannot be built (the platform record cannot be read). *)
Definition env_login_fails : Env :=
  make_env MemoryStore.db (fun _ _ _ => throw "PLATFORM_NOT_FOUND").

(** A store whose upsert leaves a partial document behind and fails. *)
Definition db_replace_fails : DatabaseOps :=
  {| Get := MemoryStore.get;
     Replace := fun _ c filter new st =>
                  (with_collection c (st c ++ [filter])%list st, Throw "write failed");
     Modify := MemoryStore.modify;
     Delete := MemoryStore.delete |}.

Definition env_replace_fails : Env := make_env db_replace_fails login_request.

Definition provider : Provider := initial_provider "MASTERKEY".

Definition moodle : row :=
  [("platformName", VStr "Moodle");
   ("platformUrl", VStr iss);
   ("clientId", VStr "C");
   ("authEndpoint", VStr "https://lms.example/auth");
   ("accesstokenEndpoint", VStr "https://lms.example/token");
   ("kid", VStr "kid-0");
   ("authConfig", VObj [("method", VStr "JWK_SET"); ("key", VStr "https://lms.example/keys")])].

Definition registered : Store :=
  with_collection "platform" [moodle]
    (with_collection "publickey" [[("kid", VStr "kid-0")]]
       (with_collection "privatekey" [[("kid", VStr "kid-0")]] empty_store)).

Definition world (st : Store) : World := {| store := st; res := fresh_response |}.

(** [POST /] with the authentication response of the platform. *)
Definition callback (idtoken : string) : Request :=
  {| req_baseUrl := "";
     req_path := "/";
     req_method := "POST";
     req_token := VUndefined;
     req_signedCookies := [("stateabc", VStr iss)];
     req_body := [("id_token", VStr idtoken); ("state", VStr "abc")];
     req_query := [] |}.

(** [GET /?ltik=...] with the given signed cookies. *)
Definition steady (cookies : object) : Request :=
  {| req_baseUrl := "";
     req_path := "/";
     req_method := "GET";
     req_token := VStr "header.payload.signature";
     req_signedCookies := cookies;
     req_body := [];
     req_query := [("ltik", VStr "header.payload.signature")] |}.

(** [GET /login?iss=...&login_hint=u1&target_link_uri=...] *)
Definition login : Request :=
  {| req_baseUrl := "";
     req_path := "/login";
     req_method := "GET";
     req_token := VUndefined;
     req_signedCookies := [];
     req_body := [];
     req_query := [("iss", VStr iss); ("login_hint", VStr "u1");
                   ("target_link_uri", VStr "https://tool.example/")] |}.

End Demo.

(* ===================================================================== *)
(** ** Vocabulary of the statements *)
(* ===================================================================== *)

(** The two steps of the login handler that can throw. *)
Definition platform_lookup_fails (E : Env) (P : Provider) (req : Request) (w : World) : Prop :=
  exists st e,
    getPlatform E P (lookup "iss" (spread (req_query req) (req_body req))) None None (store w)
    = (st, Throw e).

Definition login_request_fails (E : Env) (P : Provider) (req : Request) (w : World) : Prop :=
  exists st platform st' e,
    getPlatform E P (lookup "iss" (spread (req_query req) (req_body req))) None None (store w)
    = (st, Ok (Some platform)) /\
    ltiAdvantageLogin E (spread (req_query req) (req_body req)) platform (new_state E) st
    = (st', Throw e).

(** The session rows that a verified LTIK designates in the store. *)
Definition idtoken_rows (validLtik : value) (w : World) : list row :=
  MemoryStore.find "idtoken"
    (idtoken_filter (field validLtik "platformUrl") (field validLtik "deploymentId")
       (field validLtik "user")) (store w).

Definition contexttoken_rows (validLtik : value) (w : World) : list row :=
  MemoryStore.find "contexttoken"
    (contexttoken_filter (field validLtik "contextId") (field validLtik "user")) (store w).

(** The comparison of the session cookie with a string [user]. *)
Definition cookie_check (P : Provider) (u : string) (cookieUser : value) : bool :=
  if truthy cookieUser then u =? ToString cookieUser else devMode P.

(** The state in which the request is handed to the next handler. *)
Definition attach_session (ltik : value) (idrow ctxrow : row) (w : World) : World :=
  {| store := store w;
     res := {| res_cookies := res_cookies (res w);
               res_locals :=
                 set "ltik" ltik
                   (set "token" (VObj (set "platformContext" (VObj ctxrow) idrow))
                      (set "context" (VObj ctxrow) (res_locals (res w)))) |} |}.

(** The derived key of the data model, in the words of the specification:
    [contextId = urlencode(iss || deploymentId || courseId || "_" ||
    resourceId)], where [courseId] and [resourceId] default to the literal
    string ["NF"] when absent. *)
Definition spec_contextId (iss deploymentId : string) (courseId resourceId : option string)
  : string :=
  let or_NF := fun id : option string => match id with Some s => s | None => "NF" end in
  encodeURIComponent (iss ++ deploymentId ++ or_NF courseId ++ "_" ++ or_NF resourceId).

(** The id of a claim of the validated token, when the claim is there. *)
Definition claim_id (claim : value) : option string :=
  if truthy claim then Some (ToString (field claim "id")) else None.

(* ===================================================================== *)
(** ** Further inputs for running the model *)
(* ===================================================================== *)

(** The world after the launch of [u1], seen by a fresh response; and the
    same store once the ContextToken row has been lost. *)
Definition launched_store : Store :=
  store (fst (sessionValidator Demo.env Demo.provider (Demo.callback "good.id.token")
                (Demo.world Demo.registered))).

Definition store_without_contexttoken : Store :=
  with_collection "contexttoken" [] launched_store.

Definition session_request : Request := Demo.steady [(Demo.platformCode, VStr "u1")].

(** A platform that is not registered yet. *)
Definition canvas : value :=
  VObj [("url", VStr "https://canvas.example/");
        ("name", VStr "Canvas");
        ("clientId", VStr "K");
        ("authenticationEndpoint", VStr "https://canvas.example/auth");
        ("accesstokenEndpoint", VStr "https://canvas.example/token");
        ("authConfig", VObj [("method", VStr "JWK_SET");
                             ("key", VStr "https://canvas.example/jwks")])].

(** A re-registration of the platform of [Demo.registered] that supplies a
    new client id and nothing else. *)
Definition moodle_update : value :=
  VObj [("url", VStr Demo.iss); ("clientId", VStr "C2")].

(* ===================================================================== *)
(** ** What a launch writes *)
(* ===================================================================== *)

(** The [contextId] and [platformCode] that [sessionValidator] derives from
    the validated claims ([iss] is the string read from [valid.iss]). *)
Definition launch_contextId (valid : value) : string :=
  encodeURIComponent
    (ToString
       (add (add (add (add (field valid "iss") (field valid claim_deployment_id))
                    (id_or_NF (field valid claim_context))) (VStr "_"))
          (id_or_NF (field valid claim_resource_link)))).

Definition launch_platformCode (iss : string) (valid : value) : string :=
  encodeURIComponent ("lti" ++ base64 (iss ++ ToString (field valid claim_deployment_id))).

(** The [platformToken], [contextToken] and [newLtikObj] literals of
    [sessionValidator]. *)
Definition launch_platformToken (valid : value) : row :=
  [("iss", field valid "iss");
   ("user", field valid "sub");
   ("roles", field valid claim_roles);
   ("userInfo", VObj [("given_name", field valid "given_name");
                      ("family_name", field valid "family_name");
                      ("name", field valid "name");
                      ("email", field valid "email")]);
   ("platformInfo", field valid claim_tool_platform);
   ("deploymentId", field valid claim_deployment_id);
   ("lis", field valid claim_lis);
   ("endpoint", field valid claim_endpoint);
   ("namesRoles", field valid claim_namesroleservice)].

Definition launch_contextToken (req : Request) (valid : value) : row :=
  [("contextId", VStr (launch_contextId valid));
   ("path", VStr (req_path req));
   ("user", field valid "sub");
   ("targetLinkUri", field valid claim_target_link_uri);
   ("context", field valid claim_context);
   ("resource", field valid claim_resource_link);
   ("custom", field valid claim_custom);
   ("launchPresentation", field valid claim_launch_presentation);
   ("messageType", field valid claim_message_type);
   ("version", field valid claim_version);
   ("deepLinkingSettings", field valid claim_deep_linking_settings)].

Definition launch_ltik_payload (req : Request) (iss : string) (valid : value) : value :=
  VObj [("platformUrl", field valid "iss");
        ("deploymentId", field valid claim_deployment_id);
        ("platformCode", VStr (launch_platformCode iss valid));
        ("contextId", VStr (launch_contextId valid));
        ("user", field valid "sub");
        ("s", lookup "state" (req_body req))].

(** The store once both tokens of a launch have been upserted into [st]. *)
Definition launch_store (req : Request) (valid : value) (st : Store) : Store :=
  let st' :=
    with_collection "idtoken"
      (MemoryStore.replace_first
         (idtoken_filter (field valid "iss") (field valid claim_deployment_id)
            (field valid "sub"))
         (launch_platformToken valid) (st "idtoken")) st in
  with_collection "contexttoken"
    (MemoryStore.replace_first
       (contexttoken_filter (VStr (launch_contextId valid)) (field valid "sub"))
       (launch_contextToken req valid) (st' "contexttoken")) st'.

(** The response of a launch: the state cookie is cleared, then the session
    cookie is set. *)
Definition launch_response (P : Provider) (req : Request) (iss : string) (valid : value)
  (r : Response) : Response :=
  {| res_cookies :=
       ((res_cookies r ++ [ClearCookie (state_cookie_name req) (cookieOptions P)])
        ++ [SetCookie (launch_platformCode iss valid) (field valid "sub") (cookieOptions P)])%list;
     res_locals := res_locals r |}.

(** A handler answers when all it ever returns is [next()] or a redirect. *)
Definition answers (m : Eff World Outcome) : Prop :=
  forall w w' o, m w = (w', Ok o) -> o = Next \/ exists location, o = Redirect location.

(** The entries that [whitelist] accepts: anything that is not an object,
    and an object with a truthy [route] and a non-empty string [method]. *)
Definition route_accepted (route : value) : bool :=
  if isObject route then
    truthy (field route "route")
    && match field route "method" with
       | VStr m => negb (m =? "")
       | _ => false
       end
  else true.

(** [deletePlatform (url)]. [remove] stands for [platform.remove()], a method
    of [Utils/Platform]. *)
Definition deletePlatform (E : Env) (P : Provider) (remove : Platform -> Eff Store value)
  (url : value) : Eff Store value :=
  if negb (truthy url) then throw "No url provided"
  else
    (platform <- getPlatform E P url None None ;;
     match platform with
     | Some platform => remove platform
     | None => ret (VBool false)
     end)%eff.

(** The characters of a base-36 numeral. *)
Definition base36_char (c : ascii) : bool :=
  let n := nat_of_ascii c in
  ((48 <=? n) && (n <=? 57) || (97 <=? n) && (n <=? 122))%nat.

(** A store that cannot apply a modification. *)
Definition db_modify_fails : DatabaseOps :=
  {| Get := MemoryStore.get;
     Replace := MemoryStore.replace;
     Modify := fun _ _ _ _ => throw "write failed";
     Delete := MemoryStore.delete |}.

Definition env_modify_fails : Env := Demo.make_env db_modify_fails Demo.login_request.

(* ===================================================================== *)
(** ** Configuration, callbacks and the main route *)
(* ===================================================================== *)

Definition lower_ascii (c : ascii) : ascii :=
  let n := nat_of_ascii c in
  if (65 <=? n)%nat && (n <=? 90)%nat then ascii_of_nat (n + 32) else c.

(** [String.prototype.toLowerCase] on ASCII text. *)
Definition toLowerCase (s : string) : string := map_string lower_ascii s.

(** [v.toLowerCase()]: only strings have the method. *)
Definition toLowerCase_method (v : value) : result string :=
  match v with
  | VStr s => Ok (toLowerCase s)
  | VUndefined | VNull =>
      Throw "TypeError: Cannot read properties of undefined (reading 'toLowerCase')"
  | _ => Throw "TypeError: options.cookies.sameSite.toLowerCase is not a function"
  end.

(** [options.cookies]: [sameSite] and [secure] are any value. *)
Record CookiesOption : Type := {
  cookies_sameSite : value;
  cookies_secure : value
}.

(** The options of [setup] that the Provider keeps for itself (the others,
    [staticPath], [cors] and [serverAddon], only reach the Server). Routes
    are strings or missing; [https], [ssl], [devMode] and [tokenMaxAge] are
    any value. *)
Record SetupOptions : Type := {
  opt_appRoute : option string;
  opt_appUrl : option string;
  opt_loginRoute : option string;
  opt_loginUrl : option string;
  opt_sessionTimeoutRoute : option string;
  opt_sessionTimeoutUrl : option string;
  opt_invalidTokenRoute : option string;
  opt_invalidTokenUrl : option string;
  opt_keysetRoute : option string;
  opt_keysetUrl : option string;
  opt_https : value;
  opt_ssl : value;
  opt_devMode : value;
  opt_tokenMaxAge : value;
  opt_cookies : option CookiesOption
}.

(** Truthiness of a string that may be missing. *)
Definition given (o : option string) : bool :=
  match o with
  | Some s => negb (s =? "")
  | None => false
  end.

(** [if (options.route || options.alias) this.#route = options.route ||
    options.alias] *)
Definition route_option (route alias : option string) (current : string) : string :=
  match route, alias with
  | Some r, _ => if negb (r =? "") then r
                 else match alias with
                      | Some a => if negb (a =? "") then a else current
                      | None => current
                      end
  | None, Some a => if negb (a =? "") then a else current
  | None, None => current
  end.

Definition with_cookieOptions (c : CookieOptions) (P : Provider) : Provider :=
  {| loginRoute := loginRoute P; appRoute := appRoute P;
     sessionTimeoutRoute := sessionTimeoutRoute P;
     invalidTokenRoute := invalidTokenRoute P; keysetRoute := keysetRoute P;
     whitelistedRoutes := whitelistedRoutes P; ENCRYPTIONKEY := ENCRYPTIONKEY P;
     devMode := devMode P; tokenMaxAge := tokenMaxAge P; cookieOptions := c |}.

(** [this.#cookieOptions.sameSite = v] and [this.#cookieOptions.secure = true] *)
Definition with_sameSite (v : value) (c : CookieOptions) : CookieOptions :=
  {| secure := secure c; httpOnly := httpOnly c; signed := signed c;
     sameSite := v; maxAge := maxAge c |}.

Definition with_secure (c : CookieOptions) : CookieOptions :=
  {| secure := true; httpOnly := httpOnly c; signed := signed c;
     sameSite := sameSite c; maxAge := maxAge c |}.

(** The two assignments to [this.#cookieOptions] in [onConnect], for a
    [sameSite] that is a string or missing. *)
Definition apply_cookie_settings (sameSite' : option string) (secure' : value)
  (c : CookieOptions) : CookieOptions :=
  let c1 :=
    match sameSite' with
    | Some s =>
        if negb (s =? "") then
          {| secure := if toLowerCase s =? "none" then true else secure c;
             httpOnly := httpOnly c; signed := signed c;
             sameSite := VStr s; maxAge := maxAge c |}
        else c
    | None => c
    end in
  match secure' with
  | VBool true => {| secure := true; httpOnly := httpOnly c1; signed := signed c1;
                     sameSite := sameSite c1; maxAge := maxAge c1 |}
  | _ => c1
  end.

(** [options.https && (!options.ssl || !options.ssl.key || !options.ssl.cert)] *)
Definition https_without_certificate (o : SetupOptions) : bool :=
  truthy (opt_https o)
  && (negb (truthy (opt_ssl o)) || negb (truthy (field (opt_ssl o) "key"))
      || negb (truthy (field (opt_ssl o) "cert"))).

(** [this.Database]: not assigned yet, [null], or the object that
    [DB(database)] answers. *)
Inductive DatabaseField : Type :=
| DatabaseUnset
| DatabaseNull
| DatabaseObject (d : DatabaseOps).

(** The fields of the instance that [setup] writes: the private fields and
    the public [this.Database]. *)
Record Fields : Type := {
  private : Provider;
  this_Database : DatabaseField
}.

Definition assign_Database (d : DatabaseField) : Eff Fields unit :=
  fun F => ({| private := private F; this_Database := d |}, Ok tt).

Definition assign_private (f : Provider -> Provider) : Eff Fields unit :=
  fun F => ({| private := f (private F); this_Database := this_Database F |}, Ok tt).

(** The assignments of the routes, of [devMode] and of [tokenMaxAge]. *)
Definition assign_options (o : SetupOptions) (P : Provider) : Provider :=
  {| loginRoute := route_option (opt_loginRoute o) (opt_loginUrl o) (loginRoute P);
     appRoute := route_option (opt_appRoute o) (opt_appUrl o) (appRoute P);
     sessionTimeoutRoute :=
       route_option (opt_sessionTimeoutRoute o) (opt_sessionTimeoutUrl o)
         (sessionTimeoutRoute P);
     invalidTokenRoute :=
       route_option (opt_invalidTokenRoute o) (opt_invalidTokenUrl o)
         (invalidTokenRoute P);
     keysetRoute := route_option (opt_keysetRoute o) (opt_keysetUrl o) (keysetRoute P);
     whitelistedRoutes := whitelistedRoutes P;
     ENCRYPTIONKEY := ENCRYPTIONKEY P;
     devMode := match opt_devMode o with VBool true => true | _ => devMode P end;
     tokenMaxAge := match opt_tokenMaxAge o with
                    | VUndefined => tokenMaxAge P
                    | v => v
                    end;
     cookieOptions := cookieOptions P |}.

Definition assign_ENCRYPTIONKEY (encryptionkey : string) (P : Provider) : Provider :=
  {| loginRoute := loginRoute P; appRoute := appRoute P;
     sessionTimeoutRoute := sessionTimeoutRoute P;
     invalidTokenRoute := invalidTokenRoute P; keysetRoute := keysetRoute P;
     whitelistedRoutes := whitelistedRoutes P; ENCRYPTIONKEY := encryptionkey;
     devMode := devMode P; tokenMaxAge := tokenMaxAge P;
     cookieOptions := cookieOptions P |}.

(** The block [if (options && options.cookies) { ... }] of [setup]:
    [sameSite] is stored before [toLowerCase] is called on it. *)
Definition setup_cookies (c : CookiesOption) : Eff Fields unit :=
  (if truthy (cookies_sameSite c) then
     (assign_private
        (fun P => with_cookieOptions (with_sameSite (cookies_sameSite c) (cookieOptions P)) P) ;;;
      lower <- of_result (toLowerCase_method (cookies_sameSite c)) ;;
      if lower =? "none"
      then assign_private (fun P => with_cookieOptions (with_secure (cookieOptions P)) P)
      else ret tt)
   else ret tt) ;;;
  match cookies_secure c with
  | VBool true => assign_private (fun P => with_cookieOptions (with_secure (cookieOptions P)) P)
  | _ => ret tt
  end.

(** [setup (encryptionkey, database, options)], as far as the fields of the
    instance go: the three guards, [this.Database] (set to [null] before the
    plugin guard is looked at; [DB] is the constructor of [Utils/Database]),
    the assignments of the routes, [devMode], [tokenMaxAge] and the cookie
    options, and last the key. The Server and the services that [setup] then
    builds are not part of this state. *)
Definition setup (DB : value -> result DatabaseOps) (encryptionkey : string)
  (database : value) (options : option SetupOptions) : Eff Fields unit :=
  if match options with Some o => https_without_certificate o | None => false end
  then throw "No ssl Key  or Certificate found for local https configuration."
  else if encryptionkey =? "" then throw "Encryptionkey parameter missing in options."
  else if negb (truthy database) then throw "Missing database configurations."
  else
    (assign_Database DatabaseNull ;;;
     (if negb (truthy (field database "plugin"))
      then (d <- of_result (DB database) ;; assign_Database (DatabaseObject d))
      else throw "Database plugins are not yet supported with version 5.0 due to datbae structural changes.") ;;;
     match options with
     | Some o =>
         (assign_private (assign_options o) ;;;
          match opt_cookies o with
          | Some c => setup_cookies c
          | None => ret tt
          end)
     | None => ret tt
     end ;;;
     assign_private (assign_ENCRYPTIONKEY encryptionkey)).

(** The user callbacks. [next()] is the outcome [Next]. *)
Definition Handler := Request -> Eff World Outcome.
Definition Callback := value -> Request -> Eff World Outcome.

Record Callbacks : Type := {
  connectCallback : Callback;
  deepLinkingCallback : Callback;
  sessionTimeoutCallback : Handler;
  invalidTokenCallback : Handler
}.

(** The pre-initiated callbacks of the class. *)
Definition initial_callbacks : Callbacks :=
  {| connectCallback := fun _ _ => ret Next;
     deepLinkingCallback := fun _ _ => ret Next;
     sessionTimeoutCallback :=
       fun _ => ret (Send 401 "Token invalid or expired. Please reinitiate login.");
     invalidTokenCallback := fun _ => ret (Send 401 "Invalid token. Please reinitiate login.") |}.

(** The Provider instance with its callbacks. *)
Record Instance : Type := {
  provider : Provider;
  callbacks : Callbacks
}.

(** The deprecated options of [onConnect]. *)
Record ConnectOptions : Type := {
  co_sameSite : option string;
  co_secure : value;
  co_sessionTimeout : option Handler;
  co_invalidToken : option Handler
}.

Definition or_handler (h : option Handler) (current : Handler) : Handler :=
  match h with Some h => h | None => current end.

(** [onConnect (_connectCallback, options)]; a callback argument is a
    function or missing. *)
Definition onConnect (_connectCallback : option Callback) (options : option ConnectOptions)
  : Eff Instance bool :=
  fun I =>
    let I1 :=
      match options with
      | Some o =>
          {| provider :=
               with_cookieOptions
                 (apply_cookie_settings (co_sameSite o) (co_secure o)
                    (cookieOptions (provider I))) (provider I);
             callbacks :=
               {| connectCallback := connectCallback (callbacks I);
                  deepLinkingCallback := deepLinkingCallback (callbacks I);
                  sessionTimeoutCallback :=
                    or_handler (co_sessionTimeout o) (sessionTimeoutCallback (callbacks I));
                  invalidTokenCallback :=
                    or_handler (co_invalidToken o) (invalidTokenCallback (callbacks I)) |} |}
      | None => I
      end in
    match _connectCallback with
    | Some cb =>
        ({| provider := provider I1;
            callbacks :=
              {| connectCallback := cb;
                 deepLinkingCallback := deepLinkingCallback (callbacks I1);
                 sessionTimeoutCallback := sessionTimeoutCallback (callbacks I1);
                 invalidTokenCallback := invalidTokenCallback (callbacks I1) |} |}, Ok true)
    | None => (I1, Throw "MissingCallback")
    end.

(** [onDeepLinking (_deepLinkingCallback)] *)
Definition onDeepLinking (_deepLinkingCallback : option Callback) : Eff Instance bool :=
  fun I =>
    match _deepLinkingCallback with
    | Some cb =>
        ({| provider := provider I;
            callbacks :=
              {| connectCallback := connectCallback (callbacks I);
                 deepLinkingCallback := cb;
                 sessionTimeoutCallback := sessionTimeoutCallback (callbacks I);
                 invalidTokenCallback := invalidTokenCallback (callbacks I) |} |}, Ok true)
    | None => (I, Throw "MissingCallback")
    end.

(** [req.locals.context.messageType === 'LtiDeepLinkingRequest'] and the
    handler of [app.all(appRoute, ...)]. *)
Definition is_deep_linking (context : value) : bool :=
  match field context "messageType" with
  | VStr s => s =? "LtiDeepLinkingRequest"
  | _ => false
  end.

Definition appHandler (C : Callbacks) (req : Request) : Eff World Outcome :=
  fun w =>
    let context := lookup "context" (res_locals (res w)) in
    let token := lookup "token" (res_locals (res w)) in
    (require_coercible context ;;;
     if is_deep_linking context then deepLinkingCallback C token req
     else connectCallback C token req)%eff w.

(** The invariant of the cookie options: a [sameSite] of [none] comes with
    [secure]. *)
Definition none_implies_secure (c : CookieOptions) : Prop :=
  forall s, sameSite c = VStr s -> toLowerCase s = "none" -> secure c = true.

(** The three guards at the head of [setup]. *)
Definition setup_rejects (encryptionkey : string) (database : value)
  (options : option SetupOptions) : bool :=
  match options with Some o => https_without_certificate o | None => false end
  || (encryptionkey =? "")
  || negb (truthy database).

(** [options.cookies], when the options have it. *)
Definition cookies_of (options : option SetupOptions) : option CookiesOption :=
  match options with
  | Some o => opt_cookies o
  | None => None
  end.

(** A [cookies.sameSite] on which [toLowerCase] is called and is missing: a
    truthy value that is not a string. *)
Definition sameSite_without_toLowerCase (options : option SetupOptions) : bool :=
  match cookies_of options with
  | Some c => truthy (cookies_sameSite c)
              && match cookies_sameSite c with VStr _ => false | _ => true end
  | None => false
  end.

(** Options that ask for cross-site cookies, and nothing else. *)
Definition cross_site_options : SetupOptions :=
  {| opt_appRoute := None; opt_appUrl := None; opt_loginRoute := None;
     opt_loginUrl := Some "/oidc"; opt_sessionTimeoutRoute := None;
     opt_sessionTimeoutUrl := None; opt_invalidTokenRoute := None;
     opt_invalidTokenUrl := None; opt_keysetRoute := None; opt_keysetUrl := None;
     opt_https := VBool false; opt_ssl := VUndefined; opt_devMode := VStr "true";
     opt_tokenMaxAge := VBool false;
     opt_cookies := Some {| cookies_sameSite := VStr "None"; cookies_secure := VUndefined |} |}.

(** The same options with [sameSite: true] in place of the string. *)
Definition boolean_sameSite_options : SetupOptions :=
  {| opt_appRoute := None; opt_appUrl := None; opt_loginRoute := None;
     opt_loginUrl := Some "/oidc"; opt_sessionTimeoutRoute := None;
     opt_sessionTimeoutUrl := None; opt_invalidTokenRoute := None;
     opt_invalidTokenUrl := None; opt_keysetRoute := None; opt_keysetUrl := None;
     opt_https := VBool false; opt_ssl := VUndefined; opt_devMode := VBool true;
     opt_tokenMaxAge := VBool false;
     opt_cookies := Some {| cookies_sameSite := VBool true; cookies_secure := VBool true |} |}.

Definition mongo : value := VObj [("url", VStr "mongodb://localhost/lti")].

Definition mongo_plugin : value := VObj [("plugin", VObj [])].

(** A double of [Utils/Database]: the store of the contract. *)
Definition connect (database : value) : result DatabaseOps := Ok MemoryStore.db.

(** An instance before [setup], and one that has been set up. *)
Definition new_fields : Fields :=
  {| private := initial_provider ""; this_Database := DatabaseUnset |}.

Definition running_fields : Fields :=
  {| private := Demo.provider; this_Database := DatabaseObject MemoryStore.db |}.

(* ===================================================================== *)
(** ** The redirect helper *)
(* ===================================================================== *)

(** The fields of [url.parse(path)] that [redirect] reads, and the object it
    hands to [url.format]. *)
Record UrlParts : Type := {
  url_protocol : value;
  url_hostname : value;
  url_pathname : value;
  url_port : value;
  url_auth : value;
  url_search : value
}.

Record UrlFormat : Type := {
  fmt_protocol : value;
  fmt_hostname : value;
  fmt_pathname : value;
  fmt_port : value;
  fmt_auth : value;
  fmt_query : object
}.

(** [fast-url-parser] and [URLSearchParams]: [URLSearchParams_entries] lists
    the pairs that iterating [new URLSearchParams(search)] yields. *)
Record UrlLib : Type := {
  url_parse : string -> UrlParts;
  url_format_parts : UrlFormat -> string;
  URLSearchParams_entries : value -> list (string * string)
}.

Definition is_digit (c : ascii) : bool :=
  let n := nat_of_ascii c in ((48 <=? n) && (n <=? 57))%nat.

Fixpoint leading_digits (s : string) : string :=
  match s with
  | EmptyString => EmptyString
  | String c r => if is_digit c then String c (leading_digits r) else EmptyString
  end.

(** [s.match(/:[0-9]*/)]: the first colon of [s] with the digits that follow
    it, if [s] has a colon. *)
Fixpoint port_match (s : string) : option string :=
  match s with
  | EmptyString => None
  | String c r => if (c =? ":")%char then Some (String ":" (leading_digits r))
                  else port_match r
  end.

(** [s.split(sub).join('')] for a non-empty [sub]: [s] without the
    occurrences of [sub], found from left to right. [skip] counts the
    characters of an occurrence that are still to be dropped. *)
Fixpoint remove_all_from (sub : string) (skip : nat) (s : string) : string :=
  match s with
  | EmptyString => EmptyString
  | String c r =>
      match skip with
      | S k => remove_all_from sub k r
      | O => if String.prefix sub s then remove_all_from sub (String.length sub - 1) r
             else String c (remove_all_from sub 0 r)
      end
  end.

Definition remove_all (sub s : string) : string := remove_all_from sub 0 s.

(** The value of a string of decimal digits. *)
Fixpoint digits_value (s : string) (acc : N) : option N :=
  match s with
  | EmptyString => Some acc
  | String c r =>
      if is_digit c
      then digits_value r (10 * acc + N.of_nat (nat_of_ascii c - 48))%N
      else None
  end.

(** A key that is an array index: the canonical decimal numeral (no leading
    zero) of an integer from 0 to 2^32 - 2. *)
Definition array_index (k : string) : option N :=
  match k with
  | EmptyString => None
  | String c r =>
      if (c =? "0")%char && negb (r =? "") then None
      else match digits_value k 0 with
           | Some n => if (n <? 4294967295)%N then Some n else None
           | None => None
           end
  end.

Definition has_own (k : string) (o : object) : bool :=
  existsb (fun kv => fst kv =? k) o.

(** The place of a new array index among the own keys: after the smaller
    array indices and before every other key. *)
Fixpoint insert_index (n : N) (k : string) (v : value) (o : object) : object :=
  match o with
  | [] => [(k, v)]
  | (k', v') :: o' =>
      match array_index k' with
      | Some m => if (m <? n)%N then (k', v') :: insert_index n k v o' else (k, v) :: o
      | None => (k, v) :: o
      end
  end.

(** The definition of an own data property, with the order in which
    JavaScript lists the own keys: an existing key keeps its place, a new
    array index goes among the array indices in ascending order, and any
    other new key goes last. *)
Definition define_own (k : string) (v : value) (o : object) : object :=
  if has_own k o then set k v o
  else match array_index k with
       | Some n => insert_index n k v o
       | None => set k v o
       end.

(** [queries[key] = value] on the object literal [queries = {}], for a
    string [value]: the key [__proto__] reaches the setter inherited from
    [Object.prototype], which ignores a string, and every other key becomes
    an own property. *)
Definition assign_query (key value : string) (queries : object) : object :=
  if key =? "__proto__" then queries else define_own key (VStr value) queries.

(** [for (const [key, value] of params) { queries[key] = value }] *)
Definition collect_queries (entries : list (string * string)) : object :=
  fold_left (fun queries kv => assign_query (fst kv) (snd kv) queries) entries [].

(** The order of own keys: an array index is followed by array indices that
    are not smaller and by other keys, and a key that is not an array index
    is followed by no array index. *)
Fixpoint own_key_order (keys : list string) : bool :=
  match keys with
  | [] => true
  | k :: rest =>
      match array_index k with
      | Some n =>
          forallb (fun k' => match array_index k' with
                             | Some m => (n <=? m)%N
                             | None => true
                             end) rest
          && own_key_order rest
      | None =>
          forallb (fun k' => match array_index k' with
                             | Some _ => false
                             | None => true
                             end) rest
      end
  end.

(** The argument of [url.format] in [redirect]: the parsed parts, with the
    port moved out of the pathname when the pathname has a colon, and the
    query [{ ...queries, ltik: res.locals.ltik }]: the own properties of
    [queries] in their order, with [ltik] defined as the LTIK of the
    request. *)
Definition redirect_target (U : UrlLib) (path : string) (ltik : value) : result UrlFormat :=
  let pathParts := url_parse U path in
  let queries := collect_queries (URLSearchParams_entries U (url_search pathParts)) in
  match url_pathname pathParts with
  | VStr pathname =>
      let fixed :=
        match port_match pathname with
        | Some portMatch =>
            (VStr (match portMatch with
                   | String _ digits => digits
                   | EmptyString => EmptyString
                   end),
             VStr (remove_all portMatch pathname))
        | None => (url_port pathParts, VStr pathname)
        end in
      Ok {| fmt_protocol := url_protocol pathParts;
            fmt_hostname := url_hostname pathParts;
            fmt_pathname := snd fixed;
            fmt_port := fst fixed;
            fmt_auth := url_auth pathParts;
            fmt_query := define_own "ltik" ltik queries |}
  | _ => Throw "TypeError: Cannot read properties of null (reading 'match')"
  end.

(** [redirect (res, path, options)], with [options.isNewResource] as a
    boolean. *)
Definition redirect (E : Env) (U : UrlLib) (path : string) (isNewResource : bool)
  : Eff World Outcome :=
  fun w =>
    let token := lookup "token" (res_locals (res w)) in
    if negb (truthy token) then (w, Ok (Redirect path))
    else
      ((if isNewResource then
          (require_coercible (field token "platformContext") ;;;
           db_op (Modify (Database E) false "contexttoken"
                    [("contextId", field (field token "platformContext") "contextId");
                     ("user", field token "user")]
                    [("path", VStr path)]))
        else ret tt) ;;;
       formatted <- of_result (redirect_target U path (lookup "ltik" (res_locals (res w)))) ;;
       ret (Redirect (url_format_parts U formatted)))%eff w.

(** Shapes of a pathname. *)
Definition no_colon (s : string) : Prop :=
  forall c, In c (list_ascii_of_string s) -> c <> ":"%char.

Definition all_digits (s : string) : Prop :=
  forall c, In c (list_ascii_of_string s) -> is_digit c = true.

Definition no_leading_digit (s : string) : Prop :=
  match s with
  | EmptyString => True
  | String c _ => is_digit c = false
  end.

(** A test double for the URL library: the path is its own pathname, and its
    query is [a=1&ltik=stale&a=2]. *)
Definition stub_urls : UrlLib :=
  {| url_parse := fun path =>
                    {| url_protocol := VNull; url_hostname := VNull;
                       url_pathname := VStr path; url_port := VNull;
                       url_auth := VNull; url_search := VStr "?a=1&ltik=stale&a=2" |};
     url_format_parts := fun f => ToString (fmt_pathname f) ++ "?ltik="
                                  ++ ToString (lookup "ltik" (fmt_query f));
     URLSearchParams_entries := fun _ => [("a", "1"); ("ltik", "stale"); ("a", "2")] |}.

(** A test double for the URL library whose query is
    [b=1&ltik=stale&__proto__=x&10=t&b=2&9=u&07=z]. *)
Definition crafted_urls : UrlLib :=
  {| url_parse := url_parse stub_urls;
     url_format_parts := url_format_parts stub_urls;
     URLSearchParams_entries :=
       fun _ => [("b", "1"); ("ltik", "stale"); ("__proto__", "x"); ("10", "t");
                 ("b", "2"); ("9", "u"); ("07", "z")] |}.

(** The world in which the session of the demo launch is attached. *)
Definition session_world : World :=
  fst (sessionValidator Demo.env Demo.provider session_request (Demo.world launched_store)).


Definition initial_instance : Instance :=
  {| provider := Demo.provider; callbacks := initial_callbacks |}.

(** A ContextToken row of a deep-linking launch. *)
Definition deep_linking_context : row :=
  [("contextId", VStr Demo.contextId); ("user", VStr "u1");
   ("messageType", VStr "LtiDeepLinkingRequest")].

(** A double of [jsonwebtoken] that decodes as the library does: the decoded
    LTIK carries the fields that were signed and the time of issue [iat]
    that [jwt.sign] adds to a payload. *)
Definition decoded_ltik : value :=
  VObj [("platformUrl", VStr Demo.iss);
        ("deploymentId", VStr "d");
        ("platformCode", VStr Demo.platformCode);
        ("contextId", VStr Demo.contextId);
        ("user", VStr "u1");
        ("s", VStr "abc");
        ("iat", VNum 1700000000)].

Definition env_with_iat : Env :=
  {| Database := Database Demo.env;
     validateToken := validateToken Demo.env;
     generateProviderKeyPair := generateProviderKeyPair Demo.env;
     ltiAdvantageLogin := ltiAdvantageLogin Demo.env;
     jwt_sign := jwt_sign Demo.env;
     jwt_verify := fun token key =>
                     if JS.eqb token (VStr "header.payload.signature") then Ok decoded_ltik
                     else Throw "invalid signature";
     random36 := random36 Demo.env;
     url_format := url_format Demo.env;
     URLSearchParams_toString := URLSearchParams_toString Demo.env |}.

(* ===================================================================== *)
(** ** Facts about objects and the store *)
(* ===================================================================== *)

Lemma lookup_set_same : forall k v o, lookup k (set k v o) = v.
Proof.
  intros k v o. induction o as [|[k' v'] o IH]; simpl.
  - now rewrite String.eqb_refl.
  - destruct (String.eqb_spec k' k) as [->|Hne]; simpl.
    + now rewrite String.eqb_refl.
    + destruct (String.eqb_spec k' k); [contradiction | exact IH].
Qed.

Lemma lookup_set_other : forall k k' v o, k' <> k -> lookup k (set k' v o) = lookup k o.
Proof.
  intros k k' v o Hne. induction o as [|[k0 v0] o IH]; simpl.
  - destruct (String.eqb_spec k' k); [contradiction | reflexivity].
  - destruct (String.eqb_spec k0 k') as [->|Hk0]; simpl.
    + destruct (String.eqb_spec k' k); [contradiction | reflexivity].
    + destruct (String.eqb_spec k0 k); [reflexivity | exact IH].
Qed.

Lemma append_assoc : forall a b c : string, (a ++ b) ++ c = a ++ b ++ c.
Proof.
  induction a as [|x a IH]; intros b c; simpl; [reflexivity | now rewrite IH].
Qed.

Lemma add_string_left : forall s v, add (VStr s) v = VStr (s ++ ToString v).
Proof. reflexivity. Qed.

Lemma add_string_right : forall v s, add v (VStr s) = VStr (ToString v ++ s).
Proof. intros v s. unfold add. now rewrite orb_true_r. Qed.

Module StoreFacts.
Import MemoryStore.

Lemma find_after_delete :
  forall c filter st,
    find c filter (fst (delete c filter st)) = [].
Proof.
  intros c filter st. unfold find, delete, with_collection; simpl.
  rewrite String.eqb_refl.
  induction (st c) as [|r rows IH]; simpl; [reflexivity|].
  destruct (matches filter r) eqn:Hm; simpl; [exact IH|].
  now rewrite Hm.
Qed.

Lemma find_other_collection :
  forall c c' filter rows st,
    c <> c' -> find c filter (with_collection c' rows st) = find c filter st.
Proof.
  intros c c' filter rows st Hne. unfold find, with_collection.
  destruct (String.eqb_spec c c'); [contradiction | reflexivity].
Qed.

Lemma replace_first_In :
  forall filter new rows, In new (replace_first filter new rows).
Proof.
  intros filter new rows. induction rows as [|r rows IH]; simpl.
  - now left.
  - destruct (matches filter r); [now left | now right].
Qed.

Lemma find_modify_first :
  forall filter patch rows r rest,
    List.filter (matches filter) rows = r :: rest ->
    matches filter (spread r patch) = true ->
    List.filter (matches filter) (modify_first filter patch rows) = spread r patch :: rest.
Proof.
  intros filter patch rows. induction rows as [|x rows IH]; intros r rest Hf Hm; simpl in *.
  - discriminate.
  - destruct (matches filter x) eqn:Hx.
    + injection Hf as -> <-. simpl. now rewrite Hm.
    + simpl. rewrite Hx. now apply IH.
Qed.

End StoreFacts.

(* ===================================================================== *)
(** ** The platform registry *)
(* ===================================================================== *)

(** C10. [getAllPlatforms] returns an array whatever the Store answers: the
    empty array when the Store answers [false], and otherwise one Platform
    per row of the answer. *)
Theorem getAllPlatforms_returns_array :
  forall (E : Env) (P : Provider) (st st' : Store) (answer : option (list row)),
    Get (Database E) false "platform" None st = (st', Ok answer) ->
    exists platforms : list Platform,
      getAllPlatforms E P st = (st', Ok platforms) /\
      (answer = None -> platforms = []) /\
      (forall rows, answer = Some rows ->
         platforms = map (Platform_of_row (ENCRYPTIONKEY P) (Database E)) rows /\
         length platforms = length rows).
Proof.
  intros E P st st' answer HGet.
  unfold getAllPlatforms, bind. rewrite HGet.
  destruct answer as [rows|]; unfold ret.
  - eexists; split; [reflexivity|]. split; [discriminate|].
    intros rows' [= <-]. split; [reflexivity | apply length_map].
  - exists []; split; [reflexivity|]. split; [reflexivity | discriminate].
Qed.

Lemma getAllPlatforms_returns_array_witness :
  exists platforms : list Platform,
    getAllPlatforms Demo.env Demo.provider Demo.registered = (Demo.registered, Ok platforms) /\
    (Some [Demo.moodle] = None -> platforms = []) /\
    (forall rows, Some [Demo.moodle] = Some rows ->
       platforms = map (Platform_of_row (ENCRYPTIONKEY Demo.provider) (Database Demo.env)) rows /\
       length platforms = length rows).
Proof.
  apply (getAllPlatforms_returns_array Demo.env Demo.provider Demo.registered
           Demo.registered (Some [Demo.moodle])).
  reflexivity.
Defined.

(* ===================================================================== *)
(** ** The whitelist *)
(* ===================================================================== *)

(** An object entry without a truthy [route] or [method] makes the whole
    call throw. *)
Lemma format_routes_rejects_incomplete_object :
  forall routes route,
    In route routes ->
    isObject route = true ->
    truthy (field route "route") = false \/ truthy (field route "method") = false ->
    exists e, format_routes routes = Throw e.
Proof.
  induction routes as [|r routes IH]; intros route Hin Hobj Hmissing; [destruct Hin|].
  simpl. destruct Hin as [->|Hin].
  - rewrite Hobj.
    assert (Hb : negb (truthy (field route "route")) || negb (truthy (field route "method")) = true).
    { destruct Hmissing as [-> | ->]; [reflexivity | apply orb_true_r]. }
    rewrite Hb. eauto.
  - destruct (IH route Hin Hobj Hmissing) as [e He]. rewrite He.
    destruct (isObject r).
    + destruct (negb (truthy (field r "route")) || negb (truthy (field r "method"))); [eauto|].
      destruct (toUpperCase_method (field r "method")); eauto.
    + eauto.
Qed.

(** An object entry [{ route, method }] with a string method is stored as
    [route-method-METHOD], a bare string as given. *)
Lemma format_routes_entry :
  forall route rest formatted,
    format_routes rest = Ok formatted ->
    (forall r m, route = VObj [("route", VStr r); ("method", VStr m)] ->
       r <> "" -> m <> "" ->
       format_routes (route :: rest) = Ok (VStr (r ++ "-method-" ++ toUpperCase m) :: formatted)) /\
    (forall s, route = VStr s -> format_routes (route :: rest) = Ok (VStr s :: formatted)).
Proof.
  intros route rest formatted Hrest. split.
  - intros r m -> Hr Hm. simpl. rewrite Hrest.
    destruct (String.eqb_spec r ""); [contradiction|].
    destruct (String.eqb_spec m ""); [contradiction|]. simpl.
    rewrite 2 add_string_left. cbn [ToString]. now rewrite append_assoc.
  - intros s ->. simpl. now rewrite Hrest.
Qed.

(** C8, at the call [whitelist()]: the rest parameter is the empty array,
    which is truthy, so the guard [if (!routes)] does not fire; the call
    returns [true] and the whitelist becomes empty. *)
Theorem whitelist_without_routes_returns_true :
  forall P : Provider,
    exists P' : Provider,
      whitelist [] P = (P', Ok true) /\ whitelistedRoutes P' = [].
Proof.
  intro P. eexists. split; reflexivity.
Qed.

(* ===================================================================== *)
(** ** The callback *)
(* ===================================================================== *)

(** C2, as the code has it. For every callback request whose id_token fails
    validation, the response is a redirect to [invalidTokenRoute] and the
    response is otherwise untouched: no cookie operation is emitted, so the
    state cookie is not cleared (it is cleared only once validation has
    succeeded). *)
Theorem failed_validation_redirects_without_clearing :
  forall (E : Env) (P : Provider) (req : Request) (w : World) (st1 : Store) (e : string),
    reserved P (req_path req) = false ->
    truthy (req_token req) = false ->
    truthy (lookup "id_token" (req_body req)) = true ->
    validateToken E (lookup "id_token" (req_body req)) (devMode P)
      (validationParameters P req) (store w) = (st1, Throw e) ->
    sessionValidator E P req w =
      ({| store := st1; res := res w |},
       Ok (Redirect (req_baseUrl req ++ invalidTokenRoute P))).
Proof.
  intros E P req w st1 e Hpath Htoken Hid Hvalid.
  unfold sessionValidator. rewrite Hpath.
  unfold try_catch. rewrite Htoken. cbn [negb]. rewrite Hid.
  unfold sessionValidator_launch, bind, db_op. rewrite Hvalid.
  reflexivity.
Qed.

Lemma failed_validation_redirects_without_clearing_witness :
  sessionValidator Demo.env Demo.provider (Demo.callback "tampered.id.token")
    (Demo.world Demo.registered) =
    ({| store := Demo.registered; res := res (Demo.world Demo.registered) |},
     Ok (Redirect (req_baseUrl (Demo.callback "tampered.id.token")
                   ++ invalidTokenRoute Demo.provider))).
Proof.
  apply (failed_validation_redirects_without_clearing Demo.env Demo.provider
           (Demo.callback "tampered.id.token") (Demo.world Demo.registered)
           Demo.registered "InvalidToken"); reflexivity.
Defined.

(** C2 as stated fails: the id_token of this callback is rejected, the
    response is the redirect to [/invalidToken], and the browser still holds
    the state cookie [stateabc] afterwards, because the response carries no
    cookie operation at all. *)
Lemma failed_validation_state_cookie_still_set :
  let req := Demo.callback "tampered.id.token" in
  let w := Demo.world Demo.registered in
  let run := sessionValidator Demo.env Demo.provider req w in
  validateToken Demo.env (lookup "id_token" (req_body req)) (devMode Demo.provider)
    (validationParameters Demo.provider req) (store w) = (store w, Throw "InvalidToken") /\
  snd run = Ok (Redirect "/invalidToken") /\
  state_cookie_name req = "stateabc" /\
  res_cookies (res (fst run)) = [] /\
  cookie_is_set (state_cookie_name req)
    (cookies_after (req_signedCookies req) (res_cookies (res (fst run)))) = true.
Proof.
  repeat split; reflexivity.
Qed.

(* ===================================================================== *)
(** ** The login route *)
(* ===================================================================== *)

(** C7, as the code has it. For every login request in which a step throws,
    the response is HTTP 400. When the step is the resolution of the
    platform, no cookie has been set; when it is the construction of the
    authentication request, the [state<state>] cookie has already been set
    on the response. *)
Theorem login_error_sends_400 :
  forall (E : Env) (P : Provider) (req : Request) (w : World),
    platform_lookup_fails E P req w \/ login_request_fails E P req w ->
    let run := loginHandler E P req w in
    snd run = Ok (SendStatus 400) /\
    (platform_lookup_fails E P req w -> res (fst run) = res w) /\
    (login_request_fails E P req w ->
       res_cookies (res (fst run)) =
         (res_cookies (res w) ++
          [SetCookie ("state" ++ new_state E)
             (lookup "iss" (spread (req_query req) (req_body req)))
             (state_cookieOptions P)])%list).
Proof.
  intros E P req w Hfail run.
  assert (Hlookup : forall st e,
             getPlatform E P (lookup "iss" (spread (req_query req) (req_body req)))
               None None (store w) = (st, Throw e) ->
             run = ({| store := st; res := res w |}, Ok (SendStatus 400))).
  { intros st e H. unfold run, loginHandler, try_catch, bind, db_op. now rewrite H. }
  assert (Hlogin : forall st platform st' e,
             getPlatform E P (lookup "iss" (spread (req_query req) (req_body req)))
               None None (store w) = (st, Ok (Some platform)) ->
             ltiAdvantageLogin E (spread (req_query req) (req_body req)) platform
               (new_state E) st = (st', Throw e) ->
             run = ({| store := st';
                       res := {| res_cookies :=
                                   (res_cookies (res w) ++
                                    [SetCookie ("state" ++ new_state E)
                                       (lookup "iss" (spread (req_query req) (req_body req)))
                                       (state_cookieOptions P)])%list;
                                 res_locals := res_locals (res w) |} |},
                    Ok (SendStatus 400))).
  { intros st platform st' e H1 H2.
    unfold run, loginHandler, try_catch, bind, db_op. rewrite H1.
    unfold res_cookie. cbn [store res]. now rewrite H2. }
  split; [|split].
  - destruct Hfail as [(st & e & H) | (st & pl & st' & e & H1 & H2)].
    + now rewrite (Hlookup _ _ H).
    + now rewrite (Hlogin _ _ _ _ H1 H2).
  - intros (st & e & H). now rewrite (Hlookup _ _ H).
  - intros (st & pl & st' & e & H1 & H2). now rewrite (Hlogin _ _ _ _ H1 H2).
Qed.

Lemma login_error_sends_400_witness :
  let run := loginHandler Demo.env_login_fails Demo.provider Demo.login
               (Demo.world Demo.registered) in
  snd run = Ok (SendStatus 400) /\
  (platform_lookup_fails Demo.env_login_fails Demo.provider Demo.login
     (Demo.world Demo.registered) ->
   res (fst run) = res (Demo.world Demo.registered)) /\
  (login_request_fails Demo.env_login_fails Demo.provider Demo.login
     (Demo.world Demo.registered) ->
   res_cookies (res (fst run)) =
     (res_cookies (res (Demo.world Demo.registered)) ++
      [SetCookie ("state" ++ new_state Demo.env_login_fails)
         (lookup "iss" (spread (req_query Demo.login) (req_body Demo.login)))
         (state_cookieOptions Demo.provider)])%list).
Proof.
  apply (login_error_sends_400 Demo.env_login_fails Demo.provider Demo.login
           (Demo.world Demo.registered)).
  right.
  exists Demo.registered,
    (Platform_of_row "MASTERKEY" MemoryStore.db Demo.moodle),
    Demo.registered, "PLATFORM_NOT_FOUND".
  split; reflexivity.
Defined.

(** C7 as stated fails: in this login request the platform is registered,
    the construction of the authentication request throws, and the 400
    response carries the state cookie that was set before. *)
Lemma login_error_after_state_cookie_set :
  let run := loginHandler Demo.env_login_fails Demo.provider Demo.login
               (Demo.world Demo.registered) in
  snd run = Ok (SendStatus 400) /\
  res_cookies (res (fst run)) =
    [SetCookie "state3ahov29gnu18fmt07els" (VStr Demo.iss)
       {| secure := false; httpOnly := true; signed := true; sameSite := VUndefined;
          maxAge := Some 600000%Z |}] /\
  res_cookies (res (fst run)) <> [].
Proof.
  repeat split; try reflexivity. discriminate.
Qed.

(* ===================================================================== *)
(** ** Steady-state requests *)
(* ===================================================================== *)

Lemma truthy_not_nullish : forall v, truthy v = true -> nullish v = false.
Proof. now destruct v. Qed.

Lemma steady_state_run :
  forall (E : Env) (P : Provider) (req : Request) (w : World) (validLtik : value) (u : string),
    Database E = MemoryStore.db ->
    reserved P (req_path req) = false ->
    truthy (req_token req) = true ->
    jwt_verify E (req_token req) (ENCRYPTIONKEY P) = Ok validLtik ->
    field validLtik "user" = VStr u ->
    u <> "" ->
    sessionValidator E P req w =
      if cookie_check P u (session_cookie req validLtik) then
        match idtoken_rows validLtik w, contexttoken_rows validLtik w with
        | idrow :: _, ctxrow :: _ => (attach_session (req_token req) idrow ctxrow w, Ok Next)
        | _, _ => ({| store := store w; res := res w |},
                   Ok (Redirect (req_baseUrl req ++ invalidTokenRoute P)))
        end
      else (w, Ok (Redirect (req_baseUrl req ++ sessionTimeoutRoute P))).
Proof.
  intros E P req w validLtik u HDB Hpath Htoken Hverify Huser Hu.
  assert (Hobj : nullish validLtik = false).
  { destruct validLtik; try discriminate; reflexivity. }
  assert (Htu : truthy (VStr u) = true).
  { simpl. now destruct (String.eqb_spec u ""). }
  unfold sessionValidator. rewrite Hpath.
  unfold try_catch. rewrite Htoken. cbn [negb]. rewrite Hverify.
  unfold sessionValidator_session, require_coercible. rewrite Hobj.
  unfold idtoken_rows, contexttoken_rows, cookie_check.
  rewrite Huser, HDB.
  cbv beta iota delta [bind of_result ret throw toString_method db_op Get
                          MemoryStore.db MemoryStore.get assign_property first_row
                          res_locals_set attach_session].
  destruct (truthy (session_cookie req validLtik)) eqn:Hc; cbn [negb].
  - rewrite (truthy_not_nullish _ Hc). cbn [nullish ToString].
    destruct (u =? ToString (session_cookie req validLtik)) eqn:Heq; cbn [negb].
    + rewrite Htu.
      destruct (MemoryStore.find "idtoken" _ (store w)) as [|idrow idrows]; [reflexivity|].
      cbn [store res].
      destruct (MemoryStore.find "contexttoken" _ (store w)) as [|ctxrow ctxrows];
        reflexivity.
    + reflexivity.
  - destruct (devMode P); cbn [negb].
    + rewrite Htu.
      destruct (MemoryStore.find "idtoken" _ (store w)) as [|idrow idrows]; [reflexivity|].
      cbn [store res].
      destruct (MemoryStore.find "contexttoken" _ (store w)) as [|ctxrow ctxrows];
        reflexivity.
    + reflexivity.
Qed.

Lemma attach_session_locals :
  forall ltik idrow ctxrow w,
    let locals := res_locals (res (attach_session ltik idrow ctxrow w)) in
    lookup "context" locals = VObj ctxrow /\
    lookup "token" locals = VObj (set "platformContext" (VObj ctxrow) idrow) /\
    lookup "ltik" locals = ltik /\
    field (lookup "token" locals) "platformContext" = VObj ctxrow.
Proof.
  intros ltik idrow ctxrow w. cbn [attach_session res res_locals].
  assert (Htoken : lookup "token"
                     (set "ltik" ltik
                        (set "token" (VObj (set "platformContext" (VObj ctxrow) idrow))
                           (set "context" (VObj ctxrow) (res_locals (res w)))))
                   = VObj (set "platformContext" (VObj ctxrow) idrow)).
  { rewrite lookup_set_other by discriminate. apply lookup_set_same. }
  repeat split.
  - rewrite 2 lookup_set_other by discriminate. apply lookup_set_same.
  - exact Htoken.
  - apply lookup_set_same.
  - rewrite Htoken. cbn [field]. apply lookup_set_same.
Qed.

(** C1, as the code has it. For every steady-state request carrying a
    signature-valid LTIK whose user is a non-empty string (the session
    cookie, when present, holding a non-empty string), the request is passed
    to the next handler if and only if the signed cookie named by the LTIK's
    platformCode equals the LTIK's user, or the cookie is absent and devMode
    is enabled, and moreover both the IdToken row and the ContextToken row
    are found in the Store; the session state is then attached to
    [res.locals]. When the cookie is present with a different value, or
    absent without devMode, the request is redirected to
    [sessionTimeoutRoute]. *)
Theorem steady_state_passes_iff_cookie_and_rows :
  forall (E : Env) (P : Provider) (req : Request) (w : World) (validLtik : value) (u : string),
    Database E = MemoryStore.db ->
    reserved P (req_path req) = false ->
    truthy (req_token req) = true ->
    jwt_verify E (req_token req) (ENCRYPTIONKEY P) = Ok validLtik ->
    field validLtik "user" = VStr u ->
    u <> "" ->
    (session_cookie req validLtik = VUndefined \/
     exists c, session_cookie req validLtik = VStr c /\ c <> "") ->
    let cookie_ok :=
      session_cookie req validLtik = VStr u \/
      (session_cookie req validLtik = VUndefined /\ devMode P = true) in
    let run := sessionValidator E P req w in
    (snd run = Ok Next <->
     cookie_ok /\ idtoken_rows validLtik w <> [] /\ contexttoken_rows validLtik w <> []) /\
    (forall idrow ctxrow,
        cookie_ok ->
        hd_error (idtoken_rows validLtik w) = Some idrow ->
        hd_error (contexttoken_rows validLtik w) = Some ctxrow ->
        run = (attach_session (req_token req) idrow ctxrow w, Ok Next)) /\
    ((exists c, session_cookie req validLtik = VStr c /\ c <> u) \/
     (session_cookie req validLtik = VUndefined /\ devMode P = false) ->
     run = (w, Ok (Redirect (req_baseUrl req ++ sessionTimeoutRoute P)))).
Proof.
  intros E P req w validLtik u HDB Hpath Htoken Hverify Huser Hu Hcookie cookie_ok run.
  assert (Hrun := steady_state_run E P req w validLtik u HDB Hpath Htoken Hverify Huser Hu).
  fold run in Hrun.
  assert (Hcheck : cookie_check P u (session_cookie req validLtik) = true <-> cookie_ok).
  { unfold cookie_check, cookie_ok.
    destruct Hcookie as [Hc | (c & Hc & Hne)]; rewrite Hc; cbn [truthy ToString].
    - split; [intros ->; right; now split | intros [H | [_ H]]; [discriminate | exact H]].
    - destruct (String.eqb_spec c ""); [contradiction|]. cbn [negb].
      split.
      + intros H. apply String.eqb_eq in H. left. now subst.
      + intros [[= ->] | [H _]]; [apply String.eqb_refl | discriminate]. }
  split; [|split].
  - rewrite Hrun. destruct (cookie_check P u (session_cookie req validLtik)).
    + destruct (idtoken_rows validLtik w) as [|idrow idrows];
        [|destruct (contexttoken_rows validLtik w) as [|ctxrow ctxrows]]; cbn [snd].
      * split; [discriminate | intros (_ & H & _); now contradiction H].
      * split; [discriminate | intros (_ & _ & H); now contradiction H].
      * split; [intros _|reflexivity].
        split; [now apply Hcheck | split; discriminate].
    + cbn [snd]. split; [discriminate|].
      intros (Hok & _). apply Hcheck in Hok. discriminate.
  - intros idrow ctxrow Hok Hid Hctx. rewrite Hrun.
    apply Hcheck in Hok. rewrite Hok.
    destruct (idtoken_rows validLtik w) as [|i idrows]; [discriminate|].
    destruct (contexttoken_rows validLtik w) as [|c ctxrows]; [discriminate|].
    cbn in Hid, Hctx. now injection Hid as ->; injection Hctx as ->.
  - intros Hbad. rewrite Hrun.
    destruct (cookie_check P u (session_cookie req validLtik)); [|reflexivity].
    exfalso. assert (Hcc : cookie_ok) by now apply Hcheck.
    unfold cookie_ok in Hcc.
    destruct Hbad as [(c & Hc & Hne) | (Hc & Hdev)];
      destruct Hcc as [Hc' | (Hc' & Hdev')]; congruence.
Qed.

(** C3, as the code has it. For every steady-state request with a valid
    LTIK and a matching session cookie, if either the IdToken row at
    (platformUrl, deploymentId, user) or the ContextToken row at
    (contextId, user) is absent from the Store, the request is redirected to
    [invalidTokenRoute]. *)
Theorem missing_session_rows_redirect_to_invalidTokenRoute :
  forall (E : Env) (P : Provider) (req : Request) (w : World) (validLtik : value) (u : string),
    Database E = MemoryStore.db ->
    reserved P (req_path req) = false ->
    truthy (req_token req) = true ->
    jwt_verify E (req_token req) (ENCRYPTIONKEY P) = Ok validLtik ->
    field validLtik "user" = VStr u ->
    u <> "" ->
    session_cookie req validLtik = VStr u ->
    idtoken_rows validLtik w = [] \/ contexttoken_rows validLtik w = [] ->
    sessionValidator E P req w =
      (w, Ok (Redirect (req_baseUrl req ++ invalidTokenRoute P))).
Proof.
  intros E P req w validLtik u HDB Hpath Htoken Hverify Huser Hu Hcookie Hmissing.
  rewrite (steady_state_run E P req w validLtik u HDB Hpath Htoken Hverify Huser Hu).
  unfold cookie_check. rewrite Hcookie. cbn [truthy ToString].
  destruct (String.eqb_spec u ""); [contradiction|]. cbn [negb].
  rewrite String.eqb_refl.
  destruct w as [st r]. cbn [store res].
  destruct Hmissing as [-> | Hctx].
  - reflexivity.
  - rewrite Hctx. now destruct (idtoken_rows validLtik _).
Qed.

Lemma steady_state_passes_iff_cookie_and_rows_witness :
  let E := Demo.env in
  let P := Demo.provider in
  let req := session_request in
  let w := Demo.world launched_store in
  let validLtik := Demo.ltik_payload in
  let cookie_ok :=
    session_cookie req validLtik = VStr "u1" \/
    (session_cookie req validLtik = VUndefined /\ devMode P = true) in
  let run := sessionValidator E P req w in
  (snd run = Ok Next <->
   cookie_ok /\ idtoken_rows validLtik w <> [] /\ contexttoken_rows validLtik w <> []) /\
  (forall idrow ctxrow,
      cookie_ok ->
      hd_error (idtoken_rows validLtik w) = Some idrow ->
      hd_error (contexttoken_rows validLtik w) = Some ctxrow ->
      run = (attach_session (req_token req) idrow ctxrow w, Ok Next)) /\
  ((exists c, session_cookie req validLtik = VStr c /\ c <> "u1") \/
   (session_cookie req validLtik = VUndefined /\ devMode P = false) ->
   run = (w, Ok (Redirect (req_baseUrl req ++ sessionTimeoutRoute P)))).
Proof.
  apply (steady_state_passes_iff_cookie_and_rows Demo.env Demo.provider session_request
           (Demo.world launched_store) Demo.ltik_payload "u1").
  - reflexivity.
  - reflexivity.
  - reflexivity.
  - reflexivity.
  - reflexivity.
  - discriminate.
  - right. exists "u1". split; [reflexivity | discriminate].
Defined.

(** C1 as stated fails: the LTIK of this request verifies and its session
    cookie equals the LTIK's user, yet the request is not passed on, because
    the store holds no IdToken row for it. *)
Lemma matching_cookie_without_rows_is_not_passed :
  let req := session_request in
  let w := Demo.world Demo.registered in
  jwt_verify Demo.env (req_token req) (ENCRYPTIONKEY Demo.provider) = Ok Demo.ltik_payload /\
  session_cookie req Demo.ltik_payload = field Demo.ltik_payload "user" /\
  snd (sessionValidator Demo.env Demo.provider req w) = Ok (Redirect "/invalidToken") /\
  snd (sessionValidator Demo.env Demo.provider req w) <> Ok Next.
Proof.
  repeat split; try reflexivity. discriminate.
Qed.

Lemma missing_session_rows_redirect_to_invalidTokenRoute_witness :
  sessionValidator Demo.env Demo.provider session_request
    (Demo.world store_without_contexttoken) =
    (Demo.world store_without_contexttoken,
     Ok (Redirect (req_baseUrl session_request ++ invalidTokenRoute Demo.provider))).
Proof.
  apply (missing_session_rows_redirect_to_invalidTokenRoute Demo.env Demo.provider
           session_request (Demo.world store_without_contexttoken) Demo.ltik_payload "u1").
  - reflexivity.
  - reflexivity.
  - reflexivity.
  - reflexivity.
  - reflexivity.
  - discriminate.
  - reflexivity.
  - right. reflexivity.
Defined.

(** C3 as stated fails: the LTIK verifies, the session cookie matches and
    the IdToken row is there; the ContextToken row is absent, and the
    request is redirected to [/invalidToken], not to [/sessionTimeout]. *)
Lemma missing_contexttoken_is_not_a_session_timeout :
  let req := session_request in
  let w := Demo.world store_without_contexttoken in
  jwt_verify Demo.env (req_token req) (ENCRYPTIONKEY Demo.provider) = Ok Demo.ltik_payload /\
  session_cookie req Demo.ltik_payload = field Demo.ltik_payload "user" /\
  length (idtoken_rows Demo.ltik_payload w) = 1 /\
  contexttoken_rows Demo.ltik_payload w = [] /\
  snd (sessionValidator Demo.env Demo.provider req w) = Ok (Redirect "/invalidToken") /\
  snd (sessionValidator Demo.env Demo.provider req w)
    <> Ok (Redirect (req_baseUrl req ++ sessionTimeoutRoute Demo.provider)).
Proof.
  repeat split; try reflexivity. discriminate.
Qed.

(* ===================================================================== *)
(** ** Registration of platforms *)
(* ===================================================================== *)

Lemma truthy_field_object : forall v k, truthy (field v k) = true -> truthy v = true.
Proof. intros v k. now destruct v. Qed.

(** C4. When [registerPlatform] fails after the new key pair has been
    generated (the upsert of the platform document throws, whatever it
    leaves in the store), the catch block deletes the public key and the
    private key of the new kid and the platform rows of the url before it
    rethrows, and nothing else: in the store it leaves, each of the three
    collections holds the rows the failed upsert left, in their order,
    without the rows of that kid or of that url, every other collection is
    as the failed upsert left it, and no public key, private key or platform
    row of the failed registration remains. The deletions are those of the
    store contract. *)
Theorem registerPlatform_rolls_back :
  forall (E : Env) (P : Provider) (platform : value) (st st0 st1 st2 : Store)
         (kid : value) (e : string),
    Delete (Database E) = MemoryStore.delete ->
    truthy (field platform "url") = true ->
    getPlatform E P (field platform "url") None None st = (st0, Ok None) ->
    missing_arguments platform = false ->
    generateProviderKeyPair E (ENCRYPTIONKEY P) (field platform "url") st0 = (st1, Ok kid) ->
    Replace (Database E) false "platform" [("platformUrl", field platform "url")]
      (platform_document platform kid) st1 = (st2, Throw e) ->
    exists st' : Store,
      registerPlatform E P platform st = (st', Throw ("Error: " ++ e)) /\
      st' "publickey"
      = List.filter (fun r => negb (MemoryStore.matches [("kid", kid)] r)) (st2 "publickey") /\
      st' "privatekey"
      = List.filter (fun r => negb (MemoryStore.matches [("kid", kid)] r)) (st2 "privatekey") /\
      st' "platform"
      = List.filter
          (fun r => negb (MemoryStore.matches [("platformUrl", field platform "url")] r))
          (st2 "platform") /\
      (forall c, c <> "publickey" -> c <> "privatekey" -> c <> "platform" -> st' c = st2 c) /\
      MemoryStore.find "publickey" [("kid", kid)] st' = [] /\
      MemoryStore.find "privatekey" [("kid", kid)] st' = [] /\
      MemoryStore.find "platform" [("platformUrl", field platform "url")] st' = [].
Proof.
  intros E P platform st st0 st1 st2 kid e HDelete Hurl Hnew Hargs Hkeys Hreplace.
  unfold registerPlatform.
  rewrite (truthy_field_object _ _ Hurl), Hurl. cbn [negb orb].
  cbv beta iota zeta delta [try_catch registerPlatform_try registerPlatform_catch bind reg_db
                          assign_kid read_kid throw ret rs_store rs_kid].
  rewrite Hnew, Hargs, Hkeys, Hreplace, HDelete.
  unfold MemoryStore.delete at 1 2 3. cbn [fst snd].
  eexists. split; [reflexivity|]. cbn [rs_store].
  split; [|split; [|split; [|split; [|split; [|split]]]]].
  - reflexivity.
  - reflexivity.
  - reflexivity.
  - intros c Hpub Hpriv Hplat. unfold with_collection.
    destruct (String.eqb_spec c "platform"); [contradiction|].
    destruct (String.eqb_spec c "privatekey"); [contradiction|].
    destruct (String.eqb_spec c "publickey"); [contradiction | reflexivity].
  - rewrite 2 StoreFacts.find_other_collection by discriminate.
    apply (StoreFacts.find_after_delete "publickey" [("kid", kid)] st2).
  - rewrite StoreFacts.find_other_collection by discriminate.
    apply (StoreFacts.find_after_delete "privatekey" [("kid", kid)]).
  - apply (StoreFacts.find_after_delete "platform" [("platformUrl", field platform "url")]).
Qed.

Lemma registerPlatform_rolls_back_witness :
  let st1 := fst (Demo.keygen "MASTERKEY" (field canvas "url") Demo.registered) in
  let st2 := with_collection "platform"
               (Demo.registered "platform" ++ [[("platformUrl", field canvas "url")]])%list
               st1 in
  exists st' : Store,
    registerPlatform Demo.env_replace_fails Demo.provider canvas Demo.registered
    = (st', Throw ("Error: " ++ "write failed")) /\
    st' "publickey"
    = List.filter (fun r => negb (MemoryStore.matches [("kid", VStr "kid-1")] r))
        (st2 "publickey") /\
    st' "privatekey"
    = List.filter (fun r => negb (MemoryStore.matches [("kid", VStr "kid-1")] r))
        (st2 "privatekey") /\
    st' "platform"
    = List.filter
        (fun r => negb (MemoryStore.matches [("platformUrl", field canvas "url")] r))
        (st2 "platform") /\
    (forall c, c <> "publickey" -> c <> "privatekey" -> c <> "platform" -> st' c = st2 c) /\
    MemoryStore.find "publickey" [("kid", VStr "kid-1")] st' = [] /\
    MemoryStore.find "privatekey" [("kid", VStr "kid-1")] st' = [] /\
    MemoryStore.find "platform" [("platformUrl", field canvas "url")] st' = [].
Proof.
  intros st1 st2.
  apply (registerPlatform_rolls_back Demo.env_replace_fails Demo.provider canvas
           Demo.registered Demo.registered st1 st2 (VStr "kid-1") "write failed");
    reflexivity.
Defined.

(** The key pair and the partial platform document are in the store when the
    upsert fails, so the rollback of the witness is not vacuous. *)
Example rollback_has_something_to_delete :
  let st1 := fst (Demo.keygen "MASTERKEY" (field canvas "url") Demo.registered) in
  let st2 := fst (Replace Demo.db_replace_fails false "platform"
                    [("platformUrl", field canvas "url")]
                    (platform_document canvas (VStr "kid-1")) st1) in
  length (MemoryStore.find "publickey" [("kid", VStr "kid-1")] st2) = 1 /\
  length (MemoryStore.find "privatekey" [("kid", VStr "kid-1")] st2) = 1 /\
  length (MemoryStore.find "platform" [("platformUrl", field canvas "url")] st2) = 1.
Proof. repeat split; reflexivity. Qed.

(** The rollback of the witness spares the platform that was registered
    before and its key pair: the three collections are back to what they
    held before the call. *)
Example rollback_spares_the_registered_platform :
  let st' := fst (registerPlatform Demo.env_replace_fails Demo.provider canvas
                    Demo.registered) in
  st' "platform" = Demo.registered "platform" /\
  st' "publickey" = Demo.registered "publickey" /\
  st' "privatekey" = Demo.registered "privatekey" /\
  length (st' "platform") = 1 /\ length (st' "publickey") = 1 /\
  length (st' "privatekey") = 1.
Proof. repeat split; reflexivity. Qed.

Lemma lookup_spread_patch :
  forall (obj : object) (a b c d e : value),
    let merged := spread obj [("platformName", a); ("clientId", b); ("authEndpoint", c);
                              ("accesstokenEndpoint", d); ("authConfig", e)] in
    lookup "platformName" merged = a /\
    lookup "clientId" merged = b /\
    lookup "authEndpoint" merged = c /\
    lookup "accesstokenEndpoint" merged = d /\
    lookup "authConfig" merged = e /\
    lookup "kid" merged = lookup "kid" obj /\
    lookup "platformUrl" merged = lookup "platformUrl" obj.
Proof.
  intros obj a b c d e. cbn [spread fold_left fst snd].
  repeat split;
    repeat (first [ apply lookup_set_same
                  | rewrite lookup_set_other by discriminate ]);
    reflexivity.
Qed.

(** C5, as the code has it. For every call to [registerPlatform] with a url
    for which a Platform row already exists, no new key pair is generated
    (the key collections are untouched); the truthy fields of the argument
    are merged into the existing record, while fields that are not supplied,
    or are supplied with a falsy value such as the empty string, keep their
    stored values, and the stored kid and url are unchanged; the existing
    platform is returned. *)
Theorem registerPlatform_existing_merges_truthy_fields :
  forall (E : Env) (P : Provider) (platform : value) (st : Store) (obj : row)
         (rest : list row),
    Database E = MemoryStore.db ->
    truthy (field platform "url") = true ->
    MemoryStore.find "platform" [("platformUrl", field platform "url")] st = obj :: rest ->
    exists (st' : Store) (merged : row),
      registerPlatform E P platform st
      = (st', Ok (Platform_of_row (ENCRYPTIONKEY P) MemoryStore.db obj)) /\
      st' "publickey" = st "publickey" /\
      st' "privatekey" = st "privatekey" /\
      MemoryStore.find "platform" [("platformUrl", field platform "url")] st'
      = merged :: rest /\
      lookup "platformName" merged
      = (if truthy (field platform "name") then field platform "name"
         else lookup "platformName" obj) /\
      lookup "clientId" merged
      = (if truthy (field platform "clientId") then field platform "clientId"
         else lookup "clientId" obj) /\
      lookup "authEndpoint" merged
      = (if truthy (field platform "authenticationEndpoint")
         then field platform "authenticationEndpoint"
         else lookup "authEndpoint" obj) /\
      lookup "accesstokenEndpoint" merged
      = (if truthy (field platform "accesstokenEndpoint")
         then field platform "accesstokenEndpoint"
         else lookup "accesstokenEndpoint" obj) /\
      lookup "authConfig" merged
      = (if truthy (field platform "authConfig") then field platform "authConfig"
         else lookup "authConfig" obj) /\
      lookup "kid" merged = lookup "kid" obj /\
      lookup "platformUrl" merged = lookup "platformUrl" obj.
Proof.
  intros E P platform st obj rest HDB Hurl Hfind.
  set (existing := Platform_of_row (ENCRYPTIONKEY P) MemoryStore.db obj).
  set (filter := [("platformUrl", field platform "url")]) in *.
  assert (Hmatch : MemoryStore.matches filter obj = true).
  { assert (Hin : In obj (MemoryStore.find "platform" filter st))
      by (rewrite Hfind; now left).
    now apply filter_In in Hin. }
  destruct (lookup_spread_patch obj
              (or_else (field platform "name") (platformName existing))
              (or_else (field platform "clientId") (platformClientId existing))
              (or_else (field platform "authenticationEndpoint")
                 (platformAuthEndpoint existing))
              (or_else (field platform "accesstokenEndpoint")
                 (platformAccessTokenEndpoint existing))
              (or_else (field platform "authConfig") (platformAuthConfig existing)))
    as (Hname & Hclient & Hauth & Htoken & Hconfig & Hkid & Hplaturl).
  fold (platform_patch platform existing) in Hname, Hclient, Hauth, Htoken, Hconfig, Hkid,
    Hplaturl.
  assert (Hmatch' : MemoryStore.matches filter (spread obj (platform_patch platform existing))
                    = true).
  { unfold MemoryStore.matches, filter in *. cbn [forallb fst snd] in *.
    now rewrite Hplaturl. }
  exists (with_collection "platform"
            (MemoryStore.modify_first filter (platform_patch platform existing)
               (st "platform")) st),
    (spread obj (platform_patch platform existing)).
  split; [|split; [reflexivity | split; [reflexivity | split]]].
  - unfold registerPlatform.
    rewrite (truthy_field_object _ _ Hurl), Hurl. cbn [negb orb].
    cbv beta iota zeta delta [try_catch registerPlatform_try bind reg_db ret rs_store rs_kid
                                getPlatform].
    rewrite Hurl, HDB. cbn [negb Get Modify MemoryStore.db].
    unfold MemoryStore.get at 1. fold filter. rewrite Hfind.
    reflexivity.
  - unfold MemoryStore.find, with_collection. rewrite String.eqb_refl.
    now apply StoreFacts.find_modify_first.
  - repeat split; assumption.
Qed.

Lemma registerPlatform_existing_merges_truthy_fields_witness :
  exists (st' : Store) (merged : row),
    registerPlatform Demo.env Demo.provider moodle_update Demo.registered
    = (st', Ok (Platform_of_row (ENCRYPTIONKEY Demo.provider) MemoryStore.db Demo.moodle)) /\
    st' "publickey" = Demo.registered "publickey" /\
    st' "privatekey" = Demo.registered "privatekey" /\
    MemoryStore.find "platform" [("platformUrl", field moodle_update "url")] st'
    = merged :: [] /\
    lookup "platformName" merged
    = (if truthy (field moodle_update "name") then field moodle_update "name"
       else lookup "platformName" Demo.moodle) /\
    lookup "clientId" merged
    = (if truthy (field moodle_update "clientId") then field moodle_update "clientId"
       else lookup "clientId" Demo.moodle) /\
    lookup "authEndpoint" merged
    = (if truthy (field moodle_update "authenticationEndpoint")
       then field moodle_update "authenticationEndpoint"
       else lookup "authEndpoint" Demo.moodle) /\
    lookup "accesstokenEndpoint" merged
    = (if truthy (field moodle_update "accesstokenEndpoint")
       then field moodle_update "accesstokenEndpoint"
       else lookup "accesstokenEndpoint" Demo.moodle) /\
    lookup "authConfig" merged
    = (if truthy (field moodle_update "authConfig") then field moodle_update "authConfig"
       else lookup "authConfig" Demo.moodle) /\
    lookup "kid" merged = lookup "kid" Demo.moodle /\
    lookup "platformUrl" merged = lookup "platformUrl" Demo.moodle.
Proof.
  apply (registerPlatform_existing_merges_truthy_fields Demo.env Demo.provider
           moodle_update Demo.registered Demo.moodle []); reflexivity.
Defined.

(** C5 as stated fails: this call supplies the name [""], which is not
    null, for a registered url; the stored name is still ["Moodle"]
    afterwards. *)
Lemma registerPlatform_existing_keeps_name_over_empty_string :
  let platform := VObj [("url", VStr Demo.iss); ("name", VStr "")] in
  let run := registerPlatform Demo.env Demo.provider platform Demo.registered in
  nullish (field platform "name") = false /\
  snd run = Ok (Platform_of_row "MASTERKEY" MemoryStore.db Demo.moodle) /\
  map (lookup "platformName")
    (MemoryStore.find "platform" [("platformUrl", field platform "url")] (fst run))
  = [VStr "Moodle"] /\
  VStr "Moodle" <> field platform "name".
Proof.
  repeat split; try reflexivity. discriminate.
Qed.

(* ===================================================================== *)
(** ** The key of the ContextToken *)
(* ===================================================================== *)

Lemma eqb_refl : forall v : value, JS.eqb v v = true.
Proof.
  fix IH 1. intros [ | | b | n | | s | f | l]; cbn [JS.eqb]; try reflexivity.
  - apply Bool.eqb_reflx.
  - apply Z.eqb_refl.
  - apply String.eqb_refl.
  - induction f as [|[k x] f IHf]; [reflexivity|].
    now rewrite String.eqb_refl, IH, IHf.
  - induction l as [|x l IHl]; [reflexivity|].
    now rewrite IH, IHl.
Qed.

Lemma ToString_id_or_NF :
  forall claim,
    ToString (id_or_NF claim)
    = match claim_id claim with Some s => s | None => "NF" end.
Proof.
  intro claim. unfold id_or_NF, claim_id. now destruct (truthy claim).
Qed.

(** C6. For every validated launch, the ContextToken is stored under the key
    [contextId = urlencode(iss ++ deploymentId ++ courseId ++ "_" ++
    resourceId)], where [courseId] is the id of the context claim and
    [resourceId] the id of the resource_link claim, each replaced by ["NF"]
    when its claim is absent. *)
Theorem launch_stores_contextId :
  forall (E : Env) (P : Provider) (req : Request) (w : World) (st1 : Store)
         (valid : value) (iss : string),
    Database E = MemoryStore.db ->
    reserved P (req_path req) = false ->
    truthy (req_token req) = false ->
    truthy (lookup "id_token" (req_body req)) = true ->
    validateToken E (lookup "id_token" (req_body req)) (devMode P)
      (validationParameters P req) (store w) = (st1, Ok valid) ->
    field valid "iss" = VStr iss ->
    let contextId :=
      spec_contextId iss (ToString (field valid claim_deployment_id))
        (claim_id (field valid claim_context))
        (claim_id (field valid claim_resource_link)) in
    let w' := fst (sessionValidator E P req w) in
    exists contextToken : row,
      In contextToken
        (MemoryStore.find "contexttoken"
           (contexttoken_filter (VStr contextId) (field valid "sub")) (store w')) /\
      lookup "contextId" contextToken = VStr contextId /\
      lookup "user" contextToken = field valid "sub".
Proof.
  intros E P req w st1 valid iss HDB Hpath Htoken Hid Hvalid Hiss contextId w'.
  assert (Hobj : nullish valid = false).
  { destruct valid; try discriminate; reflexivity. }
  assert (Hcode :
            encodeURIComponent
              (ToString
                 (add (add (add (add (field valid "iss") (field valid claim_deployment_id))
                              (id_or_NF (field valid claim_context))) (VStr "_"))
                    (id_or_NF (field valid claim_resource_link))))
            = contextId).
  { rewrite Hiss. rewrite !add_string_left. cbn [ToString].
    rewrite !ToString_id_or_NF. unfold contextId, spec_contextId.
    now rewrite !append_assoc. }
  unfold w', sessionValidator. rewrite Hpath.
  unfold try_catch. rewrite Htoken. cbn [negb]. rewrite Hid.
  cbv beta iota zeta delta [sessionValidator_launch bind db_op ret throw of_result
                              res_clearCookie res_cookie require_coercible
                              Buffer_from_base64].
  assert (Hb64 : add (field valid "iss") (field valid claim_deployment_id)
                 = VStr (iss ++ ToString (field valid claim_deployment_id))).
  { now rewrite Hiss. }
  rewrite Hvalid, Hobj, Hcode, Hb64, HDB.
  cbn [Replace MemoryStore.db MemoryStore.replace store res fst snd].
  match goal with
  | |- context [MemoryStore.replace_first (contexttoken_filter _ _) ?new ?old] =>
      set (contextToken := new); set (rows := old)
  end.
  match goal with
  | |- context [with_collection "contexttoken" ?r ?st0] =>
      set (stored := with_collection "contexttoken" r st0)
  end.
  assert (HcontextId : lookup "contextId" contextToken = VStr contextId) by reflexivity.
  assert (Huser : lookup "user" contextToken = field valid "sub") by reflexivity.
  exists contextToken. split; [|split; assumption].
  assert (Hfound : In contextToken
                     (MemoryStore.find "contexttoken"
                        (contexttoken_filter (VStr contextId) (field valid "sub")) stored)).
  { unfold MemoryStore.find, stored, with_collection at 1. rewrite String.eqb_refl.
    apply filter_In. split; [apply StoreFacts.replace_first_In|].
    unfold MemoryStore.matches, contexttoken_filter. cbn [forallb fst snd].
    now rewrite HcontextId, Huser, !eqb_refl. }
  destruct (jwt_sign E _ (ENCRYPTIONKEY P)); exact Hfound.
Qed.

Lemma launch_stores_contextId_witness :
  let contextId :=
    spec_contextId Demo.iss (ToString (field Demo.claims claim_deployment_id))
      (claim_id (field Demo.claims claim_context))
      (claim_id (field Demo.claims claim_resource_link)) in
  let w' := fst (sessionValidator Demo.env Demo.provider (Demo.callback "good.id.token")
                   (Demo.world Demo.registered)) in
  exists contextToken : row,
    In contextToken
      (MemoryStore.find "contexttoken"
         (contexttoken_filter (VStr contextId) (field Demo.claims "sub")) (store w')) /\
    lookup "contextId" contextToken = VStr contextId /\
    lookup "user" contextToken = field Demo.claims "sub".
Proof.
  apply (launch_stores_contextId Demo.env Demo.provider (Demo.callback "good.id.token")
           (Demo.world Demo.registered) Demo.registered Demo.claims Demo.iss);
    reflexivity.
Defined.

(** The key of the happy-path launch, and the key of a launch whose token
    carries neither a context nor a resource_link claim. *)
Example contextId_of_the_demo_launch :
  spec_contextId Demo.iss "d" (Some "c") (Some "r") = "https%3A%2F%2Flms.example%2Fdc_r".
Proof. reflexivity. Qed.

Example contextId_without_claims :
  spec_contextId Demo.iss "d" (claim_id VUndefined) (claim_id VUndefined)
  = "https%3A%2F%2Flms.example%2FdNF_NF".
Proof. reflexivity. Qed.

(* ===================================================================== *)
(** ** Further properties of the launch *)
(* ===================================================================== *)

Module LaunchFacts.
Import MemoryStore.

(** After an upsert of a row that matches its own filter, that row is the
    first one the filter finds. *)
Lemma filter_replace_first :
  forall filter new rows,
    matches filter new = true ->
    List.filter (matches filter) (replace_first filter new rows)
    = new :: tl (List.filter (matches filter) rows).
Proof.
  intros filter new rows Hnew. induction rows as [|r rows IH]; simpl.
  - now rewrite Hnew.
  - destruct (matches filter r) eqn:Hr; simpl.
    + now rewrite Hnew.
    + now rewrite Hr.
Qed.

Lemma replace_first_idempotent :
  forall filter new rows,
    matches filter new = true ->
    replace_first filter new (replace_first filter new rows) = replace_first filter new rows.
Proof.
  intros filter new rows Hnew. induction rows as [|r rows IH]; simpl.
  - now rewrite Hnew.
  - destruct (matches filter r) eqn:Hr; simpl.
    + now rewrite Hnew.
    + now rewrite Hr, IH.
Qed.

Lemma platformToken_matches :
  forall valid,
    matches (idtoken_filter (field valid "iss") (field valid claim_deployment_id)
               (field valid "sub")) (launch_platformToken valid) = true.
Proof.
  intro valid. unfold matches, idtoken_filter. cbn [forallb fst snd].
  change (lookup "iss" (launch_platformToken valid)) with (field valid "iss").
  change (lookup "deploymentId" (launch_platformToken valid))
    with (field valid claim_deployment_id).
  change (lookup "user" (launch_platformToken valid)) with (field valid "sub").
  now rewrite !eqb_refl.
Qed.

Lemma contextToken_matches :
  forall req valid,
    matches (contexttoken_filter (VStr (launch_contextId valid)) (field valid "sub"))
      (launch_contextToken req valid) = true.
Proof.
  intros req valid. unfold matches, contexttoken_filter. cbn [forallb fst snd].
  change (lookup "contextId" (launch_contextToken req valid))
    with (VStr (launch_contextId valid)).
  change (lookup "user" (launch_contextToken req valid)) with (field valid "sub").
  now rewrite !eqb_refl.
Qed.

End LaunchFacts.

(** The run of a callback whose id_token validates, up to the signature of
    the LTIK. *)
Lemma launch_run :
  forall (E : Env) (P : Provider) (req : Request) (w : World) (st1 : Store)
         (valid : value) (iss : string),
    Database E = MemoryStore.db ->
    reserved P (req_path req) = false ->
    truthy (req_token req) = false ->
    truthy (lookup "id_token" (req_body req)) = true ->
    validateToken E (lookup "id_token" (req_body req)) (devMode P)
      (validationParameters P req) (store w) = (st1, Ok valid) ->
    field valid "iss" = VStr iss ->
    sessionValidator E P req w =
      ({| store := launch_store req valid st1;
          res := launch_response P req iss valid (res w) |},
       Ok (Redirect
             match jwt_sign E (launch_ltik_payload req iss valid) (ENCRYPTIONKEY P) with
             | Ok newLtik =>
                 req_baseUrl req ++ req_path req ++ "?"
                 ++ URLSearchParams_toString E (req_query req ++ [("ltik", VStr newLtik)])%list
             | Throw _ => req_baseUrl req ++ invalidTokenRoute P
             end)).
Proof.
  intros E P req w st1 valid iss HDB Hpath Htoken Hid Hvalid Hiss.
  assert (Hobj : nullish valid = false).
  { destruct valid; try discriminate; reflexivity. }
  assert (Hb64 : add (field valid "iss") (field valid claim_deployment_id)
                 = VStr (iss ++ ToString (field valid claim_deployment_id))).
  { now rewrite Hiss. }
  unfold sessionValidator. rewrite Hpath.
  unfold try_catch. rewrite Htoken. cbn [negb]. rewrite Hid.
  cbv beta iota zeta delta [sessionValidator_launch bind db_op ret throw of_result
                              res_clearCookie res_cookie require_coercible
                              Buffer_from_base64].
  rewrite Hvalid. cbv beta iota. fold (launch_contextId valid).
  rewrite Hobj, Hb64, HDB.
  cbn [Replace MemoryStore.db MemoryStore.replace store res fst snd res_cookies res_locals].
  fold (launch_platformCode iss valid).
  fold (launch_platformToken valid). fold (launch_contextToken req valid).
  fold (launch_ltik_payload req iss valid).
  destruct (jwt_sign E (launch_ltik_payload req iss valid) (ENCRYPTIONKEY P)); reflexivity.
Qed.

Lemma launch_store_idempotent :
  forall req valid st c,
    launch_store req valid (launch_store req valid st) c = launch_store req valid st c.
Proof.
  intros req valid st c. unfold launch_store, with_collection.
  change ("contexttoken" =? "contexttoken") with true.
  change ("idtoken" =? "idtoken") with true.
  change ("contexttoken" =? "idtoken") with false.
  change ("idtoken" =? "contexttoken") with false.
  cbv beta iota.
  destruct (c =? "contexttoken").
  - apply LaunchFacts.replace_first_idempotent, LaunchFacts.contextToken_matches.
  - destruct (c =? "idtoken"); [|reflexivity].
    apply LaunchFacts.replace_first_idempotent, LaunchFacts.platformToken_matches.
Qed.

Lemma launch_store_rows :
  forall req valid st,
    MemoryStore.find "idtoken"
      (idtoken_filter (field valid "iss") (field valid claim_deployment_id)
         (field valid "sub")) (launch_store req valid st)
    = launch_platformToken valid
      :: tl (MemoryStore.find "idtoken"
               (idtoken_filter (field valid "iss") (field valid claim_deployment_id)
                  (field valid "sub")) st) /\
    MemoryStore.find "contexttoken"
      (contexttoken_filter (VStr (launch_contextId valid)) (field valid "sub"))
      (launch_store req valid st)
    = launch_contextToken req valid
      :: tl (MemoryStore.find "contexttoken"
               (contexttoken_filter (VStr (launch_contextId valid)) (field valid "sub")) st).
Proof.
  intros req valid st. unfold MemoryStore.find, launch_store, with_collection.
  change ("contexttoken" =? "contexttoken") with true.
  change ("idtoken" =? "idtoken") with true.
  change ("contexttoken" =? "idtoken") with false.
  change ("idtoken" =? "contexttoken") with false.
  cbv beta iota. split.
  - apply LaunchFacts.filter_replace_first, LaunchFacts.platformToken_matches.
  - apply LaunchFacts.filter_replace_first, LaunchFacts.contextToken_matches.
Qed.

(** X1. A validated launch materializes the session: the response clears the
    state cookie and then sets the cookie named
    [urlencode("lti" ++ base64(iss ++ deploymentId))] to the [sub] claim, the
    IdToken and the ContextToken built from the claims are the first rows
    found under their keys, and, once the LTIK is signed, the redirect goes
    to [baseUrl ++ path] with the original query followed by [ltik]. *)
Theorem launch_materializes_session :
  forall (E : Env) (P : Provider) (req : Request) (w : World) (st1 : Store)
         (valid : value) (iss : string),
    Database E = MemoryStore.db ->
    reserved P (req_path req) = false ->
    truthy (req_token req) = false ->
    truthy (lookup "id_token" (req_body req)) = true ->
    validateToken E (lookup "id_token" (req_body req)) (devMode P)
      (validationParameters P req) (store w) = (st1, Ok valid) ->
    field valid "iss" = VStr iss ->
    let run := sessionValidator E P req w in
    res_cookies (res (fst run))
    = (res_cookies (res w)
       ++ [ClearCookie (state_cookie_name req) (cookieOptions P);
           SetCookie (encodeURIComponent
                        ("lti" ++ base64 (iss ++ ToString (field valid claim_deployment_id))))
             (field valid "sub") (cookieOptions P)])%list /\
    res_locals (res (fst run)) = res_locals (res w) /\
    hd_error (MemoryStore.find "idtoken"
                (idtoken_filter (VStr iss) (field valid claim_deployment_id)
                   (field valid "sub")) (store (fst run)))
    = Some (launch_platformToken valid) /\
    hd_error (MemoryStore.find "contexttoken"
                (contexttoken_filter (VStr (launch_contextId valid)) (field valid "sub"))
                (store (fst run)))
    = Some (launch_contextToken req valid) /\
    (forall newLtik,
        jwt_sign E (launch_ltik_payload req iss valid) (ENCRYPTIONKEY P) = Ok newLtik ->
        snd run = Ok (Redirect (req_baseUrl req ++ req_path req ++ "?"
                                ++ URLSearchParams_toString E
                                     (req_query req ++ [("ltik", VStr newLtik)])%list))).
Proof.
  intros E P req w st1 valid iss HDB Hpath Htoken Hid Hvalid Hiss run.
  unfold run. rewrite (launch_run E P req w st1 valid iss HDB Hpath Htoken Hid Hvalid Hiss).
  cbn [fst snd store res].
  destruct (launch_store_rows req valid st1) as [Hidrows Hctxrows].
  repeat split.
  - unfold launch_response. cbn [res_cookies]. now rewrite <- app_assoc.
  - rewrite <- Hiss, Hidrows. reflexivity.
  - now rewrite Hctxrows.
  - intros newLtik ->. reflexivity.
Qed.

Lemma launch_materializes_session_witness :
  let E := Demo.env in
  let P := Demo.provider in
  let req := Demo.callback "good.id.token" in
  let w := Demo.world Demo.registered in
  let valid := Demo.claims in
  let run := sessionValidator E P req w in
  res_cookies (res (fst run))
  = (res_cookies (res w)
     ++ [ClearCookie (state_cookie_name req) (cookieOptions P);
         SetCookie (encodeURIComponent
                      ("lti" ++ base64 (Demo.iss ++ ToString (field valid claim_deployment_id))))
           (field valid "sub") (cookieOptions P)])%list /\
  res_locals (res (fst run)) = res_locals (res w) /\
  hd_error (MemoryStore.find "idtoken"
              (idtoken_filter (VStr Demo.iss) (field valid claim_deployment_id)
                 (field valid "sub")) (store (fst run)))
  = Some (launch_platformToken valid) /\
  hd_error (MemoryStore.find "contexttoken"
              (contexttoken_filter (VStr (launch_contextId valid)) (field valid "sub"))
              (store (fst run)))
  = Some (launch_contextToken req valid) /\
  (forall newLtik,
      jwt_sign E (launch_ltik_payload req Demo.iss valid) (ENCRYPTIONKEY P) = Ok newLtik ->
      snd run = Ok (Redirect (req_baseUrl req ++ req_path req ++ "?"
                              ++ URLSearchParams_toString E
                                   (req_query req ++ [("ltik", VStr newLtik)])%list))).
Proof.
  apply (launch_materializes_session Demo.env Demo.provider (Demo.callback "good.id.token")
           (Demo.world Demo.registered) Demo.registered Demo.claims Demo.iss);
    reflexivity.
Defined.

(** X2. Launch, then steady state. Suppose the launch of a user with a
    non-empty [sub] went through on a fresh response and its LTIK was signed,
    and that [jwt.verify] decodes that LTIK to an object carrying the six
    signed fields, whatever else it holds ([jsonwebtoken] adds the time of
    issue [iat] to a payload it signs). A later request that is not for a
    reserved route, carries that LTIK and the cookies the browser holds
    after the launch response is handed to the next handler, with the
    IdToken of the launch (the ContextToken of the launch as its
    [platformContext]) attached to [res.locals]. *)
Theorem launch_then_steady_state :
  forall (E : Env) (P : Provider) (req : Request) (w : World) (st1 : Store)
         (valid : value) (iss u newLtik : string) (validLtik : value) (req' : Request)
         (jar : object) (r' : Response),
    Database E = MemoryStore.db ->
    reserved P (req_path req) = false ->
    truthy (req_token req) = false ->
    truthy (lookup "id_token" (req_body req)) = true ->
    validateToken E (lookup "id_token" (req_body req)) (devMode P)
      (validationParameters P req) (store w) = (st1, Ok valid) ->
    field valid "iss" = VStr iss ->
    field valid "sub" = VStr u ->
    u <> "" ->
    res_cookies (res w) = [] ->
    jwt_sign E (launch_ltik_payload req iss valid) (ENCRYPTIONKEY P) = Ok newLtik ->
    jwt_verify E (VStr newLtik) (ENCRYPTIONKEY P) = Ok validLtik ->
    (forall k, In k ["platformUrl"; "deploymentId"; "platformCode"; "contextId"; "user"; "s"] ->
               field validLtik k = field (launch_ltik_payload req iss valid) k) ->
    newLtik <> "" ->
    reserved P (req_path req') = false ->
    req_token req' = VStr newLtik ->
    req_signedCookies req'
    = cookies_after jar (res_cookies (res (fst (sessionValidator E P req w)))) ->
    let w' := {| store := store (fst (sessionValidator E P req w)); res := r' |} in
    sessionValidator E P req' w'
    = (attach_session (VStr newLtik) (launch_platformToken valid)
         (launch_contextToken req valid) w', Ok Next).
Proof.
  intros E P req w st1 valid iss u newLtik validLtik req' jar r' HDB Hpath Htoken Hid Hvalid
    Hiss Hsub Hu Hfresh Hsign Hverify Hfields Hltik Hpath' Htoken' Hcookies w'.
  assert (Hrun := launch_run E P req w st1 valid iss HDB Hpath Htoken Hid Hvalid Hiss).
  assert (Htruthy : truthy (req_token req') = true).
  { rewrite Htoken'. simpl. now destruct (String.eqb_spec newLtik ""). }
  assert (Hverify' : jwt_verify E (req_token req') (ENCRYPTIONKEY P) = Ok validLtik)
    by now rewrite Htoken'.
  assert (HplatformUrl : field validLtik "platformUrl" = field valid "iss").
  { rewrite Hfields by (cbn [In]; tauto). reflexivity. }
  assert (HdeploymentId : field validLtik "deploymentId" = field valid claim_deployment_id).
  { rewrite Hfields by (cbn [In]; tauto). reflexivity. }
  assert (HplatformCode : field validLtik "platformCode" = VStr (launch_platformCode iss valid)).
  { rewrite Hfields by (cbn [In]; tauto). reflexivity. }
  assert (HcontextId : field validLtik "contextId" = VStr (launch_contextId valid)).
  { rewrite Hfields by (cbn [In]; tauto). reflexivity. }
  assert (Huser : field validLtik "user" = VStr u).
  { rewrite Hfields by (cbn [In]; tauto). exact Hsub. }
  rewrite (steady_state_run E P req' w' validLtik u HDB Hpath' Htruthy Hverify' Huser Hu).
  rewrite Htoken'.
  assert (Hcookie : session_cookie req' validLtik = VStr u).
  { unfold session_cookie. rewrite Hcookies, Hrun. cbn [fst res launch_response res_cookies].
    rewrite Hfresh. cbn [app cookies_after fold_left apply_cookie_op].
    rewrite HplatformCode. cbn [ToString]. rewrite lookup_set_same. exact Hsub. }
  unfold cookie_check. rewrite Hcookie. cbn [truthy ToString].
  destruct (String.eqb_spec u ""); [contradiction|]. cbn [negb].
  rewrite String.eqb_refl.
  destruct (launch_store_rows req valid st1) as [Hidrows Hctxrows].
  unfold idtoken_rows, contexttoken_rows, w'. rewrite Hrun. cbn [fst store].
  rewrite HplatformUrl, HdeploymentId, HcontextId, Huser, <- Hsub.
  now rewrite Hidrows, Hctxrows.
Qed.

Lemma launch_then_steady_state_witness :
  let w' := {| store := store (fst (sessionValidator env_with_iat Demo.provider
                                      (Demo.callback "good.id.token")
                                      (Demo.world Demo.registered)));
               res := fresh_response |} in
  sessionValidator env_with_iat Demo.provider session_request w'
  = (attach_session (VStr "header.payload.signature") (launch_platformToken Demo.claims)
       (launch_contextToken (Demo.callback "good.id.token") Demo.claims) w', Ok Next).
Proof.
  apply (launch_then_steady_state env_with_iat Demo.provider (Demo.callback "good.id.token")
           (Demo.world Demo.registered) Demo.registered Demo.claims Demo.iss "u1"
           "header.payload.signature" decoded_ltik session_request
           (req_signedCookies (Demo.callback "good.id.token")) fresh_response);
    try reflexivity; try discriminate.
  intros k Hk. cbn [In] in Hk.
  repeat (destruct Hk as [<-|Hk]; [reflexivity|]). contradiction.
Defined.

(** X3. Posting the same valid id_token again changes nothing in the store:
    when the validator accepts it again with the same claims and without
    writing, every collection is the same after the second launch as after
    the first, and if there was no IdToken or ContextToken row under the key
    before the first launch there is exactly one afterwards. *)
Theorem relaunch_is_idempotent :
  forall (E : Env) (P : Provider) (req : Request) (w : World) (st1 : Store)
         (valid : value) (iss : string) (r' : Response),
    Database E = MemoryStore.db ->
    reserved P (req_path req) = false ->
    truthy (req_token req) = false ->
    truthy (lookup "id_token" (req_body req)) = true ->
    validateToken E (lookup "id_token" (req_body req)) (devMode P)
      (validationParameters P req) (store w) = (st1, Ok valid) ->
    field valid "iss" = VStr iss ->
    let w1 := fst (sessionValidator E P req w) in
    validateToken E (lookup "id_token" (req_body req)) (devMode P)
      (validationParameters P req) (store w1) = (store w1, Ok valid) ->
    let w2 := fst (sessionValidator E P req {| store := store w1; res := r' |}) in
    let idtoken_key :=
      idtoken_filter (field valid "iss") (field valid claim_deployment_id)
        (field valid "sub") in
    let contexttoken_key :=
      contexttoken_filter (VStr (launch_contextId valid)) (field valid "sub") in
    (forall c, store w2 c = store w1 c) /\
    (MemoryStore.find "idtoken" idtoken_key st1 = [] ->
     MemoryStore.find "idtoken" idtoken_key (store w2) = [launch_platformToken valid]) /\
    (MemoryStore.find "contexttoken" contexttoken_key st1 = [] ->
     MemoryStore.find "contexttoken" contexttoken_key (store w2)
     = [launch_contextToken req valid]).
Proof.
  intros E P req w st1 valid iss r' HDB Hpath Htoken Hid Hvalid Hiss w1 Hagain w2
    idtoken_key contexttoken_key.
  assert (Hw1 : store w1 = launch_store req valid st1).
  { unfold w1. now rewrite (launch_run E P req w st1 valid iss HDB Hpath Htoken Hid Hvalid Hiss). }
  assert (Hw2 : store w2 = launch_store req valid (store w1)).
  { unfold w2.
    now rewrite (launch_run E P req {| store := store w1; res := r' |} (store w1) valid iss
                   HDB Hpath Htoken Hid Hagain Hiss). }
  assert (Hsame : forall c, store w2 c = store w1 c).
  { intro c. rewrite Hw2, Hw1. apply launch_store_idempotent. }
  destruct (launch_store_rows req valid st1) as [Hidrows Hctxrows].
  split; [exact Hsame | split]; intros Hnone.
  - unfold MemoryStore.find. rewrite Hsame, Hw1.
    fold (MemoryStore.find "idtoken" idtoken_key (launch_store req valid st1)).
    unfold idtoken_key in *. now rewrite Hidrows, Hnone.
  - unfold MemoryStore.find. rewrite Hsame, Hw1.
    fold (MemoryStore.find "contexttoken" contexttoken_key (launch_store req valid st1)).
    unfold contexttoken_key in *. now rewrite Hctxrows, Hnone.
Qed.

Lemma relaunch_is_idempotent_witness :
  let E := Demo.env in
  let P := Demo.provider in
  let req := Demo.callback "good.id.token" in
  let valid := Demo.claims in
  let w1 := fst (sessionValidator E P req (Demo.world Demo.registered)) in
  let w2 := fst (sessionValidator E P req {| store := store w1; res := fresh_response |}) in
  let idtoken_key :=
    idtoken_filter (field valid "iss") (field valid claim_deployment_id)
      (field valid "sub") in
  let contexttoken_key :=
    contexttoken_filter (VStr (launch_contextId valid)) (field valid "sub") in
  (forall c, store w2 c = store w1 c) /\
  (MemoryStore.find "idtoken" idtoken_key Demo.registered = [] ->
   MemoryStore.find "idtoken" idtoken_key (store w2) = [launch_platformToken valid]) /\
  (MemoryStore.find "contexttoken" contexttoken_key Demo.registered = [] ->
   MemoryStore.find "contexttoken" contexttoken_key (store w2)
   = [launch_contextToken req valid]).
Proof.
  apply (relaunch_is_idempotent Demo.env Demo.provider (Demo.callback "good.id.token")
           (Demo.world Demo.registered) Demo.registered Demo.claims Demo.iss
           fresh_response); reflexivity.
Defined.

(* ===================================================================== *)
(** ** What the middleware answers *)
(* ===================================================================== *)

Module Answers.

Lemma of_ret : forall o, o = Next \/ (exists l, o = Redirect l) -> answers (ret o).
Proof. intros o Ho w w' o' [= <- <-]. exact Ho. Qed.

Lemma of_throw : forall e, answers (throw e).
Proof. intros e w w' o H. discriminate H. Qed.

Lemma of_bind :
  forall {A} (m : Eff World A) (k : A -> Eff World Outcome),
    (forall a, answers (k a)) -> answers (bind m k).
Proof.
  intros A m k Hk w w' o. unfold bind.
  destruct (m w) as [w1 [a|e]]; [apply Hk | discriminate].
Qed.

Lemma launch : forall E P req idtoken, answers (sessionValidator_launch E P req idtoken).
Proof.
  intros E P req idtoken. unfold sessionValidator_launch. cbv zeta.
  repeat (apply of_bind; intro).
  apply of_ret. right. eauto.
Qed.

Lemma session :
  forall E P req ltik validLtik, answers (sessionValidator_session E P req ltik validLtik).
Proof.
  intros E P req ltik validLtik. unfold sessionValidator_session. cbv zeta.
  apply of_bind; intros _. apply of_bind; intro user.
  destruct (truthy user); [|apply of_ret; right; eauto].
  apply of_bind; intros [idToken|]; [|apply of_throw].
  apply of_bind; intros [contextToken|]; [|apply of_throw].
  repeat (apply of_bind; intro).
  apply of_ret. now left.
Qed.

End Answers.

(** X4. [sessionValidator] never throws and never sends a response body
    itself: whatever the collaborators do (the validator, the store, the
    token library may all throw), every request ends in [next()] or in a
    redirect. *)
Theorem sessionValidator_always_answers :
  forall (E : Env) (P : Provider) (req : Request) (w : World),
    exists (w' : World) (o : Outcome),
      sessionValidator E P req w = (w', Ok o) /\
      (o = Next \/ exists location, o = Redirect location).
Proof.
  intros E P req w. unfold sessionValidator.
  destruct (reserved P (req_path req)); [exists w, Next; split; [reflexivity | now left]|].
  unfold try_catch.
  match goal with
  | |- context [match ?m w with _ => _ end] =>
      assert (Hanswers : answers m); [|destruct (m w) as [w' [o|e]] eqn:Hrun]
  end.
  - destruct (truthy (req_token req)); cbn [negb].
    + destruct (jwt_verify E (req_token req) (ENCRYPTIONKEY P)).
      * apply Answers.session.
      * destruct (whitelisted P req); [apply Answers.of_ret; now left | apply Answers.of_throw].
    + destruct (truthy (lookup "id_token" (req_body req))); [apply Answers.launch|].
      destruct (whitelisted P req); apply Answers.of_ret; [now left | right; eauto].
  - exists w', o. split; [reflexivity | exact (Hanswers _ _ _ Hrun)].
  - eexists _, _. split; [reflexivity | right; eauto].
Qed.

(** X5. A request whose LTIK does not verify is treated like a request
    without credentials, even when its body carries an id_token: it is
    passed on when its route is whitelisted and redirected to
    [invalidTokenRoute] otherwise, and neither the response nor the store is
    touched. *)
Theorem invalid_ltik_is_rejected :
  forall (E : Env) (P : Provider) (req : Request) (w : World) (e : string),
    reserved P (req_path req) = false ->
    truthy (req_token req) = true ->
    jwt_verify E (req_token req) (ENCRYPTIONKEY P) = Throw e ->
    sessionValidator E P req w
    = (w, Ok (if whitelisted P req then Next
              else Redirect (req_baseUrl req ++ invalidTokenRoute P))).
Proof.
  intros E P req w e Hpath Htoken Hverify.
  unfold sessionValidator. rewrite Hpath.
  unfold try_catch. rewrite Htoken. cbn [negb]. rewrite Hverify.
  now destruct (whitelisted P req).
Qed.

Lemma invalid_ltik_is_rejected_witness :
  let req := {| req_baseUrl := ""; req_path := "/"; req_method := "POST";
                req_token := VStr "header.payload.tampered";
                req_signedCookies := [(Demo.platformCode, VStr "u1")];
                req_body := [("id_token", VStr "good.id.token"); ("state", VStr "abc")];
                req_query := [] |} in
  sessionValidator Demo.env Demo.provider req (Demo.world launched_store)
  = (Demo.world launched_store,
     Ok (if whitelisted Demo.provider req then Next
         else Redirect (req_baseUrl req ++ invalidTokenRoute Demo.provider))).
Proof.
  intro req.
  apply (invalid_ltik_is_rejected Demo.env Demo.provider req (Demo.world launched_store)
           "invalid signature"); reflexivity.
Defined.

(** X6. The session cookie is checked before the store is read. With a
    verified LTIK, when the cookie named by its platformCode is missing (or
    is [false], its signature having failed) and devMode is off, or when it
    holds a value whose string form differs from the LTIK's user, the
    request is redirected to [sessionTimeoutRoute] and nothing else happens,
    whatever the Database would have answered. *)
Theorem cookie_mismatch_times_out_before_store_access :
  forall (E : Env) (P : Provider) (req : Request) (w : World) (validLtik : value),
    reserved P (req_path req) = false ->
    truthy (req_token req) = true ->
    jwt_verify E (req_token req) (ENCRYPTIONKEY P) = Ok validLtik ->
    nullish validLtik = false ->
    (truthy (session_cookie req validLtik) = false /\ devMode P = false) \/
    (truthy (session_cookie req validLtik) = true /\
     exists u, field validLtik "user" = VStr u /\
               ToString (session_cookie req validLtik) <> u) ->
    sessionValidator E P req w
    = (w, Ok (Redirect (req_baseUrl req ++ sessionTimeoutRoute P))).
Proof.
  intros E P req w validLtik Hpath Htoken Hverify Hobj Hcookie.
  unfold sessionValidator. rewrite Hpath.
  unfold try_catch. rewrite Htoken. cbn [negb]. rewrite Hverify.
  unfold sessionValidator_session, require_coercible. rewrite Hobj.
  cbv beta iota zeta delta [bind of_result ret throw toString_method].
  destruct Hcookie as [[Hc Hdev] | (Hc & u & Huser & Hne)]; rewrite Hc; cbn [negb].
  - rewrite Hdev. reflexivity.
  - rewrite Huser, (truthy_not_nullish _ Hc). cbn [nullish ToString].
    destruct (String.eqb_spec u (ToString (session_cookie req validLtik)));
      [now contradiction Hne | reflexivity].
Qed.

Lemma cookie_mismatch_times_out_before_store_access_witness :
  let req := Demo.steady [(Demo.platformCode, VBool false)] in
  sessionValidator Demo.env_replace_fails Demo.provider req (Demo.world launched_store)
  = (Demo.world launched_store,
     Ok (Redirect (req_baseUrl req ++ sessionTimeoutRoute Demo.provider))).
Proof.
  intro req.
  apply (cookie_mismatch_times_out_before_store_access Demo.env_replace_fails Demo.provider
           req (Demo.world launched_store) Demo.ltik_payload); try reflexivity.
  left. split; reflexivity.
Defined.

(* ===================================================================== *)
(** ** Further properties of the whitelist *)
(* ===================================================================== *)

Lemma format_routes_accepts :
  forall routes,
    (forallb route_accepted routes = true ->
     exists formatted,
       format_routes routes = Ok formatted /\ length formatted = length routes) /\
    (forallb route_accepted routes = false -> exists e, format_routes routes = Throw e).
Proof.
  induction routes as [|route routes [IHok IHko]]; simpl.
  - split; [intros _; exists []; now split | discriminate].
  - unfold route_accepted at 1 3.
    destruct (isObject route).
    + destruct (truthy (field route "route")); cbn [negb orb andb];
        [|split; [discriminate | eauto]].
      destruct (field route "method") as [ | | b | n | | m | f | l ] eqn:Hm;
        cbn [truthy negb andb orb toUpperCase_method];
        try solve [split; [discriminate
                          | intros _;
                            repeat match goal with
                                   | |- context [if ?c then _ else _] => destruct c
                                   end; eauto]].
      destruct (negb (m =? "")); cbn [andb negb]; [|split; [discriminate | eauto]].
      split; intros H.
      * destruct (IHok H) as (formatted & -> & Hlen). eexists. split; [reflexivity|].
        simpl. now rewrite Hlen.
      * destruct (IHko H) as (e & ->). eauto.
    + cbn [andb]. split; intros H.
      * destruct (IHok H) as (formatted & -> & Hlen). eexists. split; [reflexivity|].
        simpl. now rewrite Hlen.
      * destruct (IHko H) as (e & ->). eauto.
Qed.

Lemma format_routes_In :
  forall routes formatted route,
    format_routes routes = Ok formatted ->
    In route routes ->
    (isObject route = false -> In route formatted) /\
    (isObject route = true ->
     forall m, field route "method" = VStr m ->
               In (add (add (field route "route") (VStr "-method-")) (VStr (toUpperCase m)))
                 formatted).
Proof.
  induction routes as [|r routes IH]; intros formatted route Hok Hin; [destruct Hin|].
  simpl in Hok.
  destruct (if isObject r
            then if negb (truthy (field r "route")) || negb (truthy (field r "method"))
                 then Throw "Wrong object format on route."
                 else match toUpperCase_method (field r "method") with
                      | Ok m => Ok (add (add (field r "route") (VStr "-method-")) (VStr m))
                      | Throw e => Throw e
                      end
            else Ok r) as [x|e] eqn:Hx; [|discriminate].
  destruct (format_routes routes) as [rest|e] eqn:Hrest; [|discriminate].
  injection Hok as <-.
  destruct Hin as [->|Hin].
  - split; intros Hobj; rewrite Hobj in Hx.
    + injection Hx as <-. now left.
    + intros m Hm. rewrite Hm in Hx.
      destruct (negb (truthy (field route "route")) || negb (truthy (VStr m)));
        [discriminate|].
      cbn [toUpperCase_method] in Hx. injection Hx as <-. now left.
  - destruct (IH rest route eq_refl Hin) as [Hbare Hmethod].
    split; [intros Hobj; right; now apply Hbare | intros Hobj m Hm; right; now apply Hmethod].
Qed.

Lemma includes_string_In :
  forall l s, In (VStr s) l -> includes_string l s = true.
Proof.
  intros l s Hin. unfold includes_string. apply existsb_exists.
  exists (VStr s). split; [exact Hin | apply String.eqb_refl].
Qed.

(** X7. [whitelist] accepts a list of routes exactly when every object entry
    has a truthy [route] and a non-empty string [method]. An accepted call
    replaces the whole whitelist by one formatted entry per argument and
    changes nothing else; a rejected call throws and leaves the previous
    whitelist in place. *)
Theorem whitelist_accepts_or_keeps :
  forall (routes : list value) (P : Provider),
    (forallb route_accepted routes = true ->
     exists P',
       whitelist routes P = (P', Ok true) /\
       format_routes routes = Ok (whitelistedRoutes P') /\
       length (whitelistedRoutes P') = length routes /\
       (loginRoute P', appRoute P', sessionTimeoutRoute P', invalidTokenRoute P',
        keysetRoute P') =
       (loginRoute P, appRoute P, sessionTimeoutRoute P, invalidTokenRoute P, keysetRoute P) /\
       (ENCRYPTIONKEY P', devMode P', tokenMaxAge P', cookieOptions P') =
       (ENCRYPTIONKEY P, devMode P, tokenMaxAge P, cookieOptions P)) /\
    (forallb route_accepted routes = false ->
     exists e, whitelist routes P = (P, Throw e)).
Proof.
  intros routes P. destruct (format_routes_accepts routes) as [Hok Hko].
  unfold whitelist. cbn [truthy negb]. unfold bind, of_result.
  split; intros H.
  - destruct (Hok H) as (formatted & Hf & Hlen). rewrite Hf.
    eexists. split; [reflexivity|]. cbn. repeat split; assumption.
  - destruct (Hko H) as (e & ->). eauto.
Qed.

Lemma whitelist_accepts_or_keeps_witness :
  let routes := [VStr "/public";
                 VObj [("route", VStr "/hook"); ("method", VStr "post")]] in
  let P := Demo.provider in
  exists P',
    whitelist routes P = (P', Ok true) /\
    format_routes routes = Ok (whitelistedRoutes P') /\
    length (whitelistedRoutes P') = length routes /\
    (loginRoute P', appRoute P', sessionTimeoutRoute P', invalidTokenRoute P',
     keysetRoute P') =
    (loginRoute P, appRoute P, sessionTimeoutRoute P, invalidTokenRoute P, keysetRoute P) /\
    (ENCRYPTIONKEY P', devMode P', tokenMaxAge P', cookieOptions P') =
    (ENCRYPTIONKEY P, devMode P, tokenMaxAge P, cookieOptions P).
Proof.
  apply (proj1 (whitelist_accepts_or_keeps
                  [VStr "/public"; VObj [("route", VStr "/hook"); ("method", VStr "post")]]
                  Demo.provider)).
  reflexivity.
Defined.

Lemma whitelist_then_whitelisted :
  forall (P P' : Provider) (routes : list value) (req : Request),
    whitelist routes P = (P', Ok true) ->
    In (VStr (req_path req)) routes \/
    (exists route m,
        In route routes /\ isObject route = true /\
        field route "route" = VStr (req_path req) /\
        field route "method" = VStr m /\
        toUpperCase m = toUpperCase (req_method req)) ->
    whitelisted P' req = true /\
    reserved P' (req_path req) = reserved P (req_path req).
Proof.
  intros P P' routes req Hwl Hin.
  unfold whitelist in Hwl. cbn [truthy negb] in Hwl. unfold bind, of_result in Hwl.
  destruct (format_routes routes) as [formatted|e] eqn:Hf; [|discriminate].
  cbn in Hwl. injection Hwl as <-. split; [|reflexivity].
  unfold whitelisted. cbn [whitelistedRoutes]. apply orb_true_iff.
  destruct Hin as [Hbare | (route & m & Hroute & Hobj & Hr & Hm & Hupper)].
  - left. apply includes_string_In.
    now apply (format_routes_In routes formatted _ Hf Hbare).
  - right. apply includes_string_In.
    destruct (format_routes_In routes formatted route Hf Hroute) as [_ Hmethod].
    specialize (Hmethod Hobj m Hm).
    rewrite Hr, 2 add_string_left in Hmethod. cbn [ToString] in Hmethod.
    now rewrite append_assoc, Hupper in Hmethod.
Qed.

(** X8. Whitelisting lets unauthenticated requests through. After an
    accepted [whitelist(...routes)], a request without LTIK and without
    id_token whose path is not reserved is passed on untouched when its path
    is one of the bare string entries (whatever its method), or when an
    object entry names its path and, up to case, its method. *)
Theorem whitelisted_request_passes :
  forall (E : Env) (P P' : Provider) (routes : list value) (req : Request) (w : World),
    whitelist routes P = (P', Ok true) ->
    reserved P (req_path req) = false ->
    truthy (req_token req) = false ->
    truthy (lookup "id_token" (req_body req)) = false ->
    In (VStr (req_path req)) routes \/
    (exists route m,
        In route routes /\ isObject route = true /\
        field route "route" = VStr (req_path req) /\
        field route "method" = VStr m /\
        toUpperCase m = toUpperCase (req_method req)) ->
    sessionValidator E P' req w = (w, Ok Next).
Proof.
  intros E P P' routes req w Hwl Hpath Htoken Hid Hin.
  destruct (whitelist_then_whitelisted P P' routes req Hwl Hin) as [Hw Hres].
  unfold sessionValidator. rewrite Hres, Hpath.
  unfold try_catch. rewrite Htoken. cbn [negb]. rewrite Hid, Hw. reflexivity.
Qed.

Lemma whitelisted_request_passes_witness :
  let P' := fst (whitelist [VStr "/public";
                            VObj [("route", VStr "/hook"); ("method", VStr "post")]]
                   Demo.provider) in
  let req := {| req_baseUrl := ""; req_path := "/hook"; req_method := "POST";
                req_token := VUndefined; req_signedCookies := [];
                req_body := [("event", VStr "ping")]; req_query := [] |} in
  sessionValidator Demo.env P' req (Demo.world Demo.registered)
  = (Demo.world Demo.registered, Ok Next).
Proof.
  intros P' req.
  apply (whitelisted_request_passes Demo.env Demo.provider P'
           [VStr "/public"; VObj [("route", VStr "/hook"); ("method", VStr "post")]]
           req (Demo.world Demo.registered)); try reflexivity.
  right. exists (VObj [("route", VStr "/hook"); ("method", VStr "post")]), "post".
  repeat split; try reflexivity. right. now left.
Defined.

(* ===================================================================== *)
(** ** Further properties of the platform registry *)
(* ===================================================================== *)

(** X9. On the contract store, [getPlatform(url)] never writes: for a falsy
    url it throws, and otherwise it answers the Platform built from the
    first platform row whose [platformUrl] is the url, or [false] when there
    is none. *)
Theorem getPlatform_reads_first_row :
  forall (E : Env) (P : Provider) (url : value) (st : Store),
    Database E = MemoryStore.db ->
    getPlatform E P url None None st
    = (st,
       if truthy url then
         Ok (option_map (Platform_of_row (ENCRYPTIONKEY P) MemoryStore.db)
               (hd_error (MemoryStore.find "platform" [("platformUrl", url)] st)))
       else Throw "No url provided").
Proof.
  intros E P url st HDB. unfold getPlatform.
  destruct (truthy url); cbn [negb]; [|reflexivity].
  rewrite HDB. unfold bind. cbn [Get MemoryStore.db]. unfold MemoryStore.get.
  now destruct (MemoryStore.find "platform" [("platformUrl", url)] st).
Qed.

Lemma getPlatform_reads_first_row_witness :
  getPlatform Demo.env Demo.provider (VStr Demo.iss) None None Demo.registered
  = (Demo.registered,
     if truthy (VStr Demo.iss) then
       Ok (option_map (Platform_of_row (ENCRYPTIONKEY Demo.provider) MemoryStore.db)
             (hd_error (MemoryStore.find "platform" [("platformUrl", VStr Demo.iss)]
                          Demo.registered)))
     else Throw "No url provided").
Proof.
  apply (getPlatform_reads_first_row Demo.env Demo.provider (VStr Demo.iss) Demo.registered).
  reflexivity.
Defined.

Lemma platform_document_matches :
  forall platform kid,
    MemoryStore.matches [("platformUrl", field platform "url")]
      (platform_document platform kid) = true.
Proof.
  intros platform kid. unfold MemoryStore.matches. cbn [forallb fst snd].
  change (lookup "platformUrl" (platform_document platform kid)) with (field platform "url").
  now rewrite eqb_refl.
Qed.

(** X10. Registration, then lookup. On the contract store, registering a
    platform whose url has no row yet, with all the required fields and a
    key generator that returns [kid] and leaves the platform collection
    alone, returns a Platform carrying the fields of the argument and the
    new kid; [getPlatform] of the url then answers that same Platform, and
    the url has exactly one row. *)
Theorem registerPlatform_then_getPlatform :
  forall (E : Env) (P : Provider) (platform : value) (st st1 : Store) (kid : value),
    Database E = MemoryStore.db ->
    truthy (field platform "url") = true ->
    MemoryStore.find "platform" [("platformUrl", field platform "url")] st = [] ->
    missing_arguments platform = false ->
    generateProviderKeyPair E (ENCRYPTIONKEY P) (field platform "url") st = (st1, Ok kid) ->
    st1 "platform" = st "platform" ->
    exists (st' : Store) (plat : Platform),
      registerPlatform E P platform st = (st', Ok plat) /\
      getPlatform E P (field platform "url") None None st' = (st', Ok (Some plat)) /\
      MemoryStore.find "platform" [("platformUrl", field platform "url")] st'
      = [platform_document platform kid] /\
      (plat_name plat, plat_url plat, plat_clientId plat, plat_kid plat)
      = (field platform "name", field platform "url", field platform "clientId", kid) /\
      (plat_authEndpoint plat, plat_accesstokenEndpoint plat, plat_authConfig plat)
      = (field platform "authenticationEndpoint", field platform "accesstokenEndpoint",
         field platform "authConfig") /\
      (forall c, c <> "platform" -> st' c = st1 c).
Proof.
  intros E P platform st st1 kid HDB Hurl Hnone Hargs Hkeys Hsame.
  set (url := field platform "url") in *.
  set (st' := with_collection "platform"
                (MemoryStore.replace_first [("platformUrl", url)]
                   (platform_document platform kid) (st1 "platform")) st1).
  assert (Hfind : MemoryStore.find "platform" [("platformUrl", url)] st'
                  = [platform_document platform kid]).
  { unfold MemoryStore.find, st', with_collection. rewrite String.eqb_refl.
    rewrite LaunchFacts.filter_replace_first by apply platform_document_matches.
    rewrite Hsame. unfold MemoryStore.find in Hnone. now rewrite Hnone. }
  eexists st', _. split; [|split; [|split; [exact Hfind|]]].
  - unfold registerPlatform. fold url.
    rewrite (truthy_field_object _ _ Hurl), Hurl. cbn [negb orb].
    cbv beta iota zeta delta [try_catch registerPlatform_try bind reg_db ret rs_store rs_kid
                                assign_kid].
    rewrite (getPlatform_reads_first_row E P (field platform "url") st HDB).
    fold url. rewrite Hurl, Hnone. cbn [hd_error option_map].
    rewrite Hargs, Hkeys, HDB. cbn [Replace MemoryStore.db MemoryStore.replace].
    reflexivity.
  - rewrite (getPlatform_reads_first_row E P url st' HDB), Hurl, Hfind. reflexivity.
  - repeat split. intros c Hc. unfold st', with_collection.
    now destruct (String.eqb_spec c "platform").
Qed.

Lemma registerPlatform_then_getPlatform_witness :
  exists (st' : Store) (plat : Platform),
    registerPlatform Demo.env Demo.provider canvas Demo.registered = (st', Ok plat) /\
    getPlatform Demo.env Demo.provider (field canvas "url") None None st'
    = (st', Ok (Some plat)) /\
    MemoryStore.find "platform" [("platformUrl", field canvas "url")] st'
    = [platform_document canvas (VStr "kid-1")] /\
    (plat_name plat, plat_url plat, plat_clientId plat, plat_kid plat)
    = (field canvas "name", field canvas "url", field canvas "clientId", VStr "kid-1") /\
    (plat_authEndpoint plat, plat_accesstokenEndpoint plat, plat_authConfig plat)
    = (field canvas "authenticationEndpoint", field canvas "accesstokenEndpoint",
       field canvas "authConfig") /\
    (forall c, c <> "platform" ->
               st' c = fst (Demo.keygen "MASTERKEY" (field canvas "url") Demo.registered) c).
Proof.
  apply (registerPlatform_then_getPlatform Demo.env Demo.provider canvas Demo.registered
           (fst (Demo.keygen "MASTERKEY" (field canvas "url") Demo.registered))
           (VStr "kid-1")); reflexivity.
Defined.

(** X11. A failed update destroys the registration. When the platform is
    already registered and the store fails to apply the modification,
    [registerPlatform] rethrows, and its catch block has deleted the
    platform rows of the url (the deletions being those of the store
    contract). *)
Theorem failed_update_deletes_platform :
  forall (E : Env) (P : Provider) (platform : value) (st st1 : Store) (obj : row)
         (rest : list row) (e : string),
    Get (Database E) = MemoryStore.get ->
    Delete (Database E) = MemoryStore.delete ->
    truthy (field platform "url") = true ->
    MemoryStore.find "platform" [("platformUrl", field platform "url")] st = obj :: rest ->
    Modify (Database E) false "platform" [("platformUrl", field platform "url")]
      (platform_patch platform (Platform_of_row (ENCRYPTIONKEY P) (Database E) obj)) st
    = (st1, Throw e) ->
    exists st' : Store,
      registerPlatform E P platform st = (st', Throw ("Error: " ++ e)) /\
      MemoryStore.find "platform" [("platformUrl", field platform "url")] st' = [].
Proof.
  intros E P platform st st1 obj rest e HGet HDelete Hurl Hfind Hmodify.
  unfold registerPlatform.
  rewrite (truthy_field_object _ _ Hurl), Hurl. cbn [negb orb].
  cbv beta iota zeta delta [try_catch registerPlatform_try registerPlatform_catch bind
                              reg_db ret throw read_kid rs_store rs_kid getPlatform].
  rewrite Hurl, HGet. cbn [negb]. unfold MemoryStore.get at 1. rewrite Hfind.
  cbv beta iota. rewrite Hmodify, HDelete.
  unfold MemoryStore.delete at 1 2 3. cbn [fst snd].
  eexists. split; [reflexivity|].
  apply (StoreFacts.find_after_delete "platform" [("platformUrl", field platform "url")]).
Qed.

Lemma failed_update_deletes_platform_witness :
  exists st' : Store,
    registerPlatform env_modify_fails Demo.provider moodle_update Demo.registered
    = (st', Throw ("Error: " ++ "write failed")) /\
    MemoryStore.find "platform" [("platformUrl", field moodle_update "url")] st' = [].
Proof.
  apply (failed_update_deletes_platform env_modify_fails Demo.provider moodle_update
           Demo.registered Demo.registered Demo.moodle [] "write failed"); reflexivity.
Defined.

(** X12. [deletePlatform] of a url that is not registered answers [false]
    without writing to the store and without calling [remove]; with a falsy
    url it throws before reading anything. *)
Theorem deletePlatform_unregistered :
  forall (E : Env) (P : Provider) (remove : Platform -> Eff Store value) (url : value)
         (st : Store),
    Database E = MemoryStore.db ->
    (truthy url = false ->
     deletePlatform E P remove url st = (st, Throw "No url provided")) /\
    (truthy url = true ->
     MemoryStore.find "platform" [("platformUrl", url)] st = [] ->
     deletePlatform E P remove url st = (st, Ok (VBool false))).
Proof.
  intros E P remove url st HDB. unfold deletePlatform. split.
  - intros ->. reflexivity.
  - intros Hurl Hnone. rewrite Hurl. cbn [negb].
    unfold bind. rewrite (getPlatform_reads_first_row E P url st HDB), Hurl, Hnone.
    reflexivity.
Qed.

Lemma deletePlatform_unregistered_witness :
  deletePlatform Demo.env Demo.provider (fun _ => throw "remove was called")
    (VStr "https://canvas.example/") Demo.registered
  = (Demo.registered, Ok (VBool false)).
Proof.
  apply (proj2 (deletePlatform_unregistered Demo.env Demo.provider
                  (fun _ => throw "remove was called") (VStr "https://canvas.example/")
                  Demo.registered eq_refl)); reflexivity.
Defined.

(* ===================================================================== *)
(** ** Further properties of the login route *)
(* ===================================================================== *)

(** X13. A login request whose issuer is missing or not registered sets no
    cookie and writes nothing: without an [iss] the answer is HTTP 400, and
    with an [iss] that has no platform row it is HTTP 401 with the body
    [Unregistered platform.] *)
Theorem login_without_platform :
  forall (E : Env) (P : Provider) (req : Request) (w : World),
    Database E = MemoryStore.db ->
    let iss := lookup "iss" (spread (req_query req) (req_body req)) in
    (truthy iss = false -> loginHandler E P req w = (w, Ok (SendStatus 400))) /\
    (truthy iss = true ->
     MemoryStore.find "platform" [("platformUrl", iss)] (store w) = [] ->
     loginHandler E P req w = (w, Ok (Send 401 "Unregistered platform."))).
Proof.
  intros E P req w HDB iss.
  assert (Hrun : loginHandler E P req w
                 = (let (s', r) :=
                      let (st, r) := getPlatform E P iss None None (store w) in
                      ({| store := st; res := res w |}, r) in
                    match r with
                    | Ok (Some _) => loginHandler E P req w
                    | Ok None => (s', Ok (Send 401 "Unregistered platform."))
                    | Throw _ => (s', Ok (SendStatus 400))
                    end)).
  { unfold loginHandler at 1, try_catch, bind, db_op. fold iss.
    destruct (getPlatform E P iss None None (store w)) as [st [[pl|]|e]] eqn:Hg;
      try reflexivity.
    unfold loginHandler, try_catch, bind, db_op. fold iss. now rewrite Hg. }
  rewrite Hrun, (getPlatform_reads_first_row E P iss (store w) HDB).
  destruct w as [st r]. split.
  - intros ->. reflexivity.
  - intros -> Hnone. cbn [store] in Hnone. cbn [store]. now rewrite Hnone.
Qed.

Lemma login_without_platform_witness :
  loginHandler Demo.env Demo.provider Demo.login (Demo.world empty_store)
  = (Demo.world empty_store, Ok (Send 401 "Unregistered platform.")).
Proof.
  apply (proj2 (login_without_platform Demo.env Demo.provider Demo.login
                  (Demo.world empty_store) eq_refl)); reflexivity.
Defined.

(** X14. A login request of a registered platform, once the authentication
    request is built, is redirected to [url.format] of the platform's
    [authEndpoint] and that request; the response sets exactly one cookie,
    [state<state>] with the issuer as value, a max-age of ten minutes and
    otherwise the configured cookie options, where [<state>] is the state
    that was handed to [ltiAdvantageLogin]. *)
Theorem login_redirects_with_state_cookie :
  forall (E : Env) (P : Provider) (req : Request) (w : World) (obj : row) (rest : list row)
         (st' : Store) (query : object),
    Database E = MemoryStore.db ->
    let params := spread (req_query req) (req_body req) in
    let iss := lookup "iss" params in
    truthy iss = true ->
    MemoryStore.find "platform" [("platformUrl", iss)] (store w) = obj :: rest ->
    ltiAdvantageLogin E params (Platform_of_row (ENCRYPTIONKEY P) MemoryStore.db obj)
      (new_state E) (store w) = (st', Ok query) ->
    loginHandler E P req w
    = ({| store := st';
          res := {| res_cookies :=
                      (res_cookies (res w)
                       ++ [SetCookie ("state" ++ new_state E) iss
                             {| secure := secure (cookieOptions P);
                                httpOnly := httpOnly (cookieOptions P);
                                signed := signed (cookieOptions P);
                                sameSite := sameSite (cookieOptions P);
                                maxAge := Some 600000%Z |}])%list;
                    res_locals := res_locals (res w) |} |},
       Ok (Redirect (url_format E (lookup "authEndpoint" obj) query))).
Proof.
  intros E P req w obj rest st' query HDB params iss Hiss Hfind Hlogin.
  unfold loginHandler, try_catch, bind, db_op. fold params. fold iss.
  rewrite (getPlatform_reads_first_row E P iss (store w) HDB), Hiss, Hfind.
  cbn [hd_error option_map]. unfold res_cookie. cbn [store res].
  now rewrite Hlogin.
Qed.

Lemma login_redirects_with_state_cookie_witness :
  let E := Demo.env in
  let P := Demo.provider in
  let w := Demo.world Demo.registered in
  let params := spread (req_query Demo.login) (req_body Demo.login) in
  loginHandler E P Demo.login w
  = ({| store := Demo.registered;
        res := {| res_cookies :=
                    (res_cookies (res w)
                     ++ [SetCookie ("state" ++ new_state E) (lookup "iss" params)
                           {| secure := secure (cookieOptions P);
                              httpOnly := httpOnly (cookieOptions P);
                              signed := signed (cookieOptions P);
                              sameSite := sameSite (cookieOptions P);
                              maxAge := Some 600000%Z |}])%list;
                  res_locals := res_locals (res w) |} |},
     Ok (Redirect (url_format E (lookup "authEndpoint" Demo.moodle)
                     [("response_type", VStr "id_token");
                      ("client_id", VStr "C");
                      ("redirect_uri", VStr "https://tool.example/");
                      ("login_hint", VStr "u1");
                      ("state", VStr (new_state E))]))).
Proof.
  apply (login_redirects_with_state_cookie Demo.env Demo.provider Demo.login
           (Demo.world Demo.registered) Demo.moodle [] Demo.registered); reflexivity.
Defined.

Lemma digit36_char :
  forall n, n < 36 ->
    exists c, digit36 n = String c "" /\ base36_char c = true /\ uri_unreserved c = true.
Proof.
  intros n Hn.
  do 36 (destruct n as [|n]; [eexists; repeat split; reflexivity|]).
  lia.
Qed.

Lemma encodeURIComponent_base36 :
  forall digits : list string,
    Forall (fun d => exists c, d = String c "" /\ base36_char c = true
                               /\ uri_unreserved c = true) digits ->
    encodeURIComponent (String.concat "" digits) = String.concat "" digits /\
    String.length (String.concat "" digits) = length digits /\
    Forall (fun c => base36_char c = true) (list_ascii_of_string (String.concat "" digits)).
Proof.
  induction 1 as [|d digits (c & -> & Hc & Hu) Hrest (IHenc & IHlen & IHall)].
  - repeat split. constructor.
  - assert (Hcons : String.concat "" (String c "" :: digits)
                    = String c (String.concat "" digits)).
    { destruct digits; reflexivity. }
    rewrite Hcons. cbn [encodeURIComponent String.length list_ascii_of_string length].
    rewrite Hu, IHenc, IHlen. repeat split. now constructor.
Qed.

(** X15. The state of a login is twenty characters out of [0-9a-z] (each
    [Math.random() * 36 | 0] being a digit below 36); so the state cookie is
    named [state] followed by those twenty characters, none of which was
    rewritten by [encodeURIComponent]. *)
Theorem new_state_is_twenty_base36_digits :
  forall E : Env,
    (forall i, random36 E i < 36) ->
    String.length (new_state E) = 20 /\
    Forall (fun c => base36_char c = true) (list_ascii_of_string (new_state E)) /\
    new_state E = String.concat "" (map (fun i => digit36 (random36 E i)) (seq 0 20)).
Proof.
  intros E Hrandom. unfold new_state.
  destruct (encodeURIComponent_base36 (map (fun i => digit36 (random36 E i)) (seq 0 20)))
    as (Henc & Hlen & Hall).
  { apply Forall_forall. intros d Hd. apply in_map_iff in Hd.
    destruct Hd as (i & <- & _). apply digit36_char, Hrandom. }
  rewrite Henc. repeat split; [|exact Hall].
  rewrite Hlen. now rewrite length_map, length_seq.
Qed.

Lemma new_state_is_twenty_base36_digits_witness :
  String.length (new_state Demo.env) = 20 /\
  Forall (fun c => base36_char c = true) (list_ascii_of_string (new_state Demo.env)) /\
  new_state Demo.env
  = String.concat "" (map (fun i => digit36 (random36 Demo.env i)) (seq 0 20)).
Proof.
  apply (new_state_is_twenty_base36_digits Demo.env).
  intro i. apply Nat.mod_upper_bound. discriminate.
Defined.

(* ===================================================================== *)
(** ** Configuration, callbacks and the main route *)
(* ===================================================================== *)


Module SetupFacts.

Lemma with_own_cookieOptions : forall P, with_cookieOptions (cookieOptions P) P = P.
Proof. now intros []. Qed.

Lemma with_own_sameSite : forall c, with_sameSite (sameSite c) c = c.
Proof. now intros []. Qed.

(** The cookie block of [setup] on a [sameSite] that has [toLowerCase] or is
    falsy: it returns, and only the cookie options change. *)
Lemma cookies_return :
  forall c F,
    truthy (cookies_sameSite c)
    && match cookies_sameSite c with VStr _ => false | _ => true end = false ->
    exists c',
      snd (setup_cookies c F) = Ok tt /\
      private (fst (setup_cookies c F)) = with_cookieOptions c' (private F) /\
      this_Database (fst (setup_cookies c F)) = this_Database F /\
      (secure (cookieOptions (private F)) = true -> secure c' = true) /\
      (none_implies_secure (cookieOptions (private F)) -> none_implies_secure c') /\
      (cookies_secure c = VBool true -> secure c' = true) /\
      (forall s, cookies_sameSite c = VStr s -> s <> "" ->
                 sameSite c' = VStr s /\ (toLowerCase s = "none" -> secure c' = true)) /\
      (httpOnly c', signed c', maxAge c')
      = (httpOnly (cookieOptions (private F)), signed (cookieOptions (private F)),
         maxAge (cookieOptions (private F))) /\
      (truthy (cookies_sameSite c) = false ->
       sameSite c' = sameSite (cookieOptions (private F))) /\
      (secure c' = true ->
       secure (cookieOptions (private F)) = true \/ cookies_secure c = VBool true \/
       exists s, cookies_sameSite c = VStr s /\ toLowerCase s = "none").
Proof.
  intros c F Hok. unfold setup_cookies, none_implies_secure.
  destruct (cookies_sameSite c) as [ | | [|] | z | | s | o | l ] eqn:Hs;
    cbn [truthy andb] in Hok; try discriminate Hok;
    cbn [truthy toLowerCase_method];
    try (rewrite andb_true_r in Hok; rewrite Hok).
  all: try (destruct (String.eqb_spec s "") as [->|Hne]; cbn [negb]).
  all: cbv beta iota zeta delta [bind ret of_result assign_private].
  all: cbn [private this_Database fst snd].
  all: try destruct (toLowerCase s =? "none") eqn:Hnone.
  all: cbv beta iota zeta delta [bind ret of_result assign_private];
    cbn [private this_Database fst snd].
  all: destruct (cookies_secure c) as [ | | [|] | | | | | ];
    cbv beta iota zeta delta [bind ret of_result assign_private];
    cbn [private this_Database fst snd with_cookieOptions cookieOptions loginRoute appRoute
           sessionTimeoutRoute invalidTokenRoute keysetRoute whitelistedRoutes ENCRYPTIONKEY
           devMode tokenMaxAge].
  all: eexists; (split; [reflexivity|]);
    (split; [first [reflexivity | symmetry; apply with_own_cookieOptions]|]);
    (split; [reflexivity|]).
  all: cbn [with_sameSite with_secure secure sameSite httpOnly signed maxAge].
  all: try match goal with
           | H : (_ =? _) = true |- _ => apply String.eqb_eq in H
           | H : (_ =? _) = false |- _ => apply String.eqb_neq in H
           end.
  all: repeat split; intros; subst;
    repeat match goal with
           | H : VStr _ = VStr _ |- _ => injection H as H; subst
           | H : ?x <> ?x |- _ => now contradiction H
           end;
    try reflexivity; try discriminate; try congruence; eauto 6.
Qed.

(** The cookie block on a truthy [sameSite] without [toLowerCase]: the value
    is stored, and then the call throws. *)
Lemma cookies_throw :
  forall c F,
    truthy (cookies_sameSite c)
    && match cookies_sameSite c with VStr _ => false | _ => true end = true ->
    exists e,
      setup_cookies c F
      = ({| private := with_cookieOptions
                         (with_sameSite (cookies_sameSite c) (cookieOptions (private F)))
                         (private F);
            this_Database := this_Database F |}, Throw e).
Proof.
  intros c F Hbad. unfold setup_cookies.
  destruct (cookies_sameSite c) as [ | | [|] | z | | s | o | l ];
    cbn [truthy andb] in Hbad; try discriminate Hbad;
    try (rewrite andb_false_r in Hbad; discriminate Hbad).
  all: try (apply andb_prop in Hbad as [Hbad _]; cbn [truthy]; rewrite Hbad).
  all: cbn [truthy toLowerCase_method].
  all: cbv beta iota zeta delta [bind ret of_result assign_private throw];
    cbn [private this_Database fst snd]; eexists; reflexivity.
Qed.

End SetupFacts.

(** X16. [setup] never weakens the instance, and it can fail half-way.
    Whatever the result, the whitelist is kept, [devMode] and the [secure]
    flag stay on if they were on, and if a [sameSite] of [none] implied
    [secure] before, it still does. When one of the first three guards fires
    (https without key and certificate, no encryption key, no database)
    nothing is written. Past them [this.Database] is overwritten first: a
    database plugin, or a failing [DB(database)], makes [setup] throw with
    the private fields untouched and [this.Database] left at [null], so a
    handle held before is lost. With the Database object in place, a truthy
    [cookies.sameSite] that is not a string makes [setup] throw after the
    routes, [devMode] and [tokenMaxAge] of the options and that [sameSite]
    have been stored, and before the key is. Otherwise [setup] returns with
    the key stored and the routes, [devMode] and [tokenMaxAge] of the
    options assigned; of the cookie options only [sameSite] and [secure] can
    change: a truthy [cookies.sameSite] is stored, and [secure] is on
    afterwards exactly when it was on, or [cookies.secure] is [true], or
    [cookies.sameSite] is [none] in any case. *)
Theorem setup_is_conservative :
  forall (DB : value -> result DatabaseOps) (encryptionkey : string) (database : value)
         (options : option SetupOptions) (F : Fields),
    let F' := fst (setup DB encryptionkey database options F) in
    let r := snd (setup DB encryptionkey database options F) in
    (whitelistedRoutes (private F') = whitelistedRoutes (private F) /\
     (devMode (private F) = true -> devMode (private F') = true) /\
     (secure (cookieOptions (private F)) = true ->
      secure (cookieOptions (private F')) = true) /\
     (none_implies_secure (cookieOptions (private F)) ->
      none_implies_secure (cookieOptions (private F')))) /\
    (setup_rejects encryptionkey database options = true ->
     F' = F /\ exists e, r = Throw e) /\
    (setup_rejects encryptionkey database options = false ->
     (truthy (field database "plugin") = true ->
      private F' = private F /\ this_Database F' = DatabaseNull /\ exists e, r = Throw e) /\
     (truthy (field database "plugin") = false ->
      (forall e, DB database = Throw e ->
         private F' = private F /\ this_Database F' = DatabaseNull /\ r = Throw e) /\
      (forall d, DB database = Ok d ->
         this_Database F' = DatabaseObject d /\
         (sameSite_without_toLowerCase options = true ->
          (exists e, r = Throw e) /\
          exists o c,
            options = Some o /\ opt_cookies o = Some c /\
            private F'
            = with_cookieOptions
                (with_sameSite (cookies_sameSite c) (cookieOptions (private F)))
                (assign_options o (private F))) /\
         (sameSite_without_toLowerCase options = false ->
          r = Ok tt /\
          ENCRYPTIONKEY (private F') = encryptionkey /\
          private F'
          = with_cookieOptions (cookieOptions (private F'))
              (assign_ENCRYPTIONKEY encryptionkey
                 match options with
                 | Some o => assign_options o (private F)
                 | None => private F
                 end) /\
          (httpOnly (cookieOptions (private F')), signed (cookieOptions (private F')),
           maxAge (cookieOptions (private F')))
          = (httpOnly (cookieOptions (private F)), signed (cookieOptions (private F)),
             maxAge (cookieOptions (private F))) /\
          (cookies_of options = None ->
           cookieOptions (private F') = cookieOptions (private F)) /\
          forall c, cookies_of options = Some c ->
            (cookies_secure c = VBool true -> secure (cookieOptions (private F')) = true) /\
            (forall s, cookies_sameSite c = VStr s -> s <> "" ->
               sameSite (cookieOptions (private F')) = VStr s /\
               (toLowerCase s = "none" -> secure (cookieOptions (private F')) = true)) /\
            (truthy (cookies_sameSite c) = false ->
             sameSite (cookieOptions (private F')) = sameSite (cookieOptions (private F))) /\
            (secure (cookieOptions (private F')) = true ->
             secure (cookieOptions (private F)) = true \/ cookies_secure c = VBool true \/
             exists s, cookies_sameSite c = VStr s /\ toLowerCase s = "none"))))).
Proof.
  intros DB encryptionkey database options F F' r. subst F' r.
  unfold setup_rejects, setup.
  destruct (match options with Some o => https_without_certificate o | None => false end);
    cbn [orb negb fst snd throw];
    [split; [tauto | split; [intros _; split; [reflexivity | eexists; reflexivity]
                            | discriminate]]|].
  destruct (encryptionkey =? "") eqn:Hkey;
    cbn [orb negb fst snd throw];
    [split; [tauto | split; [intros _; split; [reflexivity | eexists; reflexivity]
                            | discriminate]]|].
  destruct (truthy database);
    cbn [orb negb fst snd throw];
    [|split; [tauto | split; [intros _; split; [reflexivity | eexists; reflexivity]
                             | discriminate]]].
  destruct (truthy (field database "plugin")); cbn [negb].
  { cbv beta iota zeta delta [bind ret throw assign_Database]. cbn [fst snd private].
    split; [tauto|]. split; [discriminate|]. intros _. split; [|discriminate].
    intros _. split; [reflexivity|]. split; [reflexivity|]. eexists; reflexivity. }
  destruct (DB database) as [d|e] eqn:HDB.
  2:{ cbv beta iota zeta delta [bind ret throw of_result assign_Database].
      cbn [fst snd private this_Database].
      split; [tauto|]. split; [discriminate|]. intros _. split; [discriminate|].
      intros _. split; [|discriminate]. intros e' [= <-]. repeat split. }
  unfold sameSite_without_toLowerCase, cookies_of.
  destruct options as [o|].
  2:{ cbv beta iota zeta delta [bind ret throw of_result assign_Database assign_private].
      cbn [fst snd private this_Database assign_ENCRYPTIONKEY whitelistedRoutes devMode
             cookieOptions ENCRYPTIONKEY].
      split; [tauto|]. split; [discriminate|]. intros _. split; [discriminate|].
      intros _. split; [discriminate|]. intros d' [= <-].
      split; [reflexivity|]. split; [discriminate|]. intros _.
      split; [reflexivity|]. split; [reflexivity|]. split; [reflexivity|].
      split; [reflexivity|]. split; [reflexivity|]. discriminate. }
  assert (Hdev : devMode (private F) = true -> devMode (assign_options o (private F)) = true).
  { cbn [assign_options devMode]. intros ->.
    now destruct (opt_devMode o) as [ | | [|] | | | | | ]. }
  destruct (opt_cookies o) as [c|] eqn:Hc.
  2:{ cbv beta iota zeta delta [bind ret throw of_result assign_Database assign_private].
      cbn [fst snd private this_Database assign_ENCRYPTIONKEY whitelistedRoutes devMode
             cookieOptions ENCRYPTIONKEY].
      split; [split; [reflexivity | split; [exact Hdev | tauto]]|].
      split; [discriminate|]. intros _. split; [discriminate|].
      intros _. split; [discriminate|]. intros d' [= <-].
      split; [reflexivity|]. split; [discriminate|]. intros _.
      split; [reflexivity|]. split; [reflexivity|]. split; [reflexivity|].
      split; [reflexivity|]. split; [reflexivity|]. discriminate. }
  set (F1 := {| private := assign_options o (private F); this_Database := DatabaseObject d |}).
  destruct (truthy (cookies_sameSite c)
            && match cookies_sameSite c with VStr _ => false | _ => true end) eqn:Hbad.
  - destruct (SetupFacts.cookies_throw c F1 Hbad) as [e Hrun].
    cbv beta iota zeta delta [bind ret throw of_result assign_Database assign_private].
    cbn [fst snd private this_Database]. fold F1. rewrite Hrun.
    cbn [fst snd private this_Database F1 with_cookieOptions with_sameSite whitelistedRoutes
           devMode cookieOptions secure sameSite assign_options].
    split.
    { split; [reflexivity|]. split; [exact Hdev|]. split; [tauto|].
      intros _. unfold none_implies_secure. cbn [with_sameSite sameSite].
      intros s Hs. apply andb_prop in Hbad as [_ Hbad]. rewrite Hs in Hbad.
      discriminate Hbad. }
    split; [discriminate|]. intros _. split; [discriminate|].
    intros _. split; [discriminate|]. intros d' [= <-].
    split; [reflexivity|]. split; [|discriminate]. intros _.
    split; [eexists; reflexivity|]. exists o, c.
    split; [reflexivity|]. split; [exact Hc | reflexivity].
  - destruct (SetupFacts.cookies_return c F1 Hbad)
      as (c' & Hr & Hprivate & Hdatabase & Hsec & Hinv & Hon & Hsame & Hframe & Hkept
          & Hwhy).
    cbv beta iota zeta delta [bind ret throw of_result assign_Database assign_private].
    cbn [fst snd private this_Database]. fold F1.
    destruct (setup_cookies c F1) as [F2 r2]. cbn [fst snd] in Hr, Hprivate, Hdatabase.
    subst r2. cbn [fst snd private this_Database]. rewrite Hprivate, Hdatabase.
    cbn [fst snd private this_Database F1 with_cookieOptions assign_ENCRYPTIONKEY
           whitelistedRoutes devMode cookieOptions ENCRYPTIONKEY assign_options].
    cbn [F1 private assign_options cookieOptions] in Hsec, Hinv, Hframe, Hkept, Hwhy.
    split; [split; [reflexivity | split; [exact Hdev | split; assumption]]|].
    split; [discriminate|]. intros _. split; [discriminate|].
    intros _. split; [discriminate|]. intros d' [= <-].
    split; [reflexivity|]. split; [discriminate|]. intros _.
    split; [reflexivity|]. split; [reflexivity|]. split; [reflexivity|].
    split; [exact Hframe|]. split; [discriminate|].
    intros c0 [= <-].
    split; [exact Hon | split; [exact Hsame | split; [exact Hkept | exact Hwhy]]].
Qed.

(** A database plugin on an instance that is running: the call throws and
    the Database object of the instance is gone. *)
Lemma setup_is_conservative_witness :
  let F' := fst (setup connect "MASTERKEY" mongo_plugin None running_fields) in
  let r := snd (setup connect "MASTERKEY" mongo_plugin None running_fields) in
  private F' = private running_fields /\ this_Database F' = DatabaseNull /\
  exists e, r = Throw e.
Proof.
  apply (proj1 (proj2 (proj2 (setup_is_conservative connect "MASTERKEY" mongo_plugin None
                                running_fields)) eq_refl) eq_refl).
Defined.

(** The instance configured by options that ask for cross-site cookies: the
    cookies are secure, the deprecated [loginUrl] is honoured, and a
    [devMode] that is not the boolean [true] is ignored. *)
Example setup_with_cross_site_cookies :
  let F' := fst (setup connect "MASTERKEY" mongo (Some cross_site_options) new_fields) in
  snd (setup connect "MASTERKEY" mongo (Some cross_site_options) new_fields) = Ok tt /\
  (secure (cookieOptions (private F')), sameSite (cookieOptions (private F')),
   loginRoute (private F'), devMode (private F'), tokenMaxAge (private F'),
   ENCRYPTIONKEY (private F'))
  = (true, VStr "None", "/oidc", false, VBool false, "MASTERKEY").
Proof. split; reflexivity. Qed.

(** With [sameSite: true] the call throws a TypeError half-way: the login
    route, [devMode], [tokenMaxAge] and the [sameSite] of the options are
    stored, the [secure] of the options and the key are not. *)
Example setup_with_boolean_sameSite :
  let F' := fst (setup connect "MASTERKEY" mongo (Some boolean_sameSite_options)
                   new_fields) in
  snd (setup connect "MASTERKEY" mongo (Some boolean_sameSite_options) new_fields)
  = Throw "TypeError: options.cookies.sameSite.toLowerCase is not a function" /\
  (secure (cookieOptions (private F')), sameSite (cookieOptions (private F')),
   loginRoute (private F'), devMode (private F'), tokenMaxAge (private F'),
   ENCRYPTIONKEY (private F'))
  = (false, VBool true, "/oidc", true, VBool false, "").
Proof. split; reflexivity. Qed.



(** X18. The main route dispatches on the stored message type. Once
    [sessionValidator] has attached a session, the handler of [appRoute]
    calls the deep-linking callback when the ContextToken's [messageType] is
    the string [LtiDeepLinkingRequest] and the connect callback otherwise,
    in both cases with the IdToken carrying the ContextToken as its
    [platformContext]; and the callbacks it calls are the ones last
    registered with [onDeepLinking] and [onConnect]. *)
Theorem main_route_dispatch :
  forall (req : Request) (ltik : value) (idrow ctxrow : row) (w : World),
    let w' := attach_session ltik idrow ctxrow w in
    let token := VObj (set "platformContext" (VObj ctxrow) idrow) in
    (forall C : Callbacks,
        appHandler C req w'
        = (if is_deep_linking (VObj ctxrow) then deepLinkingCallback C token req w'
           else connectCallback C token req w')) /\
    (forall (cb : Callback) (I : Instance),
        is_deep_linking (VObj ctxrow) = true ->
        appHandler (callbacks (fst (onDeepLinking (Some cb) I))) req w' = cb token req w') /\
    (forall (cb : Callback) (o : option ConnectOptions) (I : Instance),
        is_deep_linking (VObj ctxrow) = false ->
        appHandler (callbacks (fst (onConnect (Some cb) o I))) req w' = cb token req w').
Proof.
  intros req ltik idrow ctxrow w w' token.
  destruct (attach_session_locals ltik idrow ctxrow w) as (Hcontext & Htoken & _ & _).
  assert (Hdispatch : forall C : Callbacks,
             appHandler C req w'
             = (if is_deep_linking (VObj ctxrow) then deepLinkingCallback C token req w'
                else connectCallback C token req w')).
  { intro C. unfold appHandler, w'. cbv zeta. rewrite Hcontext, Htoken.
    unfold bind, require_coercible. cbn [nullish ret].
    now destruct (is_deep_linking (VObj ctxrow)). }
  split; [exact Hdispatch | split].
  - intros cb I Hdl. rewrite Hdispatch, Hdl. reflexivity.
  - intros cb o I Hdl. rewrite Hdispatch, Hdl. now destruct o.
Qed.

Lemma main_route_dispatch_witness :
  let cb : Callback := fun _ _ => ret (Send 200 "Pick a resource.") in
  let w' := attach_session (VStr "header.payload.signature")
              (launch_platformToken Demo.claims) deep_linking_context
              (Demo.world launched_store) in
  appHandler (callbacks (fst (onDeepLinking (Some cb) initial_instance))) session_request w'
  = cb (VObj (set "platformContext" (VObj deep_linking_context)
                (launch_platformToken Demo.claims))) session_request w'.
Proof.
  intros cb w'.
  apply (proj1 (proj2 (main_route_dispatch session_request (VStr "header.payload.signature")
                         (launch_platformToken Demo.claims) deep_linking_context
                         (Demo.world launched_store))) cb initial_instance).
  reflexivity.
Defined.

(** X19. Whitelisting a route gives no session. After an accepted
    [whitelist] that contains the path of the request, an unauthenticated
    request is passed on by [sessionValidator] with [res.locals] as it was;
    if that path is the main route, its handler then throws a TypeError on
    [res.locals.context], whatever callbacks are registered, and calls none
    of them. *)
Theorem whitelisted_main_route_has_no_session :
  forall (E : Env) (P P' : Provider) (routes : list value) (req : Request) (w : World)
         (C : Callbacks),
    whitelist routes P = (P', Ok true) ->
    In (VStr (req_path req)) routes ->
    reserved P (req_path req) = false ->
    truthy (req_token req) = false ->
    truthy (lookup "id_token" (req_body req)) = false ->
    lookup "context" (res_locals (res w)) = VUndefined ->
    sessionValidator E P' req w = (w, Ok Next) /\
    appHandler C req w = (w, Throw "TypeError: Cannot read properties of undefined").
Proof.
  intros E P P' routes req w C Hwl Hin Hpath Htoken Hid Hlocals.
  destruct (whitelist_then_whitelisted P P' routes req Hwl (or_introl Hin)) as [Hw Hres].
  split.
  - unfold sessionValidator. rewrite Hres, Hpath.
    unfold try_catch. rewrite Htoken. cbn [negb]. rewrite Hid, Hw. reflexivity.
  - unfold appHandler. cbv zeta. rewrite Hlocals. reflexivity.
Qed.

Lemma whitelisted_main_route_has_no_session_witness :
  let P' := fst (whitelist [VStr "/"] Demo.provider) in
  let req := {| req_baseUrl := ""; req_path := "/"; req_method := "GET";
                req_token := VUndefined; req_signedCookies := [];
                req_body := []; req_query := [] |} in
  sessionValidator Demo.env P' req (Demo.world Demo.registered)
  = (Demo.world Demo.registered, Ok Next) /\
  appHandler initial_callbacks req (Demo.world Demo.registered)
  = (Demo.world Demo.registered, Throw "TypeError: Cannot read properties of undefined").
Proof.
  intros P' req.
  apply (whitelisted_main_route_has_no_session Demo.env Demo.provider P' [VStr "/"] req
           (Demo.world Demo.registered) initial_callbacks); try reflexivity.
  now left.
Defined.

(* ===================================================================== *)
(** ** The redirect helper *)
(* ===================================================================== *)

Module RedirectFacts.

Lemma set_keys :
  forall k v o k', In k' (map fst (set k v o)) -> k' = k \/ In k' (map fst o).
Proof.
  intros k v o k'. induction o as [|[k0 v0] o IH]; simpl.
  - intros [<-|[]]. now left.
  - destruct (String.eqb_spec k0 k) as [->|Hne]; simpl.
    + intros [<-|H]; [now left | right; now right].
    + intros [<-|H]; [right; now left|]. destruct (IH H); [now left | right; now right].
Qed.

Lemma set_NoDup :
  forall k v o, NoDup (map fst o) -> NoDup (map fst (set k v o)).
Proof.
  intros k v o. induction o as [|[k0 v0] o IH]; simpl; intros Hnd.
  - constructor; [intros [] | constructor].
  - inversion Hnd as [|x l Hnotin Hnd']; subst.
    destruct (String.eqb_spec k0 k) as [->|Hne]; simpl.
    + now constructor.
    + constructor; [|now apply IH].
      intros Hin. destruct (set_keys _ _ _ _ Hin) as [->|Hin']; [now apply Hne | now apply Hnotin].
Qed.

(** Array indices are the canonical numerals below 2^32 - 1. *)
Example array_index_examples :
  array_index "0" = Some 0%N /\ array_index "10" = Some 10%N /\
  array_index "4294967294" = Some 4294967294%N /\ array_index "4294967295" = None /\
  array_index "07" = None /\ array_index "" = None /\ array_index "1e3" = None /\
  array_index "ltik" = None.
Proof. repeat split; reflexivity. Qed.

Lemma has_own_In : forall k o, has_own k o = true <-> In k (map fst o).
Proof.
  intros k o. unfold has_own. rewrite existsb_exists. split.
  - intros [[k' v'] [Hin Heq]]. apply String.eqb_eq in Heq. cbn [fst] in Heq. subst k'.
    now apply (in_map fst) in Hin.
  - intros Hin. apply in_map_iff in Hin as [[k' v'] [Heq Hin]]. cbn [fst] in Heq. subst k'.
    exists (k, v'). split; [exact Hin | apply String.eqb_refl].
Qed.

Lemma has_own_false : forall k o, has_own k o = false -> ~ In k (map fst o).
Proof.
  intros k o Hno Hin. apply has_own_In in Hin. congruence.
Qed.

(** An assignment to a key that is there changes no key, and one to a new
    key that is not an array index adds the key at the end. *)
Lemma set_keys_present :
  forall k v o, In k (map fst o) -> map fst (set k v o) = map fst o.
Proof.
  intros k v o. induction o as [|[k0 v0] o IH]; simpl; [intros []|].
  intros Hin. destruct (String.eqb_spec k0 k) as [->|Hne]; simpl; [reflexivity|].
  f_equal. apply IH. destruct Hin; [contradiction | assumption].
Qed.

Lemma set_keys_absent :
  forall k v o, ~ In k (map fst o) -> map fst (set k v o) = (map fst o ++ [k])%list.
Proof.
  intros k v o. induction o as [|[k0 v0] o IH]; simpl; [reflexivity|].
  intros Hnotin. destruct (String.eqb_spec k0 k) as [->|Hne]; simpl; [tauto|].
  f_equal. apply IH. tauto.
Qed.

Lemma insert_index_keys :
  forall n k v o k',
    In k' (map fst (insert_index n k v o)) <-> k' = k \/ In k' (map fst o).
Proof.
  intros n k v o k'. induction o as [|[k0 v0] o IH]; simpl.
  - intuition.
  - destruct (array_index k0) as [m|]; [destruct (m <? n)%N|]; simpl; rewrite ?IH;
      intuition.
Qed.

Lemma lookup_insert_index_same :
  forall n k v o, ~ In k (map fst o) -> lookup k (insert_index n k v o) = v.
Proof.
  intros n k v o. induction o as [|[k0 v0] o IH]; simpl; intros Hnotin.
  - now rewrite String.eqb_refl.
  - destruct (array_index k0) as [m|]; [destruct (m <? n)%N|]; simpl;
      try (now rewrite String.eqb_refl).
    destruct (String.eqb_spec k0 k) as [->|Hne]; [tauto|]. apply IH. tauto.
Qed.

Lemma lookup_insert_index_other :
  forall n k v o k', k' <> k -> lookup k' (insert_index n k v o) = lookup k' o.
Proof.
  intros n k v o k' Hne. induction o as [|[k0 v0] o IH]; simpl.
  - destruct (String.eqb_spec k k'); [congruence | reflexivity].
  - destruct (array_index k0) as [m|]; [destruct (m <? n)%N|]; simpl;
      try (destruct (String.eqb_spec k k'); [congruence | reflexivity]).
    destruct (String.eqb_spec k0 k'); [reflexivity | exact IH].
Qed.

Lemma insert_index_NoDup :
  forall n k v o,
    ~ In k (map fst o) -> NoDup (map fst o) -> NoDup (map fst (insert_index n k v o)).
Proof.
  intros n k v o. induction o as [|[k0 v0] o IH]; simpl; intros Hnotin Hnd.
  - constructor; [intros [] | constructor].
  - inversion Hnd as [|x l Hk0 Hnd']; subst.
    destruct (array_index k0) as [m|]; [destruct (m <? n)%N|]; simpl;
      try (constructor; [simpl; tauto | now constructor]).
    constructor; [|apply IH; tauto].
    rewrite insert_index_keys. intros [->|Hin]; tauto.
Qed.

Lemma define_own_keys :
  forall k v o k', In k' (map fst (define_own k v o)) -> k' = k \/ In k' (map fst o).
Proof.
  intros k v o k'. unfold define_own.
  destruct (has_own k o); [apply set_keys|].
  destruct (array_index k); [apply insert_index_keys | apply set_keys].
Qed.

Lemma define_own_NoDup :
  forall k v o, NoDup (map fst o) -> NoDup (map fst (define_own k v o)).
Proof.
  intros k v o Hnd. unfold define_own.
  destruct (has_own k o) eqn:Hown; [now apply set_NoDup|].
  destruct (array_index k); [|now apply set_NoDup].
  apply insert_index_NoDup; [now apply has_own_false | exact Hnd].
Qed.

Lemma lookup_define_own_same : forall k v o, lookup k (define_own k v o) = v.
Proof.
  intros k v o. unfold define_own.
  destruct (has_own k o) eqn:Hown; [apply lookup_set_same|].
  destruct (array_index k); [|apply lookup_set_same].
  apply lookup_insert_index_same. now apply has_own_false.
Qed.

Lemma lookup_define_own_other :
  forall k k' v o, k' <> k -> lookup k (define_own k' v o) = lookup k o.
Proof.
  intros k k' v o Hne. unfold define_own.
  destruct (has_own k' o); [now apply lookup_set_other|].
  destruct (array_index k'); [|now apply lookup_set_other].
  apply lookup_insert_index_other. congruence.
Qed.

(** The order of the own keys is kept by every definition of a property. *)
Lemma forallb_insert_index :
  forall (p : string -> bool) n k v o,
    forallb p (map fst (insert_index n k v o)) = p k && forallb p (map fst o).
Proof.
  intros p n k v o. induction o as [|[k0 v0] o IH]; simpl; [reflexivity|].
  destruct (array_index k0) as [m|]; [destruct (m <? n)%N|]; simpl; try reflexivity.
  rewrite IH. now destruct (p k0), (p k).
Qed.

Lemma order_insert_index :
  forall n k v o,
    array_index k = Some n ->
    own_key_order (map fst o) = true ->
    own_key_order (map fst (insert_index n k v o)) = true.
Proof.
  intros n k v o Hk. induction o as [|[k0 v0] o IH];
    cbn [map fst insert_index own_key_order forallb]; intros Hord.
  - now rewrite Hk.
  - destruct (array_index k0) as [m|] eqn:Hk0.
    + apply andb_prop in Hord as [Hrest Hord].
      destruct (m <? n)%N eqn:Hmn; cbn [map fst own_key_order forallb];
        rewrite ?Hk0, ?Hk.
      * rewrite forallb_insert_index, Hk, Hrest, (IH Hord).
        apply N.ltb_lt in Hmn. apply N.lt_le_incl, N.leb_le in Hmn. now rewrite Hmn.
      * rewrite Hrest, Hord.
        apply N.ltb_ge in Hmn. assert (Hnm := Hmn). apply N.leb_le in Hnm. rewrite Hnm.
        cbn [andb]. rewrite andb_true_r.
        apply forallb_forall. intros k' Hin.
        rewrite forallb_forall in Hrest. specialize (Hrest k' Hin).
        destruct (array_index k') as [m'|]; [|reflexivity].
        apply N.leb_le. apply N.leb_le in Hrest. now apply N.le_trans with m.
    + cbn [map fst own_key_order forallb]. rewrite Hk, Hk0, Hord. cbn [andb].
      rewrite andb_true_r.
      apply forallb_forall. intros k' Hin.
      rewrite forallb_forall in Hord. specialize (Hord k' Hin).
      now destruct (array_index k').
Qed.

Lemma order_append :
  forall k keys,
    array_index k = None ->
    own_key_order keys = true -> own_key_order (keys ++ [k])%list = true.
Proof.
  intros k keys Hk. induction keys as [|k0 keys IH];
    cbn [app own_key_order forallb]; intros Hord.
  - now rewrite Hk.
  - destruct (array_index k0) as [m|].
    + apply andb_prop in Hord as [Hrest Hord].
      rewrite forallb_app, Hrest, (IH Hord). cbn [forallb]. now rewrite Hk.
    + rewrite forallb_app, Hord. cbn [forallb]. now rewrite Hk.
Qed.

Lemma order_define_own :
  forall k v o,
    own_key_order (map fst o) = true -> own_key_order (map fst (define_own k v o)) = true.
Proof.
  intros k v o Hord. unfold define_own.
  destruct (has_own k o) eqn:Hown.
  - rewrite set_keys_present; [exact Hord | now apply has_own_In].
  - destruct (array_index k) as [n|] eqn:Hk.
    + now apply order_insert_index.
    + rewrite set_keys_absent by now apply has_own_false.
      now apply order_append.
Qed.

(** The loop over the parameters. *)
Lemma collect_invariant :
  forall entries acc,
    NoDup (map fst acc) ->
    own_key_order (map fst acc) = true ->
    ~ In "__proto__" (map fst acc) ->
    let queries := fold_left (fun q kv => assign_query (fst kv) (snd kv) q) entries acc in
    NoDup (map fst queries) /\
    own_key_order (map fst queries) = true /\
    ~ In "__proto__" (map fst queries) /\
    (forall k, In k (map fst queries) -> In k (map fst acc) \/ In k (map fst entries)).
Proof.
  induction entries as [|[k v] entries IH]; intros acc Hnd Hord Hproto; cbn [fold_left].
  - repeat split; auto.
  - cbn [fst snd]. unfold assign_query at 2 4 6 8.
    destruct (String.eqb_spec k "__proto__") as [->|Hk].
    + destruct (IH acc Hnd Hord Hproto) as (H1 & H2 & H3 & H4).
      repeat split; auto. intros k' Hin. destruct (H4 k' Hin); [now left|].
      right. cbn [map fst In]. now right.
    + destruct (IH (define_own k (VStr v) acc)) as (H1 & H2 & H3 & H4).
      * now apply define_own_NoDup.
      * now apply order_define_own.
      * intros Hin. apply define_own_keys in Hin as [Heq|Hin]; [congruence | tauto].
      * repeat split; auto. intros k' Hin. cbn [map fst In].
        destruct (H4 k' Hin) as [Hacc|Hrest]; [|tauto].
        apply define_own_keys in Hacc as [->|Hacc]; tauto.
Qed.

Lemma collect_untouched :
  forall entries acc k,
    ~ In k (map fst entries) ->
    lookup k (fold_left (fun q kv => assign_query (fst kv) (snd kv) q) entries acc)
    = lookup k acc.
Proof.
  induction entries as [|[k0 v0] entries IH]; intros acc k Hnotin; simpl; [reflexivity|].
  simpl in Hnotin. rewrite IH by tauto. unfold assign_query.
  destruct (k0 =? "__proto__"); [reflexivity|].
  apply lookup_define_own_other. intros ->. apply Hnotin. now left.
Qed.

Lemma collect_last :
  forall before k v after,
    k <> "__proto__" ->
    ~ In k (map fst after) ->
    lookup k (collect_queries (before ++ (k, v) :: after)%list) = VStr v.
Proof.
  intros before k v after Hk Hnotin. unfold collect_queries.
  rewrite fold_left_app. simpl. rewrite collect_untouched by exact Hnotin.
  unfold assign_query. destruct (String.eqb_spec k "__proto__"); [contradiction|].
  apply lookup_define_own_same.
Qed.

Lemma prefix_app : forall a b, String.prefix a (a ++ b) = true.
Proof.
  induction a as [|c a IH]; intro b; simpl; [now destruct b|].
  destruct (ascii_dec c c); [apply IH | contradiction].
Qed.

Lemma prefix_colon :
  forall d c r, c <> ":"%char -> String.prefix (String ":" d) (String c r) = false.
Proof.
  intros d c r Hc.
  change (String.prefix (String ":" d) (String c r))
    with (if ascii_dec ":" c then String.prefix d r else false).
  destruct (ascii_dec ":" c) as [<-|]; [now contradiction Hc | reflexivity].
Qed.

Lemma leading_digits_app :
  forall digits post,
    all_digits digits -> no_leading_digit post -> leading_digits (digits ++ post) = digits.
Proof.
  induction digits as [|c digits IH]; intros post Hall Hpost; cbn [append leading_digits].
  - destruct post as [|c post]; [reflexivity|]. cbn [no_leading_digit] in Hpost.
    cbn [leading_digits]. now rewrite Hpost.
  - rewrite (Hall c) by (simpl; now left). f_equal.
    apply IH; [|exact Hpost]. intros c' Hc'. apply Hall. simpl. now right.
Qed.

Lemma port_match_first :
  forall pre r,
    no_colon pre -> port_match (pre ++ String ":" r) = Some (String ":" (leading_digits r)).
Proof.
  induction pre as [|c pre IH]; intros r Hpre; simpl; [reflexivity|].
  destruct (Ascii.eqb_spec c ":") as [->|Hc].
  - exfalso. apply (Hpre ":"%char); [simpl; now left | reflexivity].
  - apply IH. intros c' Hc'. apply Hpre. simpl. now right.
Qed.

Lemma port_match_none : forall s, no_colon s -> port_match s = None.
Proof.
  induction s as [|c s IH]; intros Hs; simpl; [reflexivity|].
  destruct (Ascii.eqb_spec c ":") as [->|Hc].
  - exfalso. apply (Hs ":"%char); [simpl; now left | reflexivity].
  - apply IH. intros c' Hc'. apply Hs. simpl. now right.
Qed.

Lemma remove_skip :
  forall sub a post,
    remove_all_from sub (String.length a) (a ++ post) = remove_all_from sub 0 post.
Proof.
  intros sub a post. induction a as [|c a IH]; simpl; [|exact IH].
  now destruct post.
Qed.

Lemma remove_occurrence :
  forall d post,
    remove_all_from (String ":" d) 0 (String ":" d ++ post)
    = remove_all_from (String ":" d) 0 post.
Proof.
  intros d post.
  change (remove_all_from (String ":" d) 0 (String ":" d ++ post))
    with (if String.prefix (String ":" d) (String ":" d ++ post)
          then remove_all_from (String ":" d) (String.length (String ":" d) - 1) (d ++ post)
          else String ":" (remove_all_from (String ":" d) 0 (d ++ post))).
  rewrite prefix_app.
  replace (String.length (String ":" d) - 1) with (String.length d)
    by (cbn [String.length]; lia).
  apply remove_skip.
Qed.

Lemma remove_no_colon :
  forall d s, no_colon s -> remove_all_from (String ":" d) 0 s = s.
Proof.
  intros d. induction s as [|c s IH]; intros Hs; [reflexivity|].
  assert (Hc : c <> ":"%char) by (apply Hs; simpl; now left).
  change (remove_all_from (String ":" d) 0 (String c s))
    with (if String.prefix (String ":" d) (String c s)
          then remove_all_from (String ":" d) (String.length (String ":" d) - 1) s
          else String c (remove_all_from (String ":" d) 0 s)).
  rewrite (prefix_colon d c s Hc). f_equal. apply IH.
  intros c' Hc'. apply Hs. simpl. now right.
Qed.

Lemma remove_after_prefix :
  forall d pre s,
    no_colon pre ->
    remove_all_from (String ":" d) 0 (pre ++ s) = pre ++ remove_all_from (String ":" d) 0 s.
Proof.
  intros d. induction pre as [|c pre IH]; intros s Hpre; [reflexivity|].
  assert (Hc : c <> ":"%char) by (apply Hpre; simpl; now left).
  change (remove_all_from (String ":" d) 0 (String c pre ++ s))
    with (if String.prefix (String ":" d) (String c (pre ++ s))
          then remove_all_from (String ":" d) (String.length (String ":" d) - 1) (pre ++ s)
          else String c (remove_all_from (String ":" d) 0 (pre ++ s))).
  rewrite (prefix_colon d c (pre ++ s) Hc). simpl. f_equal. apply IH.
  intros c' Hc'. apply Hpre. simpl. now right.
Qed.

End RedirectFacts.

(** X20. [redirect] keeps the session in the URL. Without a token in
    [res.locals] it is a plain redirect to the path and touches nothing.
    With a token (and a pathname to work on) the query handed to
    [url.format] binds [ltik] to the LTIK of the request, whatever [ltik]
    the path carried itself. No parameter occurs twice; the keys are in the
    order of the own keys of an object, array indices first and ascending;
    each of them is [ltik] or a parameter of the path, and none is
    [__proto__], which the assignment in the loop never defines. Every
    other parameter of the path keeps the value of its last occurrence. *)
Theorem redirect_carries_the_ltik :
  forall (E : Env) (U : UrlLib) (path : string) (w : World),
    let token := lookup "token" (res_locals (res w)) in
    let ltik := lookup "ltik" (res_locals (res w)) in
    let entries := URLSearchParams_entries U (url_search (url_parse U path)) in
    (truthy token = false ->
     forall isNewResource, redirect E U path isNewResource w = (w, Ok (Redirect path))) /\
    (truthy token = true ->
     forall pathname,
       url_pathname (url_parse U path) = VStr pathname ->
       exists formatted,
         redirect E U path false w = (w, Ok (Redirect (url_format_parts U formatted))) /\
         redirect_target U path ltik = Ok formatted /\
         lookup "ltik" (fmt_query formatted) = ltik /\
         NoDup (map fst (fmt_query formatted)) /\
         own_key_order (map fst (fmt_query formatted)) = true /\
         (forall k, In k (map fst (fmt_query formatted)) ->
                    k <> "__proto__" /\ (k = "ltik" \/ In k (map fst entries))) /\
         (forall k v before after,
             k <> "ltik" ->
             k <> "__proto__" ->
             entries = (before ++ (k, v) :: after)%list ->
             ~ In k (map fst after) ->
             lookup k (fmt_query formatted) = VStr v)).
Proof.
  intros E U path w token ltik entries. split.
  - intros Htoken isNewResource. unfold redirect. fold token. now rewrite Htoken.
  - intros Htoken pathname Hpathname.
    assert (Htarget : exists formatted,
               redirect_target U path ltik = Ok formatted /\
               fmt_query formatted = define_own "ltik" ltik (collect_queries entries)).
    { unfold redirect_target. rewrite Hpathname. eexists. split; reflexivity. }
    destruct Htarget as (formatted & Htarget & Hquery).
    destruct (RedirectFacts.collect_invariant entries [] (NoDup_nil _) eq_refl (fun H => H))
      as (Hnd & Hord & Hproto & Hkeys).
    fold (collect_queries entries) in Hnd, Hord, Hproto, Hkeys.
    exists formatted.
    split; [|split; [exact Htarget | rewrite Hquery; split; [|split; [|split; [|split]]]]].
    + unfold redirect. fold token. fold ltik. rewrite Htoken. cbn [negb].
      unfold bind, ret, of_result. rewrite Htarget. reflexivity.
    + apply RedirectFacts.lookup_define_own_same.
    + now apply RedirectFacts.define_own_NoDup.
    + now apply RedirectFacts.order_define_own.
    + intros k Hin. apply RedirectFacts.define_own_keys in Hin as [->|Hin].
      * split; [discriminate | now left].
      * split; [intros ->; contradiction|].
        destruct (Hkeys k Hin) as [[]|Hentries]. now right.
    + intros k v before after Hk Hk' -> Hlast.
      rewrite RedirectFacts.lookup_define_own_other by congruence.
      now apply RedirectFacts.collect_last.
Qed.

Lemma redirect_carries_the_ltik_witness :
  exists formatted,
    redirect Demo.env crafted_urls "/next" false session_world
    = (session_world, Ok (Redirect (url_format_parts crafted_urls formatted))) /\
    redirect_target crafted_urls "/next" (lookup "ltik" (res_locals (res session_world)))
    = Ok formatted /\
    lookup "ltik" (fmt_query formatted) = lookup "ltik" (res_locals (res session_world)) /\
    NoDup (map fst (fmt_query formatted)) /\
    own_key_order (map fst (fmt_query formatted)) = true /\
    (forall k, In k (map fst (fmt_query formatted)) ->
               k <> "__proto__" /\
               (k = "ltik" \/
                In k (map fst (URLSearchParams_entries crafted_urls
                                 (url_search (url_parse crafted_urls "/next")))))) /\
    (forall k v before after,
        k <> "ltik" ->
        k <> "__proto__" ->
        URLSearchParams_entries crafted_urls (url_search (url_parse crafted_urls "/next"))
        = (before ++ (k, v) :: after)%list ->
        ~ In k (map fst after) ->
        lookup k (fmt_query formatted) = VStr v).
Proof.
  apply (proj2 (redirect_carries_the_ltik Demo.env crafted_urls "/next" session_world)
           eq_refl "/next" eq_refl).
Defined.

(** The query of the witness, [b=1&ltik=stale&__proto__=x&10=t&b=2&9=u&07=z]:
    the array indices [9] and [10] come first, [b] has its last value, the
    stale [ltik] is replaced where it stood, [__proto__] is gone, and [07],
    which is no array index, comes last. *)
Example query_of_the_crafted_path :
  match redirect_target crafted_urls "/next" (VStr "fresh") with
  | Ok formatted =>
      fmt_query formatted
      = [("9", VStr "u"); ("10", VStr "t"); ("b", VStr "2"); ("ltik", VStr "fresh");
         ("07", VStr "z")]
  | Throw _ => False
  end.
Proof. reflexivity. Qed.

(** X21. [redirect] moves a port out of the pathname. The protocol, the
    hostname and the auth part go to [url.format] as parsed. A pathname
    without a colon goes through unchanged, with the parsed port. In a
    pathname with a colon, the digits that follow its first colon become the
    port, and that colon with its digits is cut out of the pathname (at
    every place where it occurs). *)
Theorem redirect_moves_port_out_of_pathname :
  forall (U : UrlLib) (path : string) (ltik : value) (pathname : string),
    url_pathname (url_parse U path) = VStr pathname ->
    exists formatted,
      redirect_target U path ltik = Ok formatted /\
      (fmt_protocol formatted, fmt_hostname formatted, fmt_auth formatted)
      = (url_protocol (url_parse U path), url_hostname (url_parse U path),
         url_auth (url_parse U path)) /\
      (no_colon pathname ->
       fmt_pathname formatted = VStr pathname /\
       fmt_port formatted = url_port (url_parse U path)) /\
      (forall pre digits post,
          pathname = pre ++ String ":" (digits ++ post) ->
          no_colon pre -> all_digits digits -> no_leading_digit post ->
          fmt_port formatted = VStr digits /\
          fmt_pathname formatted = VStr (pre ++ remove_all (String ":" digits) post) /\
          (no_colon post -> fmt_pathname formatted = VStr (pre ++ post))).
Proof.
  intros U path ltik pathname Hpathname. unfold redirect_target. rewrite Hpathname.
  eexists. split; [reflexivity|]. cbn [fmt_protocol fmt_hostname fmt_auth fmt_pathname fmt_port].
  split; [reflexivity | split].
  - intros Hnone. now rewrite (RedirectFacts.port_match_none pathname Hnone).
  - intros pre digits post -> Hpre Hdigits Hpost.
    rewrite (RedirectFacts.port_match_first pre (digits ++ post) Hpre).
    rewrite (RedirectFacts.leading_digits_app digits post Hdigits Hpost).
    cbn [fst snd]. unfold remove_all.
    assert (Hcut : remove_all_from (String ":" digits) 0 (pre ++ String ":" (digits ++ post))
                   = pre ++ remove_all_from (String ":" digits) 0 post).
    { rewrite (RedirectFacts.remove_after_prefix digits pre _ Hpre).
      change (String ":" (digits ++ post)) with (String ":" digits ++ post).
      now rewrite RedirectFacts.remove_occurrence. }
    rewrite Hcut. repeat split.
    intros Hnone. now rewrite (RedirectFacts.remove_no_colon digits post Hnone).
Qed.

Lemma redirect_moves_port_out_of_pathname_witness :
  exists formatted,
    redirect_target stub_urls ":3000/deep" (VStr "ltik") = Ok formatted /\
    (fmt_protocol formatted, fmt_hostname formatted, fmt_auth formatted)
    = (url_protocol (url_parse stub_urls ":3000/deep"),
       url_hostname (url_parse stub_urls ":3000/deep"),
       url_auth (url_parse stub_urls ":3000/deep")) /\
    (no_colon ":3000/deep" ->
     fmt_pathname formatted = VStr ":3000/deep" /\
     fmt_port formatted = url_port (url_parse stub_urls ":3000/deep")) /\
    (forall pre digits post,
        ":3000/deep" = pre ++ String ":" (digits ++ post) ->
        no_colon pre -> all_digits digits -> no_leading_digit post ->
        fmt_port formatted = VStr digits /\
        fmt_pathname formatted = VStr (pre ++ remove_all (String ":" digits) post) /\
        (no_colon post -> fmt_pathname formatted = VStr (pre ++ post))).
Proof.
  apply (redirect_moves_port_out_of_pathname stub_urls ":3000/deep" (VStr "ltik") ":3000/deep").
  reflexivity.
Defined.

(** The port case at work: [:3000/deep] is formatted with port [3000] and
    pathname [/deep]. *)
Example redirect_target_of_port_pathname :
  match redirect_target stub_urls ":3000/deep" (VStr "ltik") with
  | Ok formatted => (fmt_port formatted, fmt_pathname formatted)
  | Throw _ => (VUndefined, VUndefined)
  end = (VStr "3000", VStr "/deep").
Proof. reflexivity. Qed.



(** X23. The session cookie is set only after both tokens are stored. For
    any Database, in a launch whose id_token validates on a fresh response,
    if the response carries a cookie that is being set, then the upsert of
    the IdToken and after it the upsert of the ContextToken both returned,
    and the store is the one the second upsert left. *)
Theorem session_cookie_only_after_both_tokens_are_stored :
  forall (E : Env) (P : Provider) (req : Request) (w : World) (st1 : Store)
         (valid : value) (iss : string),
    reserved P (req_path req) = false ->
    truthy (req_token req) = false ->
    truthy (lookup "id_token" (req_body req)) = true ->
    validateToken E (lookup "id_token" (req_body req)) (devMode P)
      (validationParameters P req) (store w) = (st1, Ok valid) ->
    field valid "iss" = VStr iss ->
    res_cookies (res w) = [] ->
    let run := sessionValidator E P req w in
    (exists name val options, In (SetCookie name val options) (res_cookies (res (fst run)))) ->
    exists st2 st3,
      Replace (Database E) false "idtoken"
        (idtoken_filter (field valid "iss") (field valid claim_deployment_id)
           (field valid "sub")) (launch_platformToken valid) st1 = (st2, Ok tt) /\
      Replace (Database E) false "contexttoken"
        (contexttoken_filter (VStr (launch_contextId valid)) (field valid "sub"))
        (launch_contextToken req valid) st2 = (st3, Ok tt) /\
      store (fst run) = st3.
Proof.
  intros E P req w st1 valid iss Hpath Htoken Hid Hvalid Hiss Hfresh run.
  assert (Hobj : nullish valid = false).
  { destruct valid; try discriminate; reflexivity. }
  assert (Hb64 : add (field valid "iss") (field valid claim_deployment_id)
                 = VStr (iss ++ ToString (field valid claim_deployment_id))).
  { now rewrite Hiss. }
  unfold run, sessionValidator. rewrite Hpath.
  unfold try_catch. rewrite Htoken. cbn [negb]. rewrite Hid.
  cbv beta iota zeta delta [sessionValidator_launch bind db_op ret throw of_result
                              res_clearCookie res_cookie require_coercible
                              Buffer_from_base64].
  rewrite Hvalid. cbv beta iota. fold (launch_contextId valid).
  rewrite Hobj, Hb64.
  cbn [store res fst snd res_cookies res_locals]. rewrite Hfresh. cbn [app].
  fold (launch_platformToken valid). fold (launch_contextToken req valid).
  destruct (Replace (Database E) false "idtoken" _ (launch_platformToken valid) st1)
    as [st2 [[]|e2]].
  - cbn [store res fst snd res_cookies res_locals app].
    destruct (Replace (Database E) false "contexttoken" _ (launch_contextToken req valid) st2)
      as [st3 [[]|e3]] eqn:Hcontext.
    + intros _. exists st2, st3. split; [reflexivity | split; [exact Hcontext|]].
      now destruct (jwt_sign E _ (ENCRYPTIONKEY P)).
    + cbn [fst res res_cookies]. intros (name & val & options & [Hin|[]]). discriminate Hin.
  - cbn [fst res res_cookies]. intros (name & val & options & [Hin|[]]). discriminate Hin.
Qed.

Lemma session_cookie_only_after_both_tokens_are_stored_witness :
  let E := Demo.env in
  let P := Demo.provider in
  let req := Demo.callback "good.id.token" in
  let valid := Demo.claims in
  let run := sessionValidator E P req (Demo.world Demo.registered) in
  exists st2 st3,
    Replace (Database E) false "idtoken"
      (idtoken_filter (field valid "iss") (field valid claim_deployment_id)
         (field valid "sub")) (launch_platformToken valid) Demo.registered = (st2, Ok tt) /\
    Replace (Database E) false "contexttoken"
      (contexttoken_filter (VStr (launch_contextId valid)) (field valid "sub"))
      (launch_contextToken req valid) st2 = (st3, Ok tt) /\
    store (fst run) = st3.
Proof.
  apply (session_cookie_only_after_both_tokens_are_stored Demo.env Demo.provider
           (Demo.callback "good.id.token") (Demo.world Demo.registered) Demo.registered
           Demo.claims Demo.iss); try reflexivity.
  exists Demo.platformCode, (VStr "u1"), (cookieOptions Demo.provider).
  right. now left.
Defined.
